(** * Deliveroo reconciliation: matching and variance classification

    A shallow embedding of [implementation/deliveroo/DR02_data_reconciliation.py]
    (sections 5 to 7: [aggregate_order_values], [_resolve_collision_by_timestamp],
    [_resolve_collision_by_value], [match_deliveroo_orders], [calculate_variances]).

    Conventions of the embedding.
    - A DataFrame is the list of its rows, in row order; a column is a record
      field. A missing cell (NaN / NaT) of a timestamp or date column is [None].
    - A float column holds IEEE 754 binary64 numbers: the kernel's [float],
      with its round-to-nearest operations and comparisons. A NaN cell of a
      float column is the float [nan].
    - Text is a string of code points below 256.
    - Timestamps are seconds ([Z]), dates are day numbers ([Z]); one hour is
      3600 seconds, [timedelta(days=1)] is one day number.
    - Python dicts are [gmap]s, the used-id set is a [gset].
    - The progress log only feeds log lines and is left out. *)

From Stdlib Require Import Ascii String ZArith Floats.
From stdpp Require Import gmap strings list fin_maps sorting.

Set Warnings "-inexact-float".

Local Open Scope string_scope.

(** ** Data model *)

(** One row of the Deliveroo Combined table as [load_dr_combined] hands it on. *)
Record DrRow := mkDrRow {
  order_number : string;
  accounting_category : string;
  order_last4 : string;
  mfc_name : string;
  delivery_date : option Z;
  dr_delivery_ts : option Z;
  order_value_gross : float;
  marketing_offer_discount : float;
  adjustment_gross : float;
}.

(** One row of the warehouse table as [load_dwh_deliveroo] hands it on. *)
Record DwhRow := mkDwhRow {
  gp_order_id : string;
  mp_order_id : string;
  location_name : string;
  created_at_day : option Z;
  order_completed : float;
  post_promo_sales_inc_vat : float;
  created_at_ts : option Z;
  delivered_at_ts : option Z;
}.

(** One row of [agg_df]. *)
Record AggRow := mkAggRow {
  agg_order_number : string;
  agg_order_last4 : string;
  agg_mfc_name : string;
  agg_delivery_date : option Z;
  agg_gross_order_value : float;
  agg_order_value_gross : float;
  agg_marketing_offer_discount : float;
  agg_unavailable_items_adjustment : float;
  agg_fees_row_count : nat;
  agg_order_row_count : nat;
  agg_net_sales_value : float;
  agg_has_refund : bool;
}.

(** A candidate dict stored in [dwh_lookup]. *)
Record Candidate := mkCandidate {
  cand_idx : nat;
  cand_gp_order_id : string;
  cand_dwh_value : float;
  cand_created_at_ts : option Z;
  cand_delivered_at_ts : option Z;
}.

(** A value of [match_results]. [mi_dwh_idx] and [mi_dwh_data] are the keys
    that only a matched entry has. *)
Record MatchInfo := mkMatchInfo {
  mi_matched : bool;
  mi_dwh_idx : option nat;
  mi_dwh_data : option DwhRow;
  mi_order_category : string;
  mi_match_status : string;
  mi_match_confidence : string;
  mi_cross_midnight : bool;
  mi_net_sales_value : float;
  mi_gross_order_value : float;
  mi_unavailable_items_adjustment : float;
}.

(** A row of the table returned by [match_deliveroo_orders]: the original
    row and the columns added to it. A column the row does not have (NaN,
    or absent from the table) is [None]. *)
Record ResultRow := mkResultRow {
  res_row : DrRow;
  res_order_category : string;
  res_match_status : string;
  res_match_confidence : option string;
  res_net_sales_value : option float;
  res_gross_order_value : option float;
  res_unavailable_items_adjustment : option float;
  res_dwh_data : option DwhRow;
}.

(** A row of the table returned by [calculate_variances]. *)
Record VarianceRow := mkVarianceRow {
  var_row : ResultRow;
  amount_variance : float;
  matched_amount : string;
  variance_explanation : string;
}.

(** ** Small helpers *)

(** [.fillna(0)] on a float cell. *)
Definition fillna0 (x : float) : float := if is_nan x then 0%float else x.

(** [float(x or 0)]: a zero of either sign is falsy and gives [0.0]; NaN is
    truthy and is kept. *)
Definition float_or_0 (x : float) : float := if (x =? 0)%float then 0%float else x.

(** [x != 0] on a float column. *)
Definition nonzero (x : float) : bool := negb (x =? 0)%float.

(** One turn of the loop of pandas' [group_sum] (the "sum" of a group-by):
    Kahan summation, the state is [(sumx, compensation)]; a compensation
    that is NaN (an infinite cell) is reset. *)
Definition kahan_step (st : float * float) (val : float) : float * float :=
  let '(sumx, compensation) := st in
  let y := (val - compensation)%float in
  let t := (sumx + y)%float in
  let compensation := (t - sumx - y)%float in
  let compensation := if is_nan compensation then 0%float else compensation in
  (t, compensation).

(** The sum of the cells of one group, in row order. *)
Definition group_sum (l : list float) : float := (fold_left kahan_step l (0%float, 0%float)).1.

(** Python's [str.strip()]: the white space of [str.isspace] below code
    point 256 (tab .. carriage return, the separators 28 .. 31, the space,
    next line 133 and no-break space 160) is dropped at both ends. *)
Definition is_space (c : ascii) : bool :=
  let n := nat_of_ascii c in
  ((9 <=? n)%nat && (n <=? 13)%nat) || ((28 <=? n)%nat && (n <=? 32)%nat)
  || (n =? 133)%nat || (n =? 160)%nat.

Fixpoint lstrip (s : string) : string :=
  match s with
  | EmptyString => EmptyString
  | String c s' => if is_space c then lstrip s' else s
  end.

Fixpoint string_rev_app (s acc : string) : string :=
  match s with
  | EmptyString => acc
  | String c s' => string_rev_app s' (String c acc)
  end.

Definition strip (s : string) : string :=
  string_rev_app (lstrip (string_rev_app (lstrip s) EmptyString)) EmptyString.

(** [dr_df["delivery_date"] = dr_df["dr_delivery_ts"].dt.date] *)
Definition date_of_ts (ts : Z) : Z := (ts / 86400)%Z.

Definition with_delivery_date (r : DrRow) : DrRow :=
  mkDrRow (order_number r) (accounting_category r) (order_last4 r) (mfc_name r)
          (date_of_ts <$> dr_delivery_ts r) (dr_delivery_ts r)
          (order_value_gross r) (marketing_offer_discount r) (adjustment_gross r).

(** ** Section 5: order aggregation *)

Definition is_order (r : DrRow) : Prop :=
  accounting_category r = "Order Value & Commission".
Definition is_fee (r : DrRow) : Prop :=
  accounting_category r = "Additional Fees".
Definition is_payment (r : DrRow) : Prop :=
  accounting_category r = "Additional Payments".

Global Instance is_order_dec r : Decision (is_order r).
Proof. unfold is_order. apply _. Defined.
Global Instance is_fee_dec r : Decision (is_fee r).
Proof. unfold is_fee. apply _. Defined.
Global Instance is_payment_dec r : Decision (is_payment r).
Proof. unfold is_payment. apply _. Defined.

(** The rows of a table whose [order_number] is [onum]: one group of
    [groupby("order_number")]. *)
Definition group_of (onum : string) (df : list DrRow) : list DrRow :=
  filter (λ r, order_number r = onum) df.

(** [fees_df.groupby("order_number").agg(sum, count)], read at one key;
    [None] when the key has no group (the left merge then leaves NaN). *)
Definition fees_agg (fees_df : list DrRow) (onum : string) : option (float * nat) :=
  match group_of onum fees_df with
  | [] => None
  | grp => Some (group_sum (fillna0 ∘ adjustment_gross <$> grp), length grp)
  end.

(** [dr_df.groupby("order_number").size()], read at one key. *)
Definition row_counts (dr_df : list DrRow) (onum : string) : nat :=
  length (group_of onum dr_df).

Definition aggregate_row (dr_df fees_df : list DrRow) (o : DrRow) : AggRow :=
  (* fillna(0) on the two value columns of the order rows *)
  let discount := fillna0 (marketing_offer_discount o) in
  let value_gross := fillna0 (order_value_gross o) in
  let gross_order_value := (value_gross + discount)%float in
  let merged := fees_agg fees_df (order_number o) in
  (* fillna(0) on the two merged columns *)
  let unavailable_items_adjustment := fillna0 (default nan (fst <$> merged)) in
  let fees_row_count := default 0%nat (snd <$> merged) in
  mkAggRow (order_number o) (order_last4 o) (mfc_name o) (delivery_date o)
           gross_order_value value_gross discount
           unavailable_items_adjustment fees_row_count
           (row_counts dr_df (order_number o))
           (gross_order_value + unavailable_items_adjustment)%float
           (nonzero unavailable_items_adjustment).

Definition aggregate_order_values (dr_df : list DrRow) : list AggRow :=
  let orders_df := filter is_order dr_df in
  let fees_df := filter is_fee dr_df in
  match orders_df with
  | [] => []
  | _ => aggregate_row dr_df fees_df <$> orders_df
  end.

(** ** Section 6: matching logic *)

(** The window test of [_resolve_collision_by_timestamp] for one candidate:
    a candidate without both timestamps is skipped ([continue]). *)
Definition in_window (buffer_hours : Z) (dr_delivery_ts : Z) (cand : Candidate) : bool :=
  match cand_created_at_ts cand, cand_delivered_at_ts cand with
  | Some created_ts, Some delivered_ts =>
      let window_end := (delivered_ts + buffer_hours * 3600)%Z in
      (created_ts <=? dr_delivery_ts)%Z && (dr_delivery_ts <=? window_end)%Z
  | _, _ => false
  end.

Definition _resolve_collision_by_timestamp_buf
    (dr_delivery_ts : option Z) (candidates : list Candidate) (buffer_hours : Z)
    : option Candidate * string :=
  match dr_delivery_ts with
  | None => (None, "NO_DR_TIMESTAMP")
  | Some ts =>
      let matching_candidates := List.filter (in_window buffer_hours ts) candidates in
      match matching_candidates with
      | [cand] => (Some cand, "MATCHED_BY_TIMESTAMP")
      | _ :: _ :: _ => (None, "MULTIPLE_TIMESTAMP_MATCHES")
      | [] => (None, "NO_TIMESTAMP_MATCH")
      end
  end.

(** The call of the resolver, with the default [buffer_hours=1]. *)
Definition _resolve_collision_by_timestamp
    (dr_delivery_ts : option Z) (candidates : list Candidate) : option Candidate * string :=
  _resolve_collision_by_timestamp_buf dr_delivery_ts candidates 1.

(** One turn of the search loop of [_resolve_collision_by_value]; the state
    is [(best_match, best_diff)]. *)
Definition closer (dr_value : float) (best : option Candidate * float) (cand : Candidate)
    : option Candidate * float :=
  let dwh_value := float_or_0 (cand_dwh_value cand) in
  let diff := abs (dwh_value - dr_value) in
  if (diff <? best.2)%float then (Some cand, diff) else best.

(** A candidate dict is never empty, so [if best_match] only asks whether
    one was found. *)
Definition _resolve_collision_by_value_tol
    (dr_value : float) (candidates : list Candidate) (tolerance : float)
    : option Candidate * string :=
  if is_nan dr_value then (None, "NO_DR_VALUE")
  else
    match fold_left (closer dr_value) candidates (None, infinity) with
    | (Some best_match, best_diff) =>
        let dwh_value := float_or_0 (cand_dwh_value best_match) in
        if (best_diff <? tolerance)%float
           || ((0 <? dwh_value)%float && (best_diff / dwh_value <? 0.01)%float)
        then (Some best_match, "MATCHED_BY_VALUE")
        else (None, "NO_VALUE_MATCH")
    | (None, _) => (None, "NO_VALUE_MATCH")
    end.

(** The call of the resolver, with the default [tolerance=0.10]. *)
Definition _resolve_collision_by_value (dr_value : float) (candidates : list Candidate)
    : option Candidate * string :=
  _resolve_collision_by_value_tol dr_value candidates 0.10.

(** [dwh_df[dwh_df["order_completed"] == 1]], each row with its index label
    (its position in [dwh_df]). *)
Definition dwh_completed_of (dwh_df : list DwhRow) : list (nat * DwhRow) :=
  List.filter (λ p, (order_completed p.2 =? 1)%float) (imap pair dwh_df).

(** [dwh_completed.loc[dwh_idx]] *)
Definition loc (dwh_completed : list (nat * DwhRow)) (dwh_idx : nat) : option DwhRow :=
  snd <$> List.find (λ p, Nat.eqb p.1 dwh_idx) dwh_completed.

Definition nonempty (s : string) : bool :=
  match s with EmptyString => false | _ => true end.

Definition candidate_of (idx : nat) (row : DwhRow) : Candidate :=
  mkCandidate idx (gp_order_id row) (float_or_0 (post_promo_sales_inc_vat row))
              (created_at_ts row) (delivered_at_ts row).

(** One turn of the loop that fills [dwh_lookup]. *)
Definition add_to_lookup
    (dwh_lookup : gmap (string * string * option Z) (list Candidate))
    (p : nat * DwhRow) : gmap (string * string * option Z) (list Candidate) :=
  let mp_id := strip (mp_order_id p.2) in
  let loc := strip (location_name p.2) in
  let order_date := created_at_day p.2 in
  if nonempty mp_id && nonempty loc && negb (String.eqb mp_id "nan") then
    let key := (mp_id, loc, order_date) in
    <[key := (default [] (dwh_lookup !! key) ++ [candidate_of p.1 p.2])%list]> dwh_lookup
  else dwh_lookup.

Definition build_dwh_lookup (dwh_completed : list (nat * DwhRow))
    : gmap (string * string * option Z) (list Candidate) :=
  fold_left add_to_lookup dwh_completed ∅.

(** [orders_df.set_index("order_number")["dr_delivery_ts"].to_dict()]:
    a later row with the same order number replaces an earlier one. *)
Definition order_timestamps_of (orders_df : list DrRow) : gmap string (option Z) :=
  fold_left (λ m r, <[order_number r := dr_delivery_ts r]> m) orders_df ∅.

(** The order of the sort key: dates ascending, a missing date (NaT) last. *)
Definition date_le (a b : option Z) : bool :=
  match a, b with
  | _, None => true
  | None, Some _ => false
  | Some x, Some y => (x <=? y)%Z
  end.

Fixpoint insert_by_date (a : AggRow) (l : list AggRow) : list AggRow :=
  match l with
  | [] => [a]
  | b :: l' =>
      if date_le (agg_delivery_date a) (agg_delivery_date b)
      then a :: b :: l'
      else b :: insert_by_date a l'
  end.

(** [agg_df.sort_values("delivery_date")]: ascending by the date alone, rows
    without a date last. The sort does not promise an order among rows of
    one date: it keeps their order of appearance on short tables (up to 16
    dated rows), as this definition does on all tables. The properties
    proved for all tables only use that the result is a permutation. *)
Definition sort_values_delivery_date (agg_df : list AggRow) : list AggRow :=
  foldr insert_by_date [] agg_df.

(** [[c for c in candidates if c["gp_order_id"] not in used_dwh_ids]] on
    [dwh_lookup.get(key, [])]. *)
Definition available_for
    (dwh_lookup : gmap (string * string * option Z) (list Candidate))
    (used_dwh_ids : gset string) (key : string * string * option Z) : list Candidate :=
  List.filter (λ c, negb (bool_decide (cand_gp_order_id c ∈ used_dwh_ids)))
              (default [] (dwh_lookup !! key)).

(** The candidates an order is resolved against, and [cross_midnight]:
    those of its own date, else those of the previous day. A missing
    date is NaT, not [None]: the retry runs and NaT - 1 day is NaT. *)
Definition find_available
    (dwh_lookup : gmap (string * string * option Z) (list Candidate))
    (used_dwh_ids : gset string) (agg_row : AggRow) : list Candidate * bool :=
  let dr_last4 := strip (agg_order_last4 agg_row) in
  let dr_mfc := strip (agg_mfc_name agg_row) in
  let dr_date := agg_delivery_date agg_row in
  let available := available_for dwh_lookup used_dwh_ids (dr_last4, dr_mfc, dr_date) in
  match available with
  | [] =>
      let prev_date := (λ d, d - 1)%Z <$> dr_date in
      let available := available_for dwh_lookup used_dwh_ids (dr_last4, dr_mfc, prev_date) in
      (available, match available with [] => false | _ => true end)
  | _ => (available, false)
  end.

(** The "matching logic with priority" of the loop body:
    [(matched_candidate, match_status)] from the available candidates. *)
Definition resolve (dr_ts : option Z) (net_value : float)
    (available : list Candidate) (cross_midnight : bool) : option Candidate * string :=
  match available with
  | [] => (None, "NO_DWH_RECORD")
  | [cand] => (Some cand, if cross_midnight then "MATCHED_CROSS_MIDNIGHT" else "MATCHED")
  | _ =>
      match _resolve_collision_by_timestamp dr_ts available with
      | (Some cand, _) => (Some cand, "MATCHED_BY_TIMESTAMP")
      | (None, _) =>
          match _resolve_collision_by_value net_value available with
          | (Some cand, _) => (Some cand, "MATCHED_BY_VALUE")
          | (None, _) => (None, "COLLISION")
          end
      end
  end.

Definition confidence_map (match_status : string) : string :=
  if String.eqb match_status "MATCHED" then "High"
  else if String.eqb match_status "MATCHED_CROSS_MIDNIGHT" then "High (Cross-Midnight)"
  else if String.eqb match_status "MATCHED_BY_TIMESTAMP" then "Medium (Timestamp)"
  else if String.eqb match_status "MATCHED_BY_VALUE" then "Low (Value)"
  else if String.eqb match_status "NO_DWH_RECORD" then "N/A"
  else if String.eqb match_status "COLLISION" then "Ambiguous"
  else "Unknown".

(** The loop state: [match_results] and [used_dwh_ids]. *)
Definition match_state : Type := gmap string MatchInfo * gset string.

(** One turn of the loop over [agg_df_sorted]. *)
Definition match_step
    (dwh_completed : list (nat * DwhRow))
    (dwh_lookup : gmap (string * string * option Z) (list Candidate))
    (order_timestamps : gmap string (option Z))
    (st : match_state) (agg_row : AggRow) : match_state :=
  let '(match_results, used_dwh_ids) := st in
  let order_num := agg_order_number agg_row in
  let net_value := float_or_0 (agg_net_sales_value agg_row) in
  let has_refund := agg_has_refund agg_row in
  let dr_ts := order_timestamps !! agg_order_number agg_row ≫= id in
  let '(available, cross_midnight) := find_available dwh_lookup used_dwh_ids agg_row in
  let '(matched_candidate, match_status) := resolve dr_ts net_value available cross_midnight in
  let match_confidence := confidence_map match_status in
  match matched_candidate with
  | Some cand =>
      let dwh_idx := cand_idx cand in
      let dwh_row := loc dwh_completed dwh_idx in
      let order_category := if has_refund then "Matched (Grouped)" else "Matched" in
      (<[order_num := mkMatchInfo true (Some dwh_idx) dwh_row order_category
                        match_status match_confidence cross_midnight net_value
                        (float_or_0 (agg_gross_order_value agg_row))
                        (float_or_0 (agg_unavailable_items_adjustment agg_row))]>
         match_results,
       {[cand_gp_order_id cand]} ∪ used_dwh_ids)
  | None =>
      (<[order_num := mkMatchInfo false None None "Not Matched"
                        match_status match_confidence cross_midnight net_value
                        (float_or_0 (agg_gross_order_value agg_row))
                        (float_or_0 (agg_unavailable_items_adjustment agg_row))]>
         match_results,
       used_dwh_ids)
  end.

(** Steps 2 to 4 of [match_deliveroo_orders]: the state after the loop. *)
Definition run_matching (dr_df : list DrRow) (dwh_df : list DwhRow) : match_state :=
  let orders_df := filter is_order dr_df in
  let dwh_completed := dwh_completed_of dwh_df in
  let agg_df := aggregate_order_values dr_df in
  let order_timestamps := order_timestamps_of orders_df in
  let dwh_lookup := build_dwh_lookup dwh_completed in
  let agg_df_sorted := sort_values_delivery_date agg_df in
  fold_left (match_step dwh_completed dwh_lookup order_timestamps) agg_df_sorted (∅, ∅).

(** Step 5: one turn of the loop over [dr_df]. *)
Definition propagate_row (match_results : gmap string MatchInfo) (dr_row : DrRow)
    : ResultRow :=
  let order_num := order_number dr_row in
  match match_results !! order_num with
  | Some match_info =>
      let net := Some (mi_net_sales_value match_info) in
      let gross := Some (mi_gross_order_value match_info) in
      let adj := Some (mi_unavailable_items_adjustment match_info) in
      if mi_matched match_info then
        if decide (is_order dr_row) then
          mkResultRow dr_row (mi_order_category match_info) (mi_match_status match_info)
                      (Some (mi_match_confidence match_info)) net gross adj
                      (mi_dwh_data match_info)
        else
          mkResultRow dr_row "Linked to Order" "LINKED" (Some "Inherited") net gross adj
                      (mi_dwh_data match_info)
      else
        mkResultRow dr_row
                    (if decide (is_order dr_row) then "Not Matched" else "Linked to Unmatched")
                    (mi_match_status match_info) (Some (mi_match_confidence match_info))
                    net gross adj None
  | None =>
      mkResultRow dr_row "Standalone Adjustment" "N/A" (Some "N/A")
                  (Some 0%float) (Some 0%float) (Some 0%float) None
  end.

Definition propagate (match_results : gmap string MatchInfo) (dr_df : list DrRow)
    : list ResultRow :=
  propagate_row match_results <$> dr_df.

(** [order_category.isin(["Matched", "Matched (Grouped)"])] *)
Definition matched_mask (order_category : string) : bool :=
  String.eqb order_category "Matched" || String.eqb order_category "Matched (Grouped)".

(** ["dwh_post_promo_sales_inc_vat" in result_df.columns]: the column exists
    as soon as one row dict received the warehouse data. *)
Definition has_dwh_column (result_df : list ResultRow) : bool :=
  existsb (λ r, bool_decide (is_Some (res_dwh_data r))) result_df.

(** ["net_sales_value" in df.columns] *)
Definition has_net_column (result_df : list ResultRow) : bool :=
  existsb (λ r, bool_decide (is_Some (res_net_sales_value r))) result_df.

(** [pd.to_numeric(col, errors="coerce").fillna(0)] on the two value columns. *)
Definition net_val (r : ResultRow) : float :=
  fillna0 (default nan (res_net_sales_value r)).
Definition dwh_val (r : ResultRow) : float :=
  fillna0 (default nan (post_promo_sales_inc_vat <$> res_dwh_data r)).

Definition variance_pct (net_val dwh_val : float) : float :=
  if (0 <? net_val)%float then (abs (net_val - dwh_val) / net_val * 100)%float
  else 0%float.

Definition high_variance_mask (r : ResultRow) : bool :=
  matched_mask (res_order_category r)
  && (20 <? variance_pct (net_val r) (dwh_val r))%float.

Definition set_match_confidence (r : ResultRow) (c : option string) : ResultRow :=
  mkResultRow (res_row r) (res_order_category r) (res_match_status r) c
              (res_net_sales_value r) (res_gross_order_value r)
              (res_unavailable_items_adjustment r) (res_dwh_data r).

(** Step 6 on one row. *)
Definition review_row (r : ResultRow) : ResultRow :=
  if high_variance_mask r
  then set_match_confidence r ((λ c, c ++ " - Review") <$> res_match_confidence r)
  else r.

(** Step 6: the post-match quality check. *)
Definition quality_check (result_df : list ResultRow) : list ResultRow :=
  if has_dwh_column result_df then review_row <$> result_df else result_df.

Definition no_orders_row (dr_row : DrRow) : ResultRow :=
  mkResultRow dr_row "No Orders" "N/A" None None None None None.

(** [match_deliveroo_orders]. The tables of the embedding always have the
    columns [accounting_category] and [order_last4], so the two branches on
    a missing column are not taken. *)
Definition match_deliveroo_orders (dr_df : list DrRow) (dwh_df : list DwhRow)
    : list ResultRow :=
  match filter is_order dr_df with
  | [] => no_orders_row <$> dr_df
  | _ =>
      let '(match_results, _) := run_matching dr_df dwh_df in
      quality_check (propagate match_results dr_df)
  end.

(** ** Section 7: variance calculation *)

(** [rint]: the nearest whole number, a tie to the even one, with the sign
    of the argument. Below 2^52 in absolute value, adding and subtracting
    2^52 rounds to a whole number; from 2^52 on (and for an infinity or
    NaN) the argument is returned. *)
Definition two52 : float := 4503599627370496%float.

Definition rint (x : float) : float :=
  if (abs x <? two52)%float then
    let r := (abs x + two52 - two52)%float in
    if get_sign x then (- r)%float else r
  else x.

(** [round(2)] on a float column: the cell times 100, to the nearest whole
    number, divided by 100. *)
Definition round2 (x : float) : float := (rint (x * 100) / 100)%float.

(** The label columns [(matched_amount, variance_explanation)] of one row,
    written mask after mask as the source does. *)
Definition classify (order_category : string) (abs_variance : float) : string * string :=
  let matched := matched_mask order_category in
  let lab := ("N/A", "N/A") in
  let lab := if matched && (abs_variance <? 0.02)%float
             then ("Exact Match", "Exact Match") else lab in
  let lab := if matched && (0.02 <=? abs_variance)%float && (abs_variance <? 0.10)%float
             then ("Exact Match", "Rounding") else lab in
  let lab := if matched && (0.10 <=? abs_variance)%float && (abs_variance <? 1.00)%float
             then ("Minor Variance", "Minor Variance") else lab in
  let lab := if matched && (1.00 <=? abs_variance)%float
             then ("Value Variance", "Unexplained Variance") else lab in
  let lab := if String.eqb order_category "Linked to Order"
             then ("Linked", "See Parent Order") else lab in
  lab.

Definition non_matched_mask (order_category : string) : bool :=
  negb (matched_mask order_category || String.eqb order_category "Linked to Order").

Definition variance_row (has_columns : bool) (r : ResultRow) : VarianceRow :=
  let '(variance, lab) :=
    if has_columns then
      let variance := round2 (round2 (net_val r) - round2 (dwh_val r)) in
      (variance, classify (res_order_category r) (abs variance))
    else (0%float, ("No DWH Value", "N/A")) in
  let variance := if non_matched_mask (res_order_category r) then 0%float else variance in
  mkVarianceRow r variance lab.1 lab.2.

Definition calculate_variances (df : list ResultRow) : list VarianceRow :=
  variance_row (has_dwh_column df && has_net_column df) <$> df.

(** Steps 3 and 4 of [run_dr_reconciliation]. *)
Definition reconcile (dr_df : list DrRow) (dwh_df : list DwhRow) : list VarianceRow :=
  calculate_variances (match_deliveroo_orders dr_df dwh_df).

(** ** Notions used to state the properties *)

(** What the loop body does with a collision that the timestamp stage leaves
    open: the last two branches of the "matching logic with priority". *)
Definition value_stage (net_value : float) (available : list Candidate)
    : option Candidate * string :=
  match _resolve_collision_by_value net_value available with
  | (Some cand, _) => (Some cand, "MATCHED_BY_VALUE")
  | (None, _) => (None, "COLLISION")
  end.

(** The distance the value stage minimises. *)
Definition value_diff (dr_value : float) (c : Candidate) : float :=
  abs (float_or_0 (cand_dwh_value c) - dr_value).

(** The acceptance test of the value stage, as a proposition: the
    difference is below the tolerance, or the candidate's value is positive
    and the difference divided by it is below 0.01. *)
Definition value_accepts (dr_value : float) (c : Candidate) : Prop :=
  (value_diff dr_value c <? 0.10)%float = true
  ∨ ((0 <? float_or_0 (cand_dwh_value c))%float = true
     ∧ (value_diff dr_value c / float_or_0 (cand_dwh_value c) <? 0.01)%float = true).

(** The interval [[created_at, delivered_at + 1 hour]] of a candidate
    contains the order's delivery timestamp. *)
Definition window_contains (dr_ts : option Z) (c : Candidate) : Prop :=
  match dr_ts, cand_created_at_ts c, cand_delivered_at_ts c with
  | Some ts, Some created, Some delivered =>
      (created ≤ ts)%Z ∧ (ts ≤ delivered + 3600)%Z
  | _, _, _ => False
  end.

Global Instance window_contains_dec dr_ts c : Decision (window_contains dr_ts c).
Proof.
  unfold window_contains.
  destruct dr_ts, (cand_created_at_ts c), (cand_delivered_at_ts c); apply _.
Defined.

(** The candidate has both of its timestamps. *)
Definition has_timestamps (c : Candidate) : Prop :=
  is_Some (cand_created_at_ts c) ∧ is_Some (cand_delivered_at_ts c).

Global Instance has_timestamps_dec c : Decision (has_timestamps c).
Proof. unfold has_timestamps. apply _. Defined.

(** Every candidate of the lookup was built from a completed row. *)
Definition lookup_from (dc : list (nat * DwhRow))
    (lk : gmap (string * string * option Z) (list Candidate)) : Prop :=
  ∀ key cs c, lk !! key = Some cs → c ∈ cs →
    ∃ p, p ∈ dc ∧ c = candidate_of p.1 p.2.

(** ** Sample tables *)

(** Two orders of the same store and day: the first row was delivered at
    18:00, the second at 09:00. *)
Definition evening_order : DrRow :=
  with_delivery_date
    (mkDrRow "900111" "Order Value & Commission" "111" "StoreA" None
             (Some (20 * 86400 + 18 * 3600)%Z) 25 0 0).

Definition morning_order : DrRow :=
  with_delivery_date
    (mkDrRow "800111" "Order Value & Commission" "111" "StoreA" None
             (Some (20 * 86400 + 9 * 3600)%Z) 25 0 0).

Definition only_reference : DwhRow :=
  mkDwhRow "gp-1" "111" "StoreA" (Some 20%Z) 1 25
           (Some (20 * 86400 + 8 * 3600)%Z) (Some (20 * 86400 + 9 * 3600)%Z).

(** The warehouse id recorded in a match result (the [dwh_gp_order_id]
    entry of its [dwh_data]). *)
Definition mi_gp_order_id (m : MatchInfo) : option string :=
  gp_order_id <$> mi_dwh_data m.

(** The invariant of the matching loop: every accepted match holds an id of
    the used-set, and two accepted matches of different orders hold
    different ids. *)
Definition claims_unique (st : match_state) : Prop :=
  (∀ o m, st.1 !! o = Some m → mi_matched m = true →
     ∃ g, mi_gp_order_id m = Some g ∧ g ∈ st.2)
  ∧ (∀ o1 o2 m1 m2, o1 ≠ o2 →
       st.1 !! o1 = Some m1 → st.1 !! o2 = Some m2 →
       mi_matched m1 = true → mi_matched m2 = true →
       mi_gp_order_id m1 ≠ mi_gp_order_id m2).

(** Two completed warehouse rows with the key of the two orders above: one
    for each delivery. *)
Definition morning_reference : DwhRow :=
  mkDwhRow "gp-1" "111" "StoreA" (Some 20%Z) 1 25
           (Some (20 * 86400 + 8 * 3600)%Z) (Some (20 * 86400 + 9 * 3600)%Z).

Definition evening_reference : DwhRow :=
  mkDwhRow "gp-2" "111" "StoreA" (Some 20%Z) 1 25
           (Some (20 * 86400 + 17 * 3600)%Z) (Some (20 * 86400 + 18 * 3600)%Z).

(** What every value of [match_results] looks like: a matched entry carries
    a warehouse row and one of the two matched categories, an unmatched
    entry carries none and the category "Not Matched". *)
Definition mi_wf (m : MatchInfo) : Prop :=
  if mi_matched m
  then is_Some (mi_dwh_data m) ∧ matched_mask (mi_order_category m) = true
  else mi_dwh_data m = None ∧ mi_order_category m = "Not Matched".

(** Step 6 on one row of a table that has, or has not, the warehouse
    value column. *)
Definition reviewed (has_column : bool) (r : ResultRow) : ResultRow :=
  if has_column then review_row r else r.

(** The review condition of step 6 as a proposition on the two values:
    the net value is positive and the gap, divided by the net value and
    multiplied by 100, exceeds 20. *)
Definition needs_review (net_value reference_value : float) : Prop :=
  (0 <? net_value)%float = true
  ∧ (20 <? abs (net_value - reference_value) / net_value * 100)%float = true.

(** An order of net value 100 and a completed warehouse row of value 124
    with the same key. *)
Definition order_of_100 : DrRow :=
  mkDrRow "5001234" "Order Value & Commission" "1234" "StoreA" (Some 20%Z)
          (Some (20 * 86400 + 12 * 3600)%Z) 100 0 0.

Definition reference_of_124 : DwhRow :=
  mkDwhRow "gp-9" "1234" "StoreA" (Some 20%Z) 1 124
           (Some (20 * 86400 + 11 * 3600)%Z) (Some (20 * 86400 + 12 * 3600)%Z).

(** The rank of a variance label, from least to most severe. *)
Definition severity (variance_explanation : string) : nat :=
  if String.eqb variance_explanation "Exact Match" then 0
  else if String.eqb variance_explanation "Rounding" then 1
  else if String.eqb variance_explanation "Minor Variance" then 2
  else 3.

(** A completed warehouse row of value 100.03 with the key of [order_of_100]. *)
Definition reference_of_100_03 : DwhRow :=
  mkDwhRow "gp-7" "1234" "StoreA" (Some 20%Z) 1 100.03
           (Some (20 * 86400 + 11 * 3600)%Z) (Some (20 * 86400 + 12 * 3600)%Z).

(** An order of net value 1.024 and a completed warehouse row of value 1.006
    with the same key. *)
Definition order_of_1_024 : DrRow :=
  mkDrRow "5004321" "Order Value & Commission" "4321" "StoreA" (Some 20%Z)
          (Some (20 * 86400 + 12 * 3600)%Z) 1.024 0 0.

Definition reference_of_1_006 : DwhRow :=
  mkDwhRow "gp-8" "4321" "StoreA" (Some 20%Z) 1 1.006
           (Some (20 * 86400 + 11 * 3600)%Z) (Some (20 * 86400 + 12 * 3600)%Z).

(** An order of gross value 10 with one fee row of -2 (net value 8), and a
    completed warehouse row of value 8 with the same key. *)
Definition order_of_10 : DrRow :=
  mkDrRow "6005678" "Order Value & Commission" "5678" "StoreA" (Some 20%Z)
          (Some (20 * 86400 + 12 * 3600)%Z) 10 0 0.

Definition fee_of_order_of_10 : DrRow :=
  mkDrRow "6005678" "Additional Fees" "5678" "StoreA" (Some 20%Z)
          (Some (20 * 86400 + 12 * 3600)%Z) 0 0 (-2).

Definition reference_of_8 : DwhRow :=
  mkDwhRow "gp-5" "5678" "StoreA" (Some 20%Z) 1 8
           (Some (20 * 86400 + 11 * 3600)%Z) (Some (20 * 86400 + 12 * 3600)%Z).

(** The fee row has a parent: an order row of the table carries its
    order number. *)
Definition has_parent (dr_df : list DrRow) (r : DrRow) : Prop :=
  order_number r ∈ order_number <$> filter is_order dr_df.

Global Instance has_parent_dec dr_df r : Decision (has_parent dr_df r).
Proof. unfold has_parent. apply _. Defined.

(** The gross order value of an order row: its order_value_gross plus its
    marketing_offer_discount, a missing cell counting as zero. *)
Definition gross_of (r : DrRow) : float :=
  (fillna0 (order_value_gross r) + fillna0 (marketing_offer_discount r))%float.


(** ** Further parts of the module *)

(** *** Key columns derived by the two loaders *)

(** [str.replace(r"\.0$", "", regex=True)] on text without a trailing
    newline: a final ".0" is dropped. *)
Definition remove_dot_zero (s : string) : string :=
  match string_rev_app s EmptyString with
  | String c1 (String c2 rest) =>
      if Ascii.eqb c1 "0" && Ascii.eqb c2 "."
      then string_rev_app rest EmptyString
      else s
  | _ => s
  end.

Fixpoint string_take (n : nat) (s : string) : string :=
  match n, s with
  | S n', String c s' => String c (string_take n' s')
  | _, _ => EmptyString
  end.

(** [.str[-4:]] on ASCII text. *)
Definition last4 (s : string) : string :=
  string_rev_app (string_take 4 (string_rev_app s EmptyString)) EmptyString.

(** [.str.lstrip("0")] *)
Fixpoint lstrip_zeros (s : string) : string :=
  match s with
  | String c s' => if Ascii.eqb c "0" then lstrip_zeros s' else s
  | EmptyString => s
  end.

(** The [order_last4] column of [load_dr_combined], from the text of
    [order_number]: stripped, without a final ".0", the last four
    characters, leading zeros dropped, and "0" when nothing is left. *)
Definition extract_order_last4 (order_number : string) : string :=
  let s := lstrip_zeros (last4 (remove_dot_zero (strip order_number))) in
  if String.eqb s "" then "0" else s.

Definition is_digit (c : ascii) : bool :=
  let n := nat_of_ascii c in (48 <=? n)%nat && (n <=? 57)%nat.

(** [str.replace(r"[^0-9]", "", regex=True)] *)
Fixpoint keep_digits (s : string) : string :=
  match s with
  | EmptyString => EmptyString
  | String c s' => if is_digit c then String c (keep_digits s') else keep_digits s'
  end.

(** The cleaning of [mp_order_id] in [load_dwh_deliveroo]. *)
Definition clean_mp_order_id (mp_order_id : string) : string :=
  keep_digits (remove_dot_zero (strip mp_order_id)).

Fixpoint all_digits (s : string) : bool :=
  match s with
  | EmptyString => true
  | String c s' => is_digit c && all_digits s'
  end.

(** *** The counters of the matching loop *)

(** The [stats] dict of [match_deliveroo_orders]. *)
Record Stats := mkStats {
  matched_direct : nat;
  matched_cross_midnight : nat;
  matched_by_timestamp : nat;
  matched_by_value : nat;
  no_dwh_record : nat;
  collision : nat;
  matched_grouped : nat;
}.

Definition stats_zero : Stats := mkStats 0 0 0 0 0 0 0.

Definition bump_matched_direct (s : Stats) : Stats :=
  mkStats (S (matched_direct s)) (matched_cross_midnight s) (matched_by_timestamp s)
          (matched_by_value s) (no_dwh_record s) (collision s) (matched_grouped s).
Definition bump_matched_cross_midnight (s : Stats) : Stats :=
  mkStats (matched_direct s) (S (matched_cross_midnight s)) (matched_by_timestamp s)
          (matched_by_value s) (no_dwh_record s) (collision s) (matched_grouped s).
Definition bump_matched_by_timestamp (s : Stats) : Stats :=
  mkStats (matched_direct s) (matched_cross_midnight s) (S (matched_by_timestamp s))
          (matched_by_value s) (no_dwh_record s) (collision s) (matched_grouped s).
Definition bump_matched_by_value (s : Stats) : Stats :=
  mkStats (matched_direct s) (matched_cross_midnight s) (matched_by_timestamp s)
          (S (matched_by_value s)) (no_dwh_record s) (collision s) (matched_grouped s).
Definition bump_no_dwh_record (s : Stats) : Stats :=
  mkStats (matched_direct s) (matched_cross_midnight s) (matched_by_timestamp s)
          (matched_by_value s) (S (no_dwh_record s)) (collision s) (matched_grouped s).
Definition bump_collision (s : Stats) : Stats :=
  mkStats (matched_direct s) (matched_cross_midnight s) (matched_by_timestamp s)
          (matched_by_value s) (no_dwh_record s) (S (collision s)) (matched_grouped s).
Definition bump_matched_grouped (s : Stats) : Stats :=
  mkStats (matched_direct s) (matched_cross_midnight s) (matched_by_timestamp s)
          (matched_by_value s) (no_dwh_record s) (collision s) (S (matched_grouped s)).

(** The "matching logic with priority" with the counter each branch bumps. *)
Definition resolve_counting (stats : Stats) (dr_ts : option Z) (net_value : float)
    (available : list Candidate) (cross_midnight : bool)
    : option Candidate * string * Stats :=
  match available with
  | [] => (None, "NO_DWH_RECORD", bump_no_dwh_record stats)
  | [cand] =>
      if cross_midnight
      then (Some cand, "MATCHED_CROSS_MIDNIGHT", bump_matched_cross_midnight stats)
      else (Some cand, "MATCHED", bump_matched_direct stats)
  | _ =>
      match _resolve_collision_by_timestamp dr_ts available with
      | (Some cand, _) => (Some cand, "MATCHED_BY_TIMESTAMP", bump_matched_by_timestamp stats)
      | (None, _) =>
          match _resolve_collision_by_value net_value available with
          | (Some cand, _) => (Some cand, "MATCHED_BY_VALUE", bump_matched_by_value stats)
          | (None, _) => (None, "COLLISION", bump_collision stats)
          end
      end
  end.

(** One turn of the loop over [agg_df_sorted], counters included: the
    state moves as in [match_step]. *)
Definition match_step_counting
    (dwh_completed : list (nat * DwhRow))
    (dwh_lookup : gmap (string * string * option Z) (list Candidate))
    (order_timestamps : gmap string (option Z))
    (sts : match_state * Stats) (agg_row : AggRow) : match_state * Stats :=
  let '(st, stats) := sts in
  let dr_ts := order_timestamps !! agg_order_number agg_row ≫= id in
  let '(available, cross_midnight) := find_available dwh_lookup st.2 agg_row in
  let '(matched_candidate, _, stats) :=
    resolve_counting stats dr_ts (float_or_0 (agg_net_sales_value agg_row))
                     available cross_midnight in
  let stats :=
    match matched_candidate with
    | Some _ => if agg_has_refund agg_row then bump_matched_grouped stats else stats
    | None => stats
    end in
  (match_step dwh_completed dwh_lookup order_timestamps st agg_row, stats).

(** The state and the counters after the loop. *)
Definition run_matching_counting (dr_df : list DrRow) (dwh_df : list DwhRow)
    : match_state * Stats :=
  let orders_df := filter is_order dr_df in
  let dwh_completed := dwh_completed_of dwh_df in
  let agg_df := aggregate_order_values dr_df in
  let order_timestamps := order_timestamps_of orders_df in
  let dwh_lookup := build_dwh_lookup dwh_completed in
  let agg_df_sorted := sort_values_delivery_date agg_df in
  fold_left (match_step_counting dwh_completed dwh_lookup order_timestamps)
            agg_df_sorted ((∅, ∅), stats_zero).

(** [total_matched] of the log lines. *)
Definition total_matched (s : Stats) : nat :=
  matched_direct s + matched_cross_midnight s + matched_by_timestamp s
  + matched_by_value s.

(** *** Notions used to state the further properties *)

(** The key under which a completed warehouse row is stored, when the
    guard of the lookup loop lets it in. *)
Definition dwh_key_of (row : DwhRow) : option (string * string * option Z) :=
  let mp_id := strip (mp_order_id row) in
  let loc := strip (location_name row) in
  if nonempty mp_id && nonempty loc && negb (String.eqb mp_id "nan")
  then Some (mp_id, loc, created_at_day row)
  else None.

(** The same-day key and the previous-day key of an aggregated order. *)
Definition same_day_key (a : AggRow) : string * string * option Z :=
  (strip (agg_order_last4 a), strip (agg_mfc_name a), agg_delivery_date a).
Definition previous_day_key (a : AggRow) : string * string * option Z :=
  (strip (agg_order_last4 a), strip (agg_mfc_name a),
   (λ d, d - 1)%Z <$> agg_delivery_date a).

(** The six statuses of the loop, and those of an accepted match. *)
Definition match_statuses : list string :=
  ["MATCHED"; "MATCHED_CROSS_MIDNIGHT"; "MATCHED_BY_TIMESTAMP"; "MATCHED_BY_VALUE";
   "NO_DWH_RECORD"; "COLLISION"].
Definition accepted_statuses : list string :=
  ["MATCHED"; "MATCHED_CROSS_MIDNIGHT"; "MATCHED_BY_TIMESTAMP"; "MATCHED_BY_VALUE"].


(** A fee row whose order number no order row carries. *)
Definition fee_without_order : DrRow :=
  mkDrRow "0" "Additional Fees" "0" "StoreA" (Some 20%Z)
          (Some (20 * 86400 + 12 * 3600)%Z) 0 0 (-3).

(** A fee row of [morning_order]. *)
Definition fee_of_morning_order : DrRow :=
  mkDrRow "800111" "Additional Fees" "111" "StoreA" (Some 20%Z)
          (Some (20 * 86400 + 9 * 3600)%Z) 0 0 (-1).

(** What a value of [match_results] says about its status: an accepted
    match has one of the four matched statuses, an unmatched order one of
    the other two; the confidence is read off the status; and the status
    tells whether the previous day was used. *)
Definition status_consistent (m : MatchInfo) : Prop :=
  (if mi_matched m
   then mi_match_status m ∈ accepted_statuses
   else mi_match_status m ∈ ["NO_DWH_RECORD"; "COLLISION"])
  ∧ mi_match_confidence m = confidence_map (mi_match_status m)
  ∧ (mi_match_status m = "MATCHED_CROSS_MIDNIGHT" → mi_cross_midnight m = true)
  ∧ (mi_match_status m = "MATCHED" → mi_cross_midnight m = false)
  ∧ (mi_match_status m = "NO_DWH_RECORD" → mi_cross_midnight m = false).

(** The six outcome counters together. *)
Definition outcome_total (s : Stats) : nat :=
  total_matched s + no_dwh_record s + collision s.

(** A warehouse row with the key of [order_of_10] that was not completed. *)
Definition cancelled_reference : DwhRow :=
  mkDwhRow "gp-6" "5678" "StoreA" (Some 20%Z) 0 8
           (Some (20 * 86400 + 11 * 3600)%Z) None.

(** *** The order of the float comparisons *)

(** The place of a float in the order of [<?], [<=?] and [=?]: NaN has
    none, the two zeros share one, and the others are ordered by sign,
    exponent and mantissa. *)
Definition SFrank (x : spec_float) : option (Z * Z * Z) :=
  match x with
  | S754_nan => None
  | S754_zero _ => Some (0, 0, 0)%Z
  | S754_infinity s => Some (if s then (-2)%Z else 2%Z, 0%Z, 0%Z)
  | S754_finite s m e =>
      Some (if s then ((-1)%Z, (- e)%Z, Z.neg m) else (1%Z, e, Z.pos m))
  end.

Definition rank (x : float) : option (Z * Z * Z) := SFrank (Prim2SF x).

Definition rank_lt (a b : Z * Z * Z) : Prop :=
  (a.1.1 < b.1.1
   ∨ (a.1.1 = b.1.1 ∧ (a.1.2 < b.1.2 ∨ (a.1.2 = b.1.2 ∧ a.2 < b.2))))%Z.

Definition rank_eq (a b : Z * Z * Z) : Prop :=
  (a.1.1 = b.1.1 ∧ a.1.2 = b.1.2 ∧ a.2 = b.2)%Z.

Definition float_lt (x y : float) : Prop :=
  match rank x, rank y with
  | Some a, Some b => rank_lt a b
  | _, _ => False
  end.

Definition float_le (x y : float) : Prop :=
  match rank x, rank y with
  | Some a, Some b => rank_lt a b ∨ rank_eq a b
  | _, _ => False
  end.

Definition float_eq (x y : float) : Prop :=
  match rank x, rank y with
  | Some a, Some b => rank_eq a b
  | _, _ => False
  end.

(** *** Notions used to state the revised properties *)

(** What the search loop of the value resolver holds after the candidates
    [seen]: nothing, when no candidate seen is at a distance below
    infinity; otherwise the first of the candidates at the least distance,
    with that distance. *)
Definition first_closest (dr_value : float) (seen : list Candidate)
    (st : option Candidate * float) : Prop :=
  match st.1 with
  | None =>
      st.2 = infinity
      ∧ ∀ c, c ∈ seen → (value_diff dr_value c <? infinity)%float = false
  | Some best =>
      st.2 = value_diff dr_value best
      ∧ (value_diff dr_value best <? infinity)%float = true
      ∧ ∃ l1 l2, seen = (l1 ++ best :: l2)%list
          ∧ (∀ c, c ∈ l1 →
               (value_diff dr_value c <=? value_diff dr_value best)%float = false)
          ∧ (∀ c, c ∈ l2 →
               (value_diff dr_value c <? value_diff dr_value best)%float = false)
  end.

(** The interval [[created_at, delivered_at + 1 hour]] of a warehouse row
    contains a delivery timestamp. *)
Definition row_window_contains (dr_ts : option Z) (row : DwhRow) : Prop :=
  match dr_ts, created_at_ts row, delivered_at_ts row with
  | Some ts, Some created, Some delivered =>
      (created ≤ ts)%Z ∧ (ts ≤ delivered + 3600)%Z
  | _, _, _ => False
  end.

Global Instance row_window_contains_dec dr_ts row :
  Decision (row_window_contains dr_ts row).
Proof.
  unfold row_window_contains.
  destruct dr_ts, (created_at_ts row), (delivered_at_ts row); apply _.
Defined.



(** Amounts added up one after the other, in table order. *)
Definition float_sum (l : list float) : float := fold_left PrimFloat.add l 0%float.


(** An order of net value 3 and a completed warehouse row of value 3.6 with
    the same key; an order of net value 4.25 and a row of value 3.4. *)
Definition order_of_3 : DrRow :=
  mkDrRow "5001111" "Order Value & Commission" "1111" "StoreA" (Some 20%Z)
          (Some (20 * 86400 + 12 * 3600)%Z) 3 0 0.

Definition reference_of_3_6 : DwhRow :=
  mkDwhRow "gp-11" "1111" "StoreA" (Some 20%Z) 1 3.6
           (Some (20 * 86400 + 11 * 3600)%Z) (Some (20 * 86400 + 12 * 3600)%Z).

Definition order_of_4_25 : DrRow :=
  mkDrRow "5002222" "Order Value & Commission" "2222" "StoreA" (Some 20%Z)
          (Some (20 * 86400 + 12 * 3600)%Z) 4.25 0 0.

Definition reference_of_3_4 : DwhRow :=
  mkDwhRow "gp-12" "2222" "StoreA" (Some 20%Z) 1 3.4
           (Some (20 * 86400 + 11 * 3600)%Z) (Some (20 * 86400 + 12 * 3600)%Z).

(** An order of net value 1.015 and a completed warehouse row of value 1
    with the same key. *)
Definition order_of_1_015 : DrRow :=
  mkDrRow "5003333" "Order Value & Commission" "3333" "StoreA" (Some 20%Z)
          (Some (20 * 86400 + 12 * 3600)%Z) 1.015 0 0.

Definition reference_of_1 : DwhRow :=
  mkDwhRow "gp-13" "3333" "StoreA" (Some 20%Z) 1 1
           (Some (20 * 86400 + 11 * 3600)%Z) (Some (20 * 86400 + 12 * 3600)%Z).


(** Two orders with one fee row each: gross value 0.10 with a fee of -0.10,
    and gross value 0.70 with a fee of -0.20. *)
Definition order_of_0_10 : DrRow :=
  mkDrRow "7000001" "Order Value & Commission" "1" "StoreA" (Some 20%Z)
          (Some (20 * 86400 + 12 * 3600)%Z) 0.10 0 0.

Definition fee_of_order_of_0_10 : DrRow :=
  mkDrRow "7000001" "Additional Fees" "1" "StoreA" (Some 20%Z)
          (Some (20 * 86400 + 12 * 3600)%Z) 0 0 (-0.10).

Definition order_of_0_70 : DrRow :=
  mkDrRow "7000002" "Order Value & Commission" "2" "StoreA" (Some 20%Z)
          (Some (20 * 86400 + 13 * 3600)%Z) 0.70 0 0.

Definition fee_of_order_of_0_70 : DrRow :=
  mkDrRow "7000002" "Additional Fees" "2" "StoreA" (Some 20%Z)
          (Some (20 * 86400 + 13 * 3600)%Z) 0 0 (-0.20).

(** * Properties *)

(** ** The order of the float comparisons *)

Lemma SFcompare_rank (x y : spec_float) :
  match SFrank x, SFrank y with
  | Some a, Some b =>
      (SFcompare x y = Some Lt ∧ rank_lt a b)
      ∨ (SFcompare x y = Some Eq ∧ rank_eq a b)
      ∨ (SFcompare x y = Some Gt ∧ rank_lt b a)
  | _, _ => SFcompare x y = None
  end.
Proof.
  unfold rank_lt, rank_eq.
  destruct x as [sx|sx| |sx mx ex], y as [sy|sy| |sy my ey]; cbn [SFrank SFcompare];
    try done; try (destruct sx); try (destruct sy); cbn [fst snd];
    try (left; split; [done|lia]); try (right; left; split; [done|done]);
    try (right; right; split; [done|lia]).
  - destruct (Z.compare_spec ex ey) as [->|H|H].
    + change (PosDef.Pos.compare_cont Eq mx my) with (Pos.compare mx my).
      destruct (Pos.compare_spec mx my) as [->|H|H]; cbn [CompOpp].
      * right. left. done.
      * right. right. split; [done|lia].
      * left. split; [done|lia].
    + right. right. split; [done|lia].
    + left. split; [done|lia].
  - destruct (Z.compare_spec ex ey) as [->|H|H].
    + change (PosDef.Pos.compare_cont Eq mx my) with (Pos.compare mx my).
      destruct (Pos.compare_spec mx my) as [->|H|H].
      * right. left. done.
      * left. split; [done|lia].
      * right. right. split; [done|lia].
    + left. split; [done|lia].
    + right. right. split; [done|lia].
Qed.

Lemma ltb_float_lt (x y : float) : (x <? y)%float = true ↔ float_lt x y.
Proof.
  rewrite FloatAxioms.ltb_spec. unfold SFltb, float_lt, rank.
  pose proof (SFcompare_rank (Prim2SF x) (Prim2SF y)) as H.
  destruct (SFrank (Prim2SF x)) as [a|], (SFrank (Prim2SF y)) as [b|];
    try (rewrite H; done).
  unfold rank_lt, rank_eq in *.
  destruct H as [[-> H]|[[-> H]|[-> H]]]; split; try done; lia.
Qed.

Lemma leb_float_le (x y : float) : (x <=? y)%float = true ↔ float_le x y.
Proof.
  rewrite FloatAxioms.leb_spec. unfold SFleb, float_le, rank.
  pose proof (SFcompare_rank (Prim2SF x) (Prim2SF y)) as H.
  destruct (SFrank (Prim2SF x)) as [a|], (SFrank (Prim2SF y)) as [b|];
    try (rewrite H; done).
  unfold rank_lt, rank_eq in *.
  destruct H as [[-> H]|[[-> H]|[-> H]]]; split; try done; try tauto; lia.
Qed.

Lemma eqb_float_eq (x y : float) : (x =? y)%float = true ↔ float_eq x y.
Proof.
  rewrite FloatAxioms.eqb_spec. unfold SFeqb, float_eq, rank.
  pose proof (SFcompare_rank (Prim2SF x) (Prim2SF y)) as H.
  destruct (SFrank (Prim2SF x)) as [a|], (SFrank (Prim2SF y)) as [b|];
    try (rewrite H; done).
  unfold rank_lt, rank_eq in *.
  destruct H as [[-> H]|[[-> H]|[-> H]]]; split; try done; lia.
Qed.

Lemma is_nan_rank (x : float) : is_nan x = true ↔ rank x = None.
Proof.
  unfold is_nan. rewrite negb_true_iff.
  destruct (x =? x)%float eqn:E.
  - apply eqb_float_eq in E. unfold float_eq in E. by destruct (rank x).
  - split; [|done]. intros _. destruct (rank x) as [a|] eqn:Ha; [|done].
    assert (H : (x =? x)%float = true).
    { apply eqb_float_eq. unfold float_eq, rank_eq. by rewrite Ha. }
    congruence.
Qed.

Lemma ltb_false (x y : float) : (x <? y)%float = false ↔ ¬ float_lt x y.
Proof. rewrite <- ltb_float_lt. by destruct (x <? y)%float. Qed.

Lemma leb_false (x y : float) : (x <=? y)%float = false ↔ ¬ float_le x y.
Proof. rewrite <- leb_float_le. by destruct (x <=? y)%float. Qed.

Lemma eqb_false (x y : float) : (x =? y)%float = false ↔ ¬ float_eq x y.
Proof. rewrite <- eqb_float_eq. by destruct (x =? y)%float. Qed.

Lemma is_nan_false (x : float) : is_nan x = false ↔ rank x ≠ None.
Proof. rewrite <- is_nan_rank. by destruct (is_nan x). Qed.

(** The places of the constants of the module. *)
Lemma rank_0 : rank 0 = Some (0, 0, 0)%Z.
Proof. reflexivity. Qed.
Lemma rank_infinity : rank infinity = Some (2, 0, 0)%Z.
Proof. reflexivity. Qed.
Lemma rank_0_02 : rank 0.02 = Some (1, -58, 5764607523034235)%Z.
Proof. reflexivity. Qed.
Lemma rank_0_10 : rank 0.10 = Some (1, -56, 7205759403792794)%Z.
Proof. reflexivity. Qed.
Lemma rank_1 : rank 1 = Some (1, -52, 4503599627370496)%Z.
Proof. reflexivity. Qed.
Lemma rank_20 : rank 20 = Some (1, -48, 5629499534213120)%Z.
Proof. reflexivity. Qed.

(** Comparisons of floats, decided on their places. *)
Ltac float_order :=
  repeat match goal with
  | H : (_ <? _)%float = true |- _ => apply ltb_float_lt in H
  | H : (_ <=? _)%float = true |- _ => apply leb_float_le in H
  | H : (_ =? _)%float = true |- _ => apply eqb_float_eq in H
  | H : (_ <? _)%float = false |- _ => apply ltb_false in H
  | H : (_ <=? _)%float = false |- _ => apply leb_false in H
  | H : (_ =? _)%float = false |- _ => apply eqb_false in H
  | H : is_nan _ = true |- _ => apply is_nan_rank in H
  | H : is_nan _ = false |- _ => apply is_nan_false in H
  | |- (_ <? _)%float = true => apply ltb_float_lt
  | |- (_ <=? _)%float = true => apply leb_float_le
  | |- (_ =? _)%float = true => apply eqb_float_eq
  | |- (_ <? _)%float = false => apply ltb_false
  | |- (_ <=? _)%float = false => apply leb_false
  | |- (_ =? _)%float = false => apply eqb_false
  | |- is_nan _ = true => apply is_nan_rank
  | |- is_nan _ = false => apply is_nan_false
  end;
  unfold float_lt, float_le, float_eq, rank_lt, rank_eq in *;
  rewrite ?rank_0, ?rank_infinity, ?rank_0_02, ?rank_0_10, ?rank_1, ?rank_20 in *;
  repeat match goal with
  | H : context [rank ?x] |- _ => destruct (rank x) as [[[? ?] ?]|]
  | |- context [rank ?x] => destruct (rank x) as [[[? ?] ?]|]
  end;
  cbn [fst snd] in *;
  try tauto; try lia; try congruence; try (intuition (try congruence; lia)).

Lemma ltb_trans (x y z : float) :
  (x <? y)%float = true → (y <? z)%float = true → (x <? z)%float = true.
Proof. intros H1 H2. float_order. Qed.

Lemma leb_ltb_trans (x y z : float) :
  (x <=? y)%float = true → (y <? z)%float = true → (x <? z)%float = true.
Proof. intros H1 H2. float_order. Qed.

Lemma ltb_leb_trans (x y z : float) :
  (x <? y)%float = true → (y <=? z)%float = true → (x <? z)%float = true.
Proof. intros H1 H2. float_order. Qed.

Lemma ltb_leb (x y : float) : (x <? y)%float = true → (x <=? y)%float = true.
Proof. intros H. float_order. Qed.

Lemma ltb_not_leb (x y : float) : (x <? y)%float = true → (y <=? x)%float = false.
Proof. intros H. float_order. Qed.

Lemma not_ltb_leb (x y : float) :
  is_nan x = false → is_nan y = false → (x <? y)%float = false → (y <=? x)%float = true.
Proof. intros Hx Hy H. float_order. Qed.

Lemma ltb_not_nan (x y : float) :
  (x <? y)%float = true → is_nan x = false ∧ is_nan y = false.
Proof. intros H. split; float_order. Qed.

Lemma leb_not_nan (x y : float) :
  (x <=? y)%float = true → is_nan x = false ∧ is_nan y = false.
Proof. intros H. split; float_order. Qed.

(** ** Zeros and NaN in sums and differences *)

Lemma SFrank_nan (x : spec_float) : SFrank x = None → x = S754_nan.
Proof. by destruct x as [?|?| |[] ? ?]. Qed.

Lemma SFrank_zero (x : spec_float) : SFrank x = Some (0, 0, 0)%Z → ∃ s, x = S754_zero s.
Proof. destruct x as [s|[]| |[] ? ?]; try done. eauto. Qed.

Lemma eqb_0_zero (x : float) : (x =? 0)%float = true ↔ ∃ s, Prim2SF x = S754_zero s.
Proof.
  split.
  - intros H. apply SFrank_zero. fold (rank x). float_order.
  - intros [s Hs]. apply eqb_float_eq. unfold float_eq, rank. rewrite Hs.
    by vm_compute.
Qed.

Lemma zero_add (x y : float) :
  (x =? 0)%float = true → (y =? 0)%float = true → (x + y =? 0)%float = true.
Proof.
  rewrite !eqb_0_zero. intros [s1 H1] [s2 H2].
  rewrite FloatAxioms.add_spec, H1, H2. destruct s1, s2; vm_compute; eauto.
Qed.

Lemma zero_sub (x y : float) :
  (x =? 0)%float = true → (y =? 0)%float = true → (x - y =? 0)%float = true.
Proof.
  rewrite !eqb_0_zero. intros [s1 H1] [s2 H2].
  rewrite FloatAxioms.sub_spec, H1, H2. destruct s1, s2; vm_compute; eauto.
Qed.

Lemma zero_not_nan (x : float) : (x =? 0)%float = true → is_nan x = false.
Proof. intros H. float_order. Qed.

Lemma fillna0_zero (x : float) : (x =? 0)%float = true → fillna0 x = x.
Proof. intros H. unfold fillna0. by rewrite (zero_not_nan x H). Qed.

Lemma kahan_step_zero (st : float * float) (val : float) :
  (st.1 =? 0)%float = true → (st.2 =? 0)%float = true → (val =? 0)%float = true →
  ((kahan_step st val).1 =? 0)%float = true
  ∧ ((kahan_step st val).2 =? 0)%float = true.
Proof.
  destruct st as [sumx comp]. cbn [fst snd]. intros Hs Hc Hv. unfold kahan_step.
  assert (Hy : (val - comp =? 0)%float = true) by (by apply zero_sub).
  assert (Ht : (sumx + (val - comp) =? 0)%float = true) by (by apply zero_add).
  assert (Hc' : (sumx + (val - comp) - sumx - (val - comp) =? 0)%float = true)
    by (apply zero_sub; [by apply zero_sub | done]).
  rewrite (zero_not_nan _ Hc'). done.
Qed.

(** A group of zero cells sums to zero. *)
Lemma group_sum_zero (l : list float) :
  (∀ x, x ∈ l → (x =? 0)%float = true) → (group_sum l =? 0)%float = true.
Proof.
  unfold group_sum.
  assert (H : ∀ st, (st.1 =? 0)%float = true → (st.2 =? 0)%float = true →
            (∀ x, x ∈ l → (x =? 0)%float = true) →
            ((fold_left kahan_step l st).1 =? 0)%float = true).
  { induction l as [|a l IH]; intros st H1 H2 Hl; [done|].
    cbn [fold_left].
    destruct (kahan_step_zero st a H1 H2) as [H1' H2']; [apply Hl; left|].
    apply IH; [done | done | ]. intros x Hx. apply Hl. by right. }
  intros Hl. by apply H.
Qed.

(** A difference with NaN is at no distance. *)
Lemma sub_nan_r (x y : float) : is_nan y = true → is_nan (abs (x - y)) = true.
Proof.
  intros H. apply is_nan_rank in H. apply SFrank_nan in H.
  apply is_nan_rank. unfold rank.
  rewrite FloatAxioms.abs_spec, FloatAxioms.sub_spec, H.
  by destruct (Prim2SF x) as [?|?| |? ? ?].
Qed.

Lemma nan_not_ltb (x y : float) : is_nan x = true → (x <? y)%float = false.
Proof. intros H. float_order. Qed.

(** ** The value stage *)

Lemma closer_eq (v : float) (st : option Candidate * float) (a : Candidate) :
  closer v st a
  = if (value_diff v a <? st.2)%float then (Some a, value_diff v a) else st.
Proof. reflexivity. Qed.

(** One turn of the search loop keeps the first candidate of least
    distance. *)
Lemma closer_first_closest (v : float) (seen : list Candidate)
    (st : option Candidate * float) (a : Candidate) :
  first_closest v seen st → first_closest v (seen ++ [a]) (closer v st a).
Proof.
  destruct st as [[b|] d]; unfold first_closest; cbn [fst snd]; rewrite closer_eq;
    cbn [snd].
  - intros (-> & Hfin & l1 & l2 & -> & H1 & H2).
    destruct (value_diff v a <? value_diff v b)%float eqn:E; cbn [fst snd].
    + split; [done|]. split; [by eapply ltb_trans|].
      exists (l1 ++ b :: l2)%list, []. split; [done|]. split.
      * intros c [Hc|[->|Hc]%elem_of_cons]%elem_of_app.
        -- specialize (H1 c Hc). float_order.
        -- float_order.
        -- specialize (H2 c Hc). float_order.
      * by intros c ?%not_elem_of_nil.
    + split; [done|]. split; [done|].
      exists l1, (l2 ++ [a])%list. split; [by rewrite <- app_assoc|]. split; [done|].
      intros c [Hc|Hc%list_elem_of_singleton]%elem_of_app; [auto | by subst].
  - intros (-> & Hall).
    destruct (value_diff v a <? infinity)%float eqn:E; cbn [fst snd].
    + split; [done|]. split; [done|].
      exists seen, []. split; [done|]. split.
      * intros c Hc. specialize (Hall c Hc). float_order.
      * by intros c ?%not_elem_of_nil.
    + split; [done|].
      intros c [Hc|Hc%list_elem_of_singleton]%elem_of_app; [auto | by subst].
Qed.

Lemma fold_closer_first_closest (v : float) (l seen : list Candidate)
    (st : option Candidate * float) :
  first_closest v seen st →
  first_closest v (seen ++ l) (fold_left (closer v) l st).
Proof.
  revert seen st. induction l as [|a l IH]; intros seen st H.
  - by rewrite app_nil_r.
  - cbn [fold_left]. rewrite (cons_middle a seen l), app_assoc.
    by apply IH, closer_first_closest.
Qed.

Lemma search_first_closest (v : float) (l : list Candidate) :
  first_closest v l (fold_left (closer v) l (None, infinity)).
Proof.
  apply (fold_closer_first_closest v l [] (None, infinity)).
  split; [done|]. by intros c ?%not_elem_of_nil.
Qed.

(** The answer of the value resolver, read off the state of its search. *)
Lemma resolve_by_value_answer (v : float) (l : list Candidate) :
  _resolve_collision_by_value v l
  = if is_nan v then (None, "NO_DR_VALUE")
    else match (fold_left (closer v) l (None, infinity)).1 with
         | Some best =>
             if (value_diff v best <? 0.10)%float
                || ((0 <? float_or_0 (cand_dwh_value best))%float
                    && (value_diff v best / float_or_0 (cand_dwh_value best) <? 0.01)%float)
             then (Some best, "MATCHED_BY_VALUE")
             else (None, "NO_VALUE_MATCH")
         | None => (None, "NO_VALUE_MATCH")
         end.
Proof.
  unfold _resolve_collision_by_value, _resolve_collision_by_value_tol.
  destruct (is_nan v); [done|].
  pose proof (search_first_closest v l) as H. unfold first_closest in H.
  destruct (fold_left (closer v) l (None, infinity)) as [[b|] d]; cbn [fst snd] in *;
    [|done].
  by destruct H as (-> & _).
Qed.

Lemma accept_test_spec (v : float) (b : Candidate) :
  (value_diff v b <? 0.10)%float
  || ((0 <? float_or_0 (cand_dwh_value b))%float
      && (value_diff v b / float_or_0 (cand_dwh_value b) <? 0.01)%float) = true
  ↔ value_accepts v b.
Proof.
  unfold value_accepts. by rewrite orb_true_iff, andb_true_iff.
Qed.

Lemma value_diff_nan (v : float) (c : Candidate) :
  is_nan v = true → (value_diff v c <? infinity)%float = false.
Proof. intros H. apply nan_not_ltb. by apply sub_nan_r. Qed.

Lemma resolve_by_value_spec (v : float) (l : list Candidate) :
  ((∀ c, c ∈ l → (value_diff v c <? infinity)%float = false) →
     (_resolve_collision_by_value v l).1 = None)
  ∧ ((∃ c, c ∈ l ∧ (value_diff v c <? infinity)%float = true) →
     ∃ best l1 l2,
       l = (l1 ++ best :: l2)%list
       ∧ (∀ c, c ∈ l1 → (value_diff v c <=? value_diff v best)%float = false)
       ∧ (∀ c, c ∈ l2 → (value_diff v c <? value_diff v best)%float = false)
       ∧ (value_accepts v best →
          _resolve_collision_by_value v l = (Some best, "MATCHED_BY_VALUE"))
       ∧ (¬ value_accepts v best →
          _resolve_collision_by_value v l = (None, "NO_VALUE_MATCH"))).
Proof.
  rewrite resolve_by_value_answer.
  pose proof (search_first_closest v l) as H. unfold first_closest in H.
  destruct (fold_left (closer v) l (None, infinity)) as [[b|] d]; cbn [fst snd] in *.
  - destruct H as (-> & Hfin & l1 & l2 & -> & H1 & H2). split.
    + intros Hall. rewrite Hall in Hfin by set_solver. done.
    + intros (c & Hc & Hcfin).
      assert (Hv : is_nan v = false).
      { destruct (is_nan v) eqn:E; [|done]. by rewrite value_diff_nan in Hcfin. }
      rewrite Hv. exists b, l1, l2. split_and!; [done | done | done | | ].
      * intros Hacc. apply accept_test_spec in Hacc. by rewrite Hacc.
      * intros Hacc. destruct (_ || _) eqn:E; [|done].
        apply accept_test_spec in E. done.
  - destruct H as (-> & Hall). split.
    + intros _. by destruct (is_nan v).
    + intros (c & Hc & Hcfin). rewrite Hall in Hcfin by done. done.
Qed.

Lemma value_stage_spec (v : float) (l : list Candidate) :
  ((∀ c, c ∈ l → (value_diff v c <? infinity)%float = false) →
     value_stage v l = (None, "COLLISION"))
  ∧ ((∃ c, c ∈ l ∧ (value_diff v c <? infinity)%float = true) →
     ∃ best l1 l2,
       l = (l1 ++ best :: l2)%list
       ∧ (∀ c, c ∈ l1 → (value_diff v c <=? value_diff v best)%float = false)
       ∧ (∀ c, c ∈ l2 → (value_diff v c <? value_diff v best)%float = false)
       ∧ (value_accepts v best → value_stage v l = (Some best, "MATCHED_BY_VALUE"))
       ∧ (¬ value_accepts v best → value_stage v l = (None, "COLLISION"))).
Proof.
  destruct (resolve_by_value_spec v l) as [Hnone Hsome]. split.
  - intros Hall. specialize (Hnone Hall). unfold value_stage.
    destruct (_resolve_collision_by_value v l) as [[c|] s]; [done|done].
  - intros Hex. destruct (Hsome Hex) as (b & l1 & l2 & Hl & H1 & H2 & Hyes & Hno).
    exists b, l1, l2. split_and!; [done | done | done | | ];
      intros Hacc; unfold value_stage.
    + by rewrite (Hyes Hacc).
    + by rewrite (Hno Hacc).
Qed.

Lemma resolve_by_value_Some (v : float) (l : list Candidate) (c : Candidate) (s : string) :
  _resolve_collision_by_value v l = (Some c, s) → c ∈ l.
Proof.
  rewrite resolve_by_value_answer. destruct (is_nan v); [done|].
  pose proof (search_first_closest v l) as H. unfold first_closest in H.
  destruct (fold_left (closer v) l (None, infinity)) as [[b|] d]; cbn [fst snd] in *;
    [|done].
  destruct H as (-> & Hfin & l1 & l2 & -> & H1 & H2).
  destruct (_ || _) eqn:E; [|done]. intros [= <- <-].
  apply elem_of_app. right. left.
Qed.

(** ** The timestamp stage *)

Lemma filter_bool_prop {A} (f : A → bool) (P : A → Prop) `{!∀ x, Decision (P x)}
    (l : list A) :
  (∀ x, f x = true ↔ P x) → List.filter f l = filter P l.
Proof.
  intros Hfp. induction l as [|a l IH]; [done|].
  cbn [List.filter]. rewrite filter_cons. destruct (decide (P a)) as [Hp|Hp].
  - apply Hfp in Hp. rewrite Hp. by f_equal.
  - destruct (f a) eqn:E; [|done]. apply Hfp in E. done.
Qed.

Lemma in_window_spec (ts : Z) (c : Candidate) :
  in_window 1 ts c = true ↔ window_contains (Some ts) c.
Proof.
  unfold in_window, window_contains.
  destruct (cand_created_at_ts c), (cand_delivered_at_ts c); try done.
  rewrite andb_true_iff, !Z.leb_le. lia.
Qed.

Lemma resolve_by_timestamp_survivors (dr_ts : option Z) (l : list Candidate) :
  _resolve_collision_by_timestamp dr_ts l
  = match filter (window_contains dr_ts) l with
    | [cand] => (Some cand, "MATCHED_BY_TIMESTAMP")
    | _ :: _ :: _ => (None, "MULTIPLE_TIMESTAMP_MATCHES")
    | [] => (None, match dr_ts with
                   | None => "NO_DR_TIMESTAMP"
                   | Some _ => "NO_TIMESTAMP_MATCH"
                   end)
    end.
Proof.
  unfold _resolve_collision_by_timestamp, _resolve_collision_by_timestamp_buf.
  destruct dr_ts as [ts|].
  - rewrite (filter_bool_prop _ (window_contains (Some ts))) by apply in_window_spec.
    by destruct (filter _ l) as [|? [|? ?]].
  - assert (filter (window_contains None) l = []) as ->; [|done].
    induction l as [|a l IH]; [done|]. rewrite filter_cons_False; [done|].
    unfold window_contains. tauto.
Qed.

Lemma resolve_collision (dr_ts : option Z) (net_value : float)
    (c1 c2 : Candidate) (l : list Candidate) (cross_midnight : bool) :
  resolve dr_ts net_value (c1 :: c2 :: l) cross_midnight
  = match filter (window_contains dr_ts) (c1 :: c2 :: l) with
    | [cand] => (Some cand, "MATCHED_BY_TIMESTAMP")
    | _ => value_stage net_value (c1 :: c2 :: l)
    end.
Proof.
  unfold resolve. rewrite resolve_by_timestamp_survivors. unfold value_stage.
  by destruct (filter _ (c1 :: c2 :: l)) as [|? [|? ?]].
Qed.

Lemma two_or_more {A} (l : list A) :
  (2 ≤ length l)%nat → ∃ c1 c2 l', l = c1 :: c2 :: l'.
Proof.
  destruct l as [|c1 [|c2 l']]; simpl; intros H; try lia. eauto.
Qed.

(** C5, on floats. A collision that reaches the value stage (two or more
    available candidates, no timestamp match): when no candidate is at a
    distance below infinity from the order's net value (the net value is
    NaN, or every difference is infinite or NaN) nothing is assigned and
    the status is COLLISION. Otherwise a candidate is selected that no
    candidate is strictly closer than, in float64 absolute difference; it
    is accepted with status MATCHED_BY_VALUE exactly when the difference is
    below 0.10, or the candidate's value is positive and the difference
    divided by it is below 0.01; otherwise nothing is assigned and the
    status is COLLISION. With net value 88.50 and candidate values 12.00
    and 88.52, neither window containing the order's timestamp, the 88.52
    candidate is accepted with MATCHED_BY_VALUE. *)
Theorem value_stage_closest_within_tolerance :
  (∀ dr_ts net_value available cross_midnight,
     (2 ≤ length available)%nat →
     (_resolve_collision_by_timestamp dr_ts available).1 = None →
     ((∀ c, c ∈ available → (value_diff net_value c <? infinity)%float = false) →
        resolve dr_ts net_value available cross_midnight = (None, "COLLISION"))
     ∧ ((∃ c, c ∈ available ∧ (value_diff net_value c <? infinity)%float = true) →
        ∃ best,
          best ∈ available
          ∧ (∀ c, c ∈ available →
               (value_diff net_value c <? value_diff net_value best)%float = false)
          ∧ (value_accepts net_value best →
             resolve dr_ts net_value available cross_midnight
             = (Some best, "MATCHED_BY_VALUE"))
          ∧ (¬ value_accepts net_value best →
             resolve dr_ts net_value available cross_midnight = (None, "COLLISION"))))
  ∧ (∀ dr_ts c1 c2 cross_midnight,
       cand_dwh_value c1 = 12.00%float → cand_dwh_value c2 = 88.52%float →
       ¬ window_contains dr_ts c1 → ¬ window_contains dr_ts c2 →
       resolve dr_ts 88.50 [c1; c2] cross_midnight = (Some c2, "MATCHED_BY_VALUE")
       ∧ resolve dr_ts 88.50 [c2; c1] cross_midnight = (Some c2, "MATCHED_BY_VALUE")).
Proof.
  split.
  - intros dr_ts net_value available cross_midnight
      (c1 & c2 & l & ->)%two_or_more Hts.
    rewrite resolve_collision.
    rewrite resolve_by_timestamp_survivors in Hts.
    assert (Hstage : match filter (window_contains dr_ts) (c1 :: c2 :: l) with
                     | [cand] => (Some cand, "MATCHED_BY_TIMESTAMP")
                     | _ => value_stage net_value (c1 :: c2 :: l)
                     end = value_stage net_value (c1 :: c2 :: l)).
    { by destruct (filter _ (c1 :: c2 :: l)) as [|? [|? ?]]. }
    rewrite Hstage.
    destruct (value_stage_spec net_value (c1 :: c2 :: l)) as [Hnone Hsome].
    split; [done|]. intros Hex.
    destruct (Hsome Hex) as (b & l1 & l2 & Hl & H1 & H2 & Hyes & Hno).
    exists b. split_and!; [rewrite Hl; apply elem_of_app; right; left | | done | done].
    intros c Hc. rewrite Hl in Hc.
    apply elem_of_app in Hc as [Hc|[->|Hc]%elem_of_cons].
    + specialize (H1 c Hc). float_order.
    + float_order.
    + by apply H2.
  - intros dr_ts c1 c2 cross_midnight H1 H2 Hw1 Hw2.
    assert (Hf1 : (fold_left (closer 88.50) [c1; c2] (None, infinity)).1 = Some c2).
    { cbn [fold_left]. rewrite !closer_eq. unfold value_diff. rewrite H1, H2.
      by vm_compute. }
    assert (Hf2 : (fold_left (closer 88.50) [c2; c1] (None, infinity)).1 = Some c2).
    { cbn [fold_left]. rewrite !closer_eq. unfold value_diff. rewrite H1, H2.
      by vm_compute. }
    split; rewrite resolve_collision, !filter_cons_False, filter_nil by done;
      unfold value_stage; rewrite resolve_by_value_answer, ?Hf1, ?Hf2;
      unfold value_diff; rewrite H2; by vm_compute.
Qed.

Lemma value_stage_closest_within_tolerance_witness :
  let c1 := mkCandidate 0 "gp-1" 12.00 None None in
  let c2 := mkCandidate 1 "gp-2" 88.52 (Some 1000%Z) (Some 2000%Z) in
  ((cand_dwh_value c1 = 12.00%float ∧ cand_dwh_value c2 = 88.52%float
    ∧ ¬ window_contains (Some 90000%Z) c1 ∧ ¬ window_contains (Some 90000%Z) c2)
   ∧ resolve (Some 90000%Z) 88.50 [c1; c2] false = (Some c2, "MATCHED_BY_VALUE"))
  ∧ (((2 ≤ length [c1; c2])%nat
      ∧ (_resolve_collision_by_timestamp (Some 90000%Z) [c1; c2]).1 = None
      ∧ ∃ c, c ∈ [c1; c2] ∧ (value_diff 50 c <? infinity)%float = true)
     ∧ ∃ best,
         best ∈ [c1; c2]
         ∧ (∀ c, c ∈ [c1; c2] →
              (value_diff 50 c <? value_diff 50 best)%float = false)
         ∧ (value_accepts 50 best →
            resolve (Some 90000%Z) 50 [c1; c2] false = (Some best, "MATCHED_BY_VALUE"))
         ∧ (¬ value_accepts 50 best →
            resolve (Some 90000%Z) 50 [c1; c2] false = (None, "COLLISION"))).
Proof.
  intros c1 c2.
  assert (H1 : cand_dwh_value c1 = 12.00%float) by reflexivity.
  assert (H2 : cand_dwh_value c2 = 88.52%float) by reflexivity.
  assert (Hw1 : ¬ window_contains (Some 90000%Z) c1) by (simpl; tauto).
  assert (Hw2 : ¬ window_contains (Some 90000%Z) c2) by (simpl; lia).
  assert (Hlen : (2 ≤ length [c1; c2])%nat) by (simpl; lia).
  assert (Hts : (_resolve_collision_by_timestamp (Some 90000%Z) [c1; c2]).1 = None)
    by reflexivity.
  assert (Hex : ∃ c, c ∈ [c1; c2] ∧ (value_diff 50 c <? infinity)%float = true).
  { exists c1. split; [left | reflexivity]. }
  split.
  - split; [done|].
    exact (proj1 (proj2 value_stage_closest_within_tolerance
                    (Some 90000%Z) c1 c2 false H1 H2 Hw1 Hw2)).
  - split; [done|].
    exact (proj2 (proj1 value_stage_closest_within_tolerance
                    (Some 90000%Z) 50%float [c1; c2] false Hlen Hts) Hex).
Defined.

Lemma window_contains_has_timestamps (dr_ts : option Z) (c : Candidate) :
  window_contains dr_ts c → has_timestamps c.
Proof.
  unfold window_contains, has_timestamps.
  destruct dr_ts, (cand_created_at_ts c), (cand_delivered_at_ts c); done.
Qed.

Lemma survivors_ignore_missing (dr_ts : option Z) (l : list Candidate) :
  filter (window_contains dr_ts) (filter has_timestamps l)
  = filter (window_contains dr_ts) l.
Proof.
  rewrite list_filter_filter. apply list_filter_iff.
  intros c. split; [tauto|]. intros H. split; [done|].
  by eapply window_contains_has_timestamps.
Qed.

Lemma survivors_nil (dr_ts : option Z) (l : list Candidate) :
  (∀ c, c ∈ l → ¬ window_contains dr_ts c) → filter (window_contains dr_ts) l = [].
Proof.
  intros H. induction l as [|a l IH]; [done|].
  rewrite filter_cons_False by (apply H; left).
  apply IH. intros c Hc. apply H. by right.
Qed.

(** C10, as the code has it. In a collision a candidate without a created-at
    or delivered-at timestamp is left out of the window test without an
    error: the timestamp stage answers as if the candidate were absent, and
    never matches it. When the order has no delivery timestamp, or when no
    candidate has both timestamps, the timestamp stage matches nothing and
    the outcome is that of the value stage. (Candidates that do have their
    timestamps are still tested, so a collision in which only some
    candidates lack them can be matched by timestamp.) *)
Theorem missing_timestamps_skip_to_value_stage
    (dr_ts : option Z) (net_value : float) (available : list Candidate)
    (cross_midnight : bool) :
  (2 ≤ length available)%nat →
  _resolve_collision_by_timestamp dr_ts available
  = _resolve_collision_by_timestamp dr_ts (filter has_timestamps available)
  ∧ (∀ c, c ∈ available → ¬ has_timestamps c →
       resolve dr_ts net_value available cross_midnight
       ≠ (Some c, "MATCHED_BY_TIMESTAMP"))
  ∧ (dr_ts = None →
       resolve dr_ts net_value available cross_midnight
       = value_stage net_value available)
  ∧ ((∀ c, c ∈ available → ¬ has_timestamps c) →
       resolve dr_ts net_value available cross_midnight
       = value_stage net_value available).
Proof.
  intros (c1 & c2 & l & ->)%two_or_more. split_and!.
  - rewrite !resolve_by_timestamp_survivors. by rewrite survivors_ignore_missing.
  - intros c Hc Hno. rewrite resolve_collision.
    destruct (filter _ (c1 :: c2 :: l)) as [|x [|? ?]] eqn:E.
    + unfold value_stage. destruct (_resolve_collision_by_value _ _) as [[?|] ?]; congruence.
    + intros [= ->]. apply Hno. apply (window_contains_has_timestamps dr_ts).
      assert (Hx : c ∈ filter (window_contains dr_ts) (c1 :: c2 :: l))
        by (rewrite E; left).
      by apply list_elem_of_filter in Hx as [? _].
    + unfold value_stage. destruct (_resolve_collision_by_value _ _) as [[?|] ?]; congruence.
  - intros ->. rewrite resolve_collision.
    rewrite survivors_nil; [done|]. intros c _. unfold window_contains. tauto.
  - intros Hall. rewrite resolve_collision.
    rewrite survivors_nil; [done|]. intros c Hc Hw.
    apply (Hall c Hc). by eapply window_contains_has_timestamps.
Qed.

Lemma missing_timestamps_skip_to_value_stage_witness :
  let c1 := mkCandidate 0 "gp-1" 20 None (Some 2000%Z) in
  let c2 := mkCandidate 1 "gp-2" 30 (Some 1000%Z) None in
  (2 ≤ length [c1; c2])%nat
  ∧ resolve (Some 1500%Z) 30 [c1; c2] false = value_stage 30 [c1; c2].
Proof.
  intros c1 c2. split; [simpl; lia|].
  apply (missing_timestamps_skip_to_value_stage (Some 1500%Z) 30 [c1; c2] false);
    [simpl; lia|].
  intros c Hc [H1 H2].
  apply elem_of_cons in Hc as [->|Hc].
  - by destruct H1.
  - apply list_elem_of_singleton in Hc as ->. by destruct H2.
Defined.

(** C10 as stated fails: a candidate without its created-at timestamp is in
    the collision, yet the other candidate's window contains the order's
    timestamp, so the order is matched by timestamp and the value stage is
    not reached. *)
Lemma missing_timestamp_counterexample :
  let c1 := mkCandidate 0 "gp-1" 20 None (Some 2000%Z) in
  let c2 := mkCandidate 1 "gp-2" 30 (Some 1000%Z) (Some 2000%Z) in
  c1 ∈ [c1; c2] ∧ cand_created_at_ts c1 = None
  ∧ resolve (Some 1500%Z) 20 [c1; c2] false = (Some c2, "MATCHED_BY_TIMESTAMP")
  ∧ resolve (Some 1500%Z) 20 [c1; c2] false ≠ value_stage 20 [c1; c2].
Proof.
  intros c1 c2. split_and!; [left | done | by vm_compute | by vm_compute].
Qed.

(** ** No order rows *)

Lemma no_orders_no_dwh_column (dr_df : list DrRow) :
  has_dwh_column (no_orders_row <$> dr_df) = false.
Proof. induction dr_df as [|r l IH]; [done|]. simpl. exact IH. Qed.

(** C9. When the table has no "Order Value & Commission" row, aggregation
    returns the empty table and matching returns normally: every input row
    comes back once, annotated with order_category "No Orders" and
    match_status "N/A"; the variance step that follows also returns, with
    zero variance on every row. *)
Theorem no_orders_outcome (dr_df : list DrRow) (dwh_df : list DwhRow) :
  filter is_order dr_df = [] →
  aggregate_order_values dr_df = []
  ∧ match_deliveroo_orders dr_df dwh_df = no_orders_row <$> dr_df
  ∧ (∀ r, r ∈ match_deliveroo_orders dr_df dwh_df →
          res_order_category r = "No Orders" ∧ res_match_status r = "N/A")
  ∧ reconcile dr_df dwh_df
    = (λ r, mkVarianceRow (no_orders_row r) 0 "No DWH Value" "N/A") <$> dr_df.
Proof.
  intros Hempty.
  assert (Hm : match_deliveroo_orders dr_df dwh_df = no_orders_row <$> dr_df).
  { unfold match_deliveroo_orders. by rewrite Hempty. }
  split_and!.
  - unfold aggregate_order_values. by rewrite Hempty.
  - done.
  - rewrite Hm. intros r (x & -> & _)%list_elem_of_fmap. done.
  - unfold reconcile, calculate_variances. rewrite Hm, no_orders_no_dwh_column.
    rewrite <- list_fmap_compose. done.
Qed.

Lemma no_orders_outcome_witness :
  let fee := mkDrRow "7001" "Additional Fees" "7001" "StoreA" (Some 20%Z)
                     (Some 1728000%Z) 0 0 (-3) in
  filter is_order [fee] = []
  ∧ match_deliveroo_orders [fee] [] = [no_orders_row fee].
Proof.
  intros fee. split; [reflexivity|].
  exact (proj1 (proj2 (no_orders_outcome [fee] [] eq_refl))).
Defined.

(** ** Processing order *)

(** C2 fails on the code: the sort key is the delivery date, not the
    delivery timestamp. Of two orders of one day the one that comes first
    in the table is resolved first, although the other was delivered nine
    hours earlier; it claims the only reference and the earlier order is
    left without one. *)
Theorem same_day_orders_keep_table_order :
  let dr_df := [evening_order; morning_order] in
  dr_delivery_ts morning_order = Some 1760400%Z
  ∧ dr_delivery_ts evening_order = Some 1792800%Z
  ∧ agg_order_number <$> sort_values_delivery_date (aggregate_order_values dr_df)
    = ["900111"; "800111"]
  ∧ (res_order_category <$> match_deliveroo_orders dr_df [only_reference])
    = ["Matched"; "Not Matched"]
  ∧ (res_match_status <$> match_deliveroo_orders dr_df [only_reference])
    = ["MATCHED"; "NO_DWH_RECORD"].
Proof. by vm_compute. Qed.

(** ** The warehouse lookup *)

Lemma dwh_completed_lookup (dwh_df : list DwhRow) (i : nat) (row : DwhRow) :
  (i, row) ∈ dwh_completed_of dwh_df → dwh_df !! i = Some row.
Proof.
  unfold dwh_completed_of. rewrite list_elem_of_In, filter_In, <- list_elem_of_In.
  intros [Hin _]. apply list_elem_of_lookup in Hin as [j Hj].
  rewrite list_lookup_imap in Hj.
  destruct (dwh_df !! j) eqn:E; simpl in Hj; [|done].
  by injection Hj as -> ->.
Qed.

Lemma loc_completed (dwh_df : list DwhRow) (i : nat) (row : DwhRow) :
  (i, row) ∈ dwh_completed_of dwh_df → loc (dwh_completed_of dwh_df) i = Some row.
Proof.
  intros Hin. unfold loc.
  destruct (List.find _ (dwh_completed_of dwh_df)) as [[j r]|] eqn:E.
  - apply find_some in E as [Hj Heq]. simpl in Heq.
    apply Nat.eqb_eq in Heq as ->.
    apply list_elem_of_In, dwh_completed_lookup in Hj.
    apply dwh_completed_lookup in Hin. simpl. congruence.
  - exfalso. apply list_elem_of_In in Hin.
    pose proof (find_none _ _ E _ Hin) as Hf. simpl in Hf.
    by rewrite Nat.eqb_refl in Hf.
Qed.

Lemma add_to_lookup_from dc lk p :
  p ∈ dc → lookup_from dc lk → lookup_from dc (add_to_lookup lk p).
Proof.
  intros Hp Hlk key cs c. unfold add_to_lookup.
  destruct (nonempty _ && nonempty _ && negb _); [|apply Hlk].
  set (k := (strip (mp_order_id p.2), strip (location_name p.2), created_at_day p.2)).
  destruct (decide (k = key)) as [<-|Hne].
  - rewrite lookup_insert_eq. intros [= <-] Hc.
    apply elem_of_app in Hc as [Hc|Hc].
    + destruct (lk !! k) as [cs|] eqn:E; simpl in Hc.
      * by eapply Hlk.
      * by apply not_elem_of_nil in Hc.
    + apply list_elem_of_singleton in Hc as ->. eauto.
  - rewrite lookup_insert_ne by done. apply Hlk.
Qed.

Lemma fold_add_to_lookup_from dc l lk :
  (∀ p, p ∈ l → p ∈ dc) → lookup_from dc lk →
  lookup_from dc (fold_left add_to_lookup l lk).
Proof.
  revert lk. induction l as [|p l IH]; intros lk Hsub Hlk; [done|].
  cbn [fold_left]. apply IH.
  - intros q Hq. apply Hsub. by right.
  - apply add_to_lookup_from; [apply Hsub; left | done].
Qed.

Lemma build_dwh_lookup_from dc : lookup_from dc (build_dwh_lookup dc).
Proof.
  apply fold_add_to_lookup_from; [done|].
  intros key cs c Hk. by rewrite lookup_empty in Hk.
Qed.

Lemma add_to_lookup_key lk p :
  add_to_lookup lk p
  = match dwh_key_of p.2 with
    | Some key => <[key := (default [] (lk !! key) ++ [candidate_of p.1 p.2])%list]> lk
    | None => lk
    end.
Proof.
  unfold add_to_lookup, dwh_key_of.
  by destruct (nonempty _ && nonempty _ && negb _).
Qed.

Lemma fold_add_to_lookup_read (l : list (nat * DwhRow)) lk key :
  default [] (fold_left add_to_lookup l lk !! key)
  = (default [] (lk !! key)
     ++ ((λ p, candidate_of p.1 p.2) <$> filter (λ p, dwh_key_of p.2 = Some key) l))%list.
Proof.
  revert lk. induction l as [|p l IH]; intros lk.
  - cbn. by rewrite app_nil_r.
  - cbn [fold_left]. rewrite IH, add_to_lookup_key, filter_cons.
    destruct (dwh_key_of p.2) as [k|] eqn:Ek.
    + destruct (decide (k = key)) as [->|Hne].
      * rewrite decide_True by done. rewrite lookup_insert_eq. cbn.
        by rewrite <- app_assoc.
      * rewrite decide_False by congruence. by rewrite lookup_insert_ne.
    + by rewrite decide_False.
Qed.

Lemma fold_add_to_lookup_nonempty (l : list (nat * DwhRow)) lk :
  (∀ key, lk !! key ≠ Some []) →
  ∀ key, fold_left add_to_lookup l lk !! key ≠ Some [].
Proof.
  revert lk. induction l as [|p l IH]; intros lk Hlk; [done|].
  cbn [fold_left]. apply IH. intros key. rewrite add_to_lookup_key.
  destruct (dwh_key_of p.2) as [k|]; [|done].
  destruct (decide (k = key)) as [->|Hne].
  - rewrite lookup_insert_eq. intros [= H]. by apply app_nil in H as [_ ?].
  - by rewrite lookup_insert_ne.
Qed.

Lemma elem_of_dwh_completed (dwh_df : list DwhRow) (i : nat) (row : DwhRow) :
  (i, row) ∈ dwh_completed_of dwh_df
  ↔ dwh_df !! i = Some row ∧ (order_completed row =? 1)%float = true.
Proof.
  unfold dwh_completed_of. rewrite list_elem_of_In, filter_In, <- list_elem_of_In.
  cbn [snd]. split; intros [H1 H2]; split; try done.
  - apply list_elem_of_lookup in H1 as [j Hj]. rewrite list_lookup_imap in Hj.
    destruct (dwh_df !! j) eqn:E; simpl in Hj; [|done]. by injection Hj as -> ->.
  - apply list_elem_of_lookup. exists i. by rewrite list_lookup_imap, H1.
Qed.

Lemma lookup_candidate_origin (dwh_df : list DwhRow) key c :
  c ∈ default [] (build_dwh_lookup (dwh_completed_of dwh_df) !! key) →
  ∃ i row, dwh_df !! i = Some row ∧ (order_completed row =? 1)%float = true
           ∧ dwh_key_of row = Some key ∧ c = candidate_of i row.
Proof.
  unfold build_dwh_lookup. rewrite fold_add_to_lookup_read, lookup_empty.
  cbn [default app]. rewrite list_elem_of_fmap.
  intros ([i row] & -> & Hin). apply list_elem_of_filter in Hin as [Hk Hin].
  apply elem_of_dwh_completed in Hin as [Hi Hc]. exists i, row. done.
Qed.

(** ** Candidates handed to the resolver *)

Lemma available_for_spec lk used key c :
  c ∈ available_for lk used key →
  (cand_gp_order_id c ∉ used) ∧ (∃ cs, lk !! key = Some cs ∧ c ∈ cs).
Proof.
  unfold available_for. rewrite list_elem_of_In, filter_In, <- list_elem_of_In.
  intros [Hin Hnot]. split.
  - apply negb_true_iff, bool_decide_eq_false in Hnot. done.
  - destruct (lk !! key) as [cs|]; simpl in Hin; [eauto|].
    by apply not_elem_of_nil in Hin.
Qed.

Lemma find_available_spec lk used agg_row c :
  c ∈ (find_available lk used agg_row).1 →
  (cand_gp_order_id c ∉ used) ∧ (∃ key cs, lk !! key = Some cs ∧ c ∈ cs).
Proof.
  unfold find_available.
  destruct (available_for lk used (_, _, agg_delivery_date agg_row)) as [|x l] eqn:E.
  - cbn [fst]. intros Hc. apply available_for_spec in Hc as [? (cs & ? & ?)]. eauto.
  - cbn [fst]. rewrite <- E. intros Hc.
    apply available_for_spec in Hc as [? (cs & ? & ?)]. eauto.
Qed.

Lemma value_stage_Some v l c s : value_stage v l = (Some c, s) → c ∈ l.
Proof.
  unfold value_stage.
  destruct (_resolve_collision_by_value v l) as [[b|] s'] eqn:E; [|done].
  intros [= <- _]. by apply resolve_by_value_Some in E.
Qed.

(** A matched candidate is one of the available ones. *)
Lemma resolve_Some dr_ts net_value available cross_midnight c s :
  resolve dr_ts net_value available cross_midnight = (Some c, s) → c ∈ available.
Proof.
  destruct available as [|c1 [|c2 l]].
  - done.
  - simpl. intros [= <- _]. left.
  - rewrite resolve_collision.
    destruct (filter _ (c1 :: c2 :: l)) as [|x [|? ?]] eqn:E.
    + apply value_stage_Some.
    + intros [= <- _].
      assert (Hx : x ∈ filter (window_contains dr_ts) (c1 :: c2 :: l))
        by (rewrite E; left).
      by apply list_elem_of_filter in Hx as [_ ?].
    + apply value_stage_Some.
Qed.

(** ** The matching loop *)

(** The two ways a turn of the loop ends. *)
Lemma match_step_cases dc lk ots (mr : gmap string MatchInfo) (used : gset string) a :
  let av := find_available lk used a in
  let dr_ts := ots !! agg_order_number a ≫= id in
  (∃ c s,
     resolve dr_ts (float_or_0 (agg_net_sales_value a)) av.1 av.2 = (Some c, s)
     ∧ match_step dc lk ots (mr, used) a
       = (<[agg_order_number a :=
              mkMatchInfo true (Some (cand_idx c)) (loc dc (cand_idx c))
                (if agg_has_refund a then "Matched (Grouped)" else "Matched")
                s (confidence_map s) av.2 (float_or_0 (agg_net_sales_value a))
                (float_or_0 (agg_gross_order_value a))
                (float_or_0 (agg_unavailable_items_adjustment a))]> mr,
          {[cand_gp_order_id c]} ∪ used))
  ∨ (∃ s,
       resolve dr_ts (float_or_0 (agg_net_sales_value a)) av.1 av.2 = (None, s)
       ∧ match_step dc lk ots (mr, used) a
         = (<[agg_order_number a :=
                mkMatchInfo false None None "Not Matched"
                  s (confidence_map s) av.2 (float_or_0 (agg_net_sales_value a))
                  (float_or_0 (agg_gross_order_value a))
                  (float_or_0 (agg_unavailable_items_adjustment a))]> mr,
            used)).
Proof.
  intros av dr_ts. unfold match_step. fold av. fold dr_ts.
  destruct av as [available cross]. cbn [fst snd].
  destruct (resolve dr_ts _ available cross) as [[c|] s]; [left | right]; eauto.
Qed.

(** The candidate matched in a turn comes from a completed warehouse row and
    its id is not yet used. *)
Lemma matched_candidate_fresh dwh_df lk (used : gset string) a dr_ts c s :
  lookup_from (dwh_completed_of dwh_df) lk →
  resolve dr_ts (float_or_0 (agg_net_sales_value a))
          (find_available lk used a).1 (find_available lk used a).2 = (Some c, s) →
  (cand_gp_order_id c ∉ used)
  ∧ ∃ row, loc (dwh_completed_of dwh_df) (cand_idx c) = Some row
           ∧ gp_order_id row = cand_gp_order_id c
           ∧ float_or_0 (post_promo_sales_inc_vat row) = cand_dwh_value c.
Proof.
  intros Hlk Hres. apply resolve_Some in Hres.
  apply find_available_spec in Hres as [Hfresh (key & cs & Hk & Hc)].
  split; [done|].
  destruct (Hlk key cs c Hk Hc) as ([i row] & Hp & ->).
  exists row. split_and!; [|done|done]. by apply loc_completed.
Qed.

Lemma match_step_claims_unique dwh_df lk ots st a :
  lookup_from (dwh_completed_of dwh_df) lk →
  claims_unique st →
  claims_unique (match_step (dwh_completed_of dwh_df) lk ots st a).
Proof.
  intros Hlk [Hused Huniq]. destruct st as [mr used]. cbn [fst snd] in *.
  destruct (match_step_cases (dwh_completed_of dwh_df) lk ots mr used a)
    as [(c & s & Hres & ->)|(s & Hres & ->)]; unfold claims_unique; cbn [fst snd].
  - destruct (matched_candidate_fresh _ _ _ _ _ _ _ Hlk Hres)
      as [Hfresh (row & Hloc & Hgp & _)].
    set (new := mkMatchInfo true _ _ _ _ _ _ _ _ _).
    assert (Hnew : mi_gp_order_id new = Some (cand_gp_order_id c)).
    { unfold mi_gp_order_id, new. cbn [mi_dwh_data]. rewrite Hloc. simpl. by f_equal. }
    assert (Hold : ∀ o m, mr !! o = Some m → mi_matched m = true →
                          mi_gp_order_id m ≠ Some (cand_gp_order_id c)).
    { intros o m Ho Hm Heq. destruct (Hused o m Ho Hm) as (g & Hg & Hin).
      rewrite Hg in Heq. injection Heq as ->. done. }
    split.
    + intros o m Ho Hm. destruct (decide (agg_order_number a = o)) as [<-|Hne].
      * rewrite lookup_insert_eq in Ho. injection Ho as <-.
        exists (cand_gp_order_id c). split; [done|]. set_solver.
      * rewrite lookup_insert_ne in Ho by done.
        destruct (Hused o m Ho Hm) as (g & Hg & Hin). exists g. split; [done|]. set_solver.
    + intros o1 o2 m1 m2 Hne H1 H2 Hm1 Hm2.
      destruct (decide (agg_order_number a = o1)) as [<-|Hne1].
      * rewrite lookup_insert_eq in H1. injection H1 as <-.
        rewrite lookup_insert_ne in H2 by done. rewrite Hnew.
        intros Heq. by eapply Hold.
      * rewrite lookup_insert_ne in H1 by done.
        destruct (decide (agg_order_number a = o2)) as [<-|Hne2].
        -- rewrite lookup_insert_eq in H2. injection H2 as <-. rewrite Hnew.
           by eapply Hold.
        -- rewrite lookup_insert_ne in H2 by done.
           exact (Huniq o1 o2 m1 m2 Hne H1 H2 Hm1 Hm2).
  - split.
    + intros o m Ho Hm. destruct (decide (agg_order_number a = o)) as [<-|Hne].
      * rewrite lookup_insert_eq in Ho. by injection Ho as <-.
      * rewrite lookup_insert_ne in Ho by done. by eapply Hused.
    + intros o1 o2 m1 m2 Hne H1 H2 Hm1 Hm2.
      destruct (decide (agg_order_number a = o1)) as [<-|Hne1].
      { rewrite lookup_insert_eq in H1. by injection H1 as <-. }
      destruct (decide (agg_order_number a = o2)) as [<-|Hne2].
      { rewrite lookup_insert_eq in H2. by injection H2 as <-. }
      rewrite lookup_insert_ne in H1, H2 by done.
      exact (Huniq o1 o2 m1 m2 Hne H1 H2 Hm1 Hm2).
Qed.

(** An invariant of the loop body holds after the loop. *)
Lemma fold_left_invariant {S A} (P : S → Prop) (f : S → A → S) (l : list A) (s : S) :
  (∀ s a, P s → P (f s a)) → P s → P (fold_left f l s).
Proof.
  intros Hstep. revert s. induction l as [|a l IH]; intros s Hs; [done|].
  cbn [fold_left]. by apply IH, Hstep.
Qed.

Lemma run_matching_claims_unique dr_df dwh_df :
  claims_unique (run_matching dr_df dwh_df).
Proof.
  unfold run_matching. apply fold_left_invariant.
  - intros st a. apply match_step_claims_unique, build_dwh_lookup_from.
  - split; cbn [fst snd].
    + intros o m Ho. by rewrite lookup_empty in Ho.
    + intros o1 o2 m1 m2 _ Ho. by rewrite lookup_empty in Ho.
Qed.

(** C1. After the matching loop, whatever the two input tables: an accepted
    match holds an id that is in the used-set; two accepted matches of
    different orders never hold the same gp_order_id; and every candidate
    list the loop resolves against (same day or previous day) contains no
    candidate whose gp_order_id is in the used-set. *)
Theorem each_reference_claimed_once (dr_df : list DrRow) (dwh_df : list DwhRow) :
  (∀ o m, (run_matching dr_df dwh_df).1 !! o = Some m → mi_matched m = true →
     ∃ g, mi_gp_order_id m = Some g ∧ g ∈ (run_matching dr_df dwh_df).2)
  ∧ (∀ o1 o2 m1 m2, o1 ≠ o2 →
       (run_matching dr_df dwh_df).1 !! o1 = Some m1 →
       (run_matching dr_df dwh_df).1 !! o2 = Some m2 →
       mi_matched m1 = true → mi_matched m2 = true →
       mi_gp_order_id m1 ≠ mi_gp_order_id m2)
  ∧ (∀ lk (used : gset string) agg_row c,
       c ∈ (find_available lk used agg_row).1 → cand_gp_order_id c ∉ used).
Proof.
  destruct (run_matching_claims_unique dr_df dwh_df) as [Hused Huniq].
  split_and!; [done | done | ].
  intros lk used agg_row c Hc. by apply find_available_spec in Hc as [? _].
Qed.

Lemma each_reference_claimed_once_witness :
  let dr_df := [evening_order; morning_order] in
  let dwh_df := [morning_reference; evening_reference] in
  ∃ m1 m2,
    ("900111" ≠ "800111"
     ∧ (run_matching dr_df dwh_df).1 !! "900111" = Some m1
     ∧ (run_matching dr_df dwh_df).1 !! "800111" = Some m2
     ∧ mi_matched m1 = true ∧ mi_matched m2 = true)
    ∧ mi_gp_order_id m1 ≠ mi_gp_order_id m2.
Proof.
  intros dr_df dwh_df.
  destruct ((run_matching dr_df dwh_df).1 !! "900111") as [m1|] eqn:E1;
    [|by vm_compute in E1].
  destruct ((run_matching dr_df dwh_df).1 !! "800111") as [m2|] eqn:E2;
    [|by vm_compute in E2].
  exists m1, m2.
  assert (Hne : "900111" ≠ "800111") by done.
  assert (Hm1 : mi_matched m1 = true).
  { vm_compute in E1. by injection E1 as <-. }
  assert (Hm2 : mi_matched m2 = true).
  { vm_compute in E2. by injection E2 as <-. }
  split; [done|].
  exact (proj1 (proj2 (each_reference_claimed_once dr_df dwh_df))
           "900111" "800111" m1 m2 Hne E1 E2 Hm1 Hm2).
Defined.

(** ** The timestamp stage in the loop *)










Lemma match_step_wf dwh_df lk ots st a :
  lookup_from (dwh_completed_of dwh_df) lk →
  (∀ o m, st.1 !! o = Some m → mi_wf m) →
  ∀ o m, (match_step (dwh_completed_of dwh_df) lk ots st a).1 !! o = Some m → mi_wf m.
Proof.
  intros Hlk Hwf o m. destruct st as [mr used]. cbn [fst] in Hwf.
  destruct (match_step_cases (dwh_completed_of dwh_df) lk ots mr used a)
    as [(c & s & Hres & ->)|(s & Hres & ->)]; cbn [fst];
    (destruct (decide (agg_order_number a = o)) as [<-|Hne];
     [rewrite lookup_insert_eq; intros [= <-]
     |rewrite lookup_insert_ne by done; apply Hwf]).
  - destruct (matched_candidate_fresh _ _ _ _ _ _ _ Hlk Hres)
      as [_ (row & Hloc & _)].
    unfold mi_wf. cbn [mi_matched mi_dwh_data mi_order_category].
    rewrite Hloc. split; [eauto|]. by destruct (agg_has_refund a).
  - done.
Qed.

Lemma run_matching_wf dr_df dwh_df o m :
  (run_matching dr_df dwh_df).1 !! o = Some m → mi_wf m.
Proof.
  revert o m. unfold run_matching.
  apply (fold_left_invariant (λ st : match_state, ∀ o m, st.1 !! o = Some m → mi_wf m)).
  - intros st a Hst. apply match_step_wf; [apply build_dwh_lookup_from | done].
  - intros o m Ho. cbn [fst] in Ho. by rewrite lookup_empty in Ho.
Qed.

Lemma run_matching_no_orders dr_df dwh_df :
  filter is_order dr_df = [] → (run_matching dr_df dwh_df).1 = ∅.
Proof.
  intros H. unfold run_matching, aggregate_order_values. by rewrite H.
Qed.

Lemma run_matching_has_orders dr_df dwh_df o m :
  (run_matching dr_df dwh_df).1 !! o = Some m → filter is_order dr_df ≠ [].
Proof.
  intros Ho Hnil. rewrite run_matching_no_orders in Ho by done.
  by rewrite lookup_empty in Ho.
Qed.

(** ** Rows of the returned tables *)

Lemma quality_check_reviewed (df : list ResultRow) :
  quality_check df = reviewed (has_dwh_column df) <$> df.
Proof.
  unfold quality_check, reviewed. destruct (has_dwh_column df); [done|].
  by rewrite list_fmap_id.
Qed.

Lemma match_deliveroo_orders_rows dr_df dwh_df :
  filter is_order dr_df ≠ [] →
  match_deliveroo_orders dr_df dwh_df
  = reviewed (has_dwh_column (propagate (run_matching dr_df dwh_df).1 dr_df))
    <$> propagate (run_matching dr_df dwh_df).1 dr_df.
Proof.
  intros Hne. unfold match_deliveroo_orders.
  destruct (filter is_order dr_df) as [|x l]; [done|].
  destruct (run_matching dr_df dwh_df) as [mr used]. apply quality_check_reviewed.
Qed.

Lemma has_dwh_column_elem (df : list ResultRow) (r : ResultRow) :
  r ∈ df → is_Some (res_dwh_data r) → has_dwh_column df = true.
Proof.
  intros Hin Hsome. apply existsb_exists. exists r.
  split; [by apply list_elem_of_In | by apply bool_decide_eq_true].
Qed.

Lemma has_net_column_elem (df : list ResultRow) (r : ResultRow) :
  r ∈ df → is_Some (res_net_sales_value r) → has_net_column df = true.
Proof.
  intros Hin Hsome. apply existsb_exists. exists r.
  split; [by apply list_elem_of_In | by apply bool_decide_eq_true].
Qed.

(** Step 6 touches the confidence column only. *)
Lemma reviewed_fields b r :
  res_row (reviewed b r) = res_row r
  ∧ res_order_category (reviewed b r) = res_order_category r
  ∧ res_net_sales_value (reviewed b r) = res_net_sales_value r
  ∧ res_dwh_data (reviewed b r) = res_dwh_data r.
Proof.
  unfold reviewed, review_row.
  destruct b; [|done]. by destruct (high_variance_mask r).
Qed.

(** The rows that come out of step 5 with a matched category are the order
    rows of matched orders. *)
Lemma propagate_row_matched mr dr_row :
  (∀ o m, mr !! o = Some m → mi_wf m) →
  matched_mask (res_order_category (propagate_row mr dr_row)) = true →
  ∃ m ref,
    mr !! order_number dr_row = Some m ∧ mi_matched m = true ∧ is_order dr_row
    ∧ mi_dwh_data m = Some ref
    ∧ propagate_row mr dr_row
      = mkResultRow dr_row (mi_order_category m) (mi_match_status m)
          (Some (mi_match_confidence m)) (Some (mi_net_sales_value m))
          (Some (mi_gross_order_value m)) (Some (mi_unavailable_items_adjustment m))
          (Some ref).
Proof.
  intros Hwf. unfold propagate_row.
  destruct (mr !! order_number dr_row) as [m|] eqn:E; [|by vm_compute].
  specialize (Hwf _ _ E). unfold mi_wf in Hwf.
  destruct (mi_matched m) eqn:Em.
  - destruct Hwf as [[ref Href] _].
    destruct (decide (is_order dr_row)); [|by vm_compute].
    intros _. exists m, ref. rewrite Href. done.
  - destruct (decide (is_order dr_row)); by vm_compute.
Qed.

(** The rows that come out of step 5 for the other rows of a matched order. *)
Lemma propagate_row_linked mr dr_row m :
  mr !! order_number dr_row = Some m → mi_matched m = true → ¬ is_order dr_row →
  propagate_row mr dr_row
  = mkResultRow dr_row "Linked to Order" "LINKED" (Some "Inherited")
      (Some (mi_net_sales_value m)) (Some (mi_gross_order_value m))
      (Some (mi_unavailable_items_adjustment m)) (mi_dwh_data m).
Proof.
  intros E Em Hno. unfold propagate_row. rewrite E, Em.
  by destruct (decide (is_order dr_row)).
Qed.

Lemma propagate_row_parent mr dr_row m :
  mr !! order_number dr_row = Some m → mi_matched m = true → is_order dr_row →
  propagate_row mr dr_row
  = mkResultRow dr_row (mi_order_category m) (mi_match_status m)
      (Some (mi_match_confidence m)) (Some (mi_net_sales_value m))
      (Some (mi_gross_order_value m)) (Some (mi_unavailable_items_adjustment m))
      (mi_dwh_data m).
Proof.
  intros E Em Hno. unfold propagate_row. rewrite E, Em.
  by destruct (decide (is_order dr_row)).
Qed.

(** ** The post-match quality check *)

Lemma variance_pct_above_20 (net dwh : float) :
  (20 <? variance_pct net dwh)%float = true ↔ needs_review net dwh.
Proof.
  unfold variance_pct, needs_review. destruct (0 <? net)%float.
  - tauto.
  - split; [by vm_compute | by intros [? _]].
Qed.

Lemma review_row_matched (r : ResultRow) :
  matched_mask (res_order_category r) = true →
  (needs_review (net_val r) (dwh_val r) →
   review_row r
   = set_match_confidence r ((λ c, c ++ " - Review") <$> res_match_confidence r))
  ∧ (¬ needs_review (net_val r) (dwh_val r) → review_row r = r).
Proof.
  intros Hm. unfold review_row, high_variance_mask. rewrite Hm. cbn [andb].
  destruct (20 <? _)%float eqn:E.
  - apply variance_pct_above_20 in E. done.
  - split; [|done]. intros H. apply variance_pct_above_20 in H. congruence.
Qed.

(** C3, on floats. A row that leaves the propagation step with
    order_category Matched or Matched (Grouped) has a confidence, a net
    value and a matched warehouse row. The quality check appends
    " - Review" to that confidence exactly when the net value (a missing
    one counting as zero) is positive and the absolute difference between
    net value and warehouse value, divided by the order's net value and
    multiplied by 100 in float64, exceeds 20, whatever stage produced the
    match; otherwise the row is returned unchanged. *)
Theorem review_suffix_on_high_variance
    (dr_df : list DrRow) (dwh_df : list DwhRow) (i : nat) (r : ResultRow) :
  propagate (run_matching dr_df dwh_df).1 dr_df !! i = Some r →
  matched_mask (res_order_category r) = true →
  ∃ conf net ref,
    res_match_confidence r = Some conf
    ∧ res_net_sales_value r = Some net
    ∧ res_dwh_data r = Some ref
    ∧ (needs_review (fillna0 net) (fillna0 (post_promo_sales_inc_vat ref)) →
       match_deliveroo_orders dr_df dwh_df !! i
       = Some (set_match_confidence r (Some (conf ++ " - Review"))))
    ∧ (¬ needs_review (fillna0 net) (fillna0 (post_promo_sales_inc_vat ref)) →
       match_deliveroo_orders dr_df dwh_df !! i = Some r).
Proof.
  intros Hi Hm.
  assert (Hin : r ∈ propagate (run_matching dr_df dwh_df).1 dr_df)
    by (by eapply list_elem_of_lookup_2).
  assert (Hrow : ∃ dr_row m ref,
             mi_dwh_data m = Some ref
             ∧ (run_matching dr_df dwh_df).1 !! order_number dr_row = Some m
             ∧ r = mkResultRow dr_row (mi_order_category m) (mi_match_status m)
                     (Some (mi_match_confidence m)) (Some (mi_net_sales_value m))
                     (Some (mi_gross_order_value m))
                     (Some (mi_unavailable_items_adjustment m)) (Some ref)).
  { unfold propagate in Hi. rewrite list_lookup_fmap in Hi.
    destruct (dr_df !! i) as [dr_row|] eqn:Ei; [|done]. injection Hi as <-.
    destruct (propagate_row_matched _ dr_row (run_matching_wf dr_df dwh_df) Hm)
      as (m & ref & Hlk & _ & _ & Href & Hrow).
    exists dr_row, m, ref. done. }
  destruct Hrow as (dr_row & m & ref & Href & Hlk & Hrow).
  assert (Hconf : res_match_confidence r = Some (mi_match_confidence m))
    by (by rewrite Hrow).
  assert (Hnet : net_val r = fillna0 (mi_net_sales_value m)) by (by rewrite Hrow).
  assert (Hdwh : dwh_val r = fillna0 (post_promo_sales_inc_vat ref)) by (by rewrite Hrow).
  assert (Hcol : has_dwh_column (propagate (run_matching dr_df dwh_df).1 dr_df) = true).
  { apply (has_dwh_column_elem _ r Hin). rewrite Hrow. cbn. eauto. }
  destruct (review_row_matched r Hm) as [Hyes Hno].
  rewrite Hnet, Hdwh in Hyes, Hno. rewrite Hconf in Hyes.
  exists (mi_match_confidence m), (mi_net_sales_value m), ref.
  split_and!; [done | by rewrite Hrow | by rewrite Hrow | | ].
  all: intros Hrev; rewrite match_deliveroo_orders_rows
    by (by eapply run_matching_has_orders).
  all: rewrite list_lookup_fmap, Hi, Hcol; cbn [fmap option_fmap option_map reviewed].
  - by rewrite (Hyes Hrev).
  - by rewrite (Hno Hrev).
Qed.

Lemma review_suffix_on_high_variance_witness :
  let dr_df := [order_of_3] in
  let dwh_df := [reference_of_3_6] in
  let r := propagate_row (run_matching dr_df dwh_df).1 order_of_3 in
  (propagate (run_matching dr_df dwh_df).1 dr_df !! 0%nat = Some r
   ∧ matched_mask (res_order_category r) = true
   ∧ needs_review (fillna0 3) (fillna0 3.6))
  ∧ match_deliveroo_orders dr_df dwh_df !! 0%nat
    = Some (set_match_confidence r (Some "High - Review")).
Proof.
  intros dr_df dwh_df r.
  assert (Hi : propagate (run_matching dr_df dwh_df).1 dr_df !! 0%nat = Some r)
    by reflexivity.
  assert (Hm : matched_mask (res_order_category r) = true) by (by vm_compute).
  assert (Hrev : needs_review (fillna0 3) (fillna0 3.6)) by (by vm_compute).
  split; [done|].
  destruct (review_suffix_on_high_variance dr_df dwh_df 0%nat r Hi Hm)
    as (conf & net & ref & Hconf & Hnet & Href & Hyes & _).
  assert (Hc : conf = "High") by (vm_compute in Hconf; by injection Hconf as <-).
  assert (Hn : net = 3%float) by (vm_compute in Hnet; by injection Hnet as <-).
  assert (Hr : ref = reference_of_3_6) by (vm_compute in Href; by injection Href as <-).
  subst conf net ref. exact (Hyes Hrev).
Defined.

(** The float boundary of the review condition: net value 3 against
    warehouse value 3.6 gives 20.000000000000004 and is marked, net value
    4.25 against 3.4 gives exactly 20 and is not. *)
Lemma review_boundary_examples :
  (abs (3 - 3.6) / 3 * 100)%float = 20.000000000000004%float
  ∧ (res_match_confidence <$> match_deliveroo_orders [order_of_3] [reference_of_3_6])
    = [Some "High - Review"]
  ∧ (abs (4.25 - 3.4) / 4.25 * 100)%float = 20%float
  ∧ (res_match_confidence <$> match_deliveroo_orders [order_of_4_25] [reference_of_3_4])
    = [Some "High"].
Proof. split_and!; by vm_compute. Qed.

(** C3 as stated fails: the threshold is 20% of the order's net value, not
    of the reference value. Net value 100 against reference value 124 is a
    gap of 24, which is not above 20% of 124 (24.8), yet the matched row
    comes back with " - Review" appended. *)
Lemma review_suffix_counterexample :
  let out := match_deliveroo_orders [order_of_100] [reference_of_124] in
  (res_order_category <$> out) = ["Matched"]
  ∧ (res_match_confidence <$> out) = [Some "High - Review"]
  ∧ ((net_val <$> out) = [100%float] ∧ (dwh_val <$> out) = [124%float])
  ∧ (0.20 * 124 <? abs (100 - 124))%float = false
  ∧ (20 <? abs (100 - 124) / 124 * 100)%float = false.
Proof. split_and!; by vm_compute. Qed.

(** ** Rounding to two decimals *)

(** [round(2)] works on the float64 product: 1.015 times 100 is
    101.49999999999999, so 1.015 rounds to 1.01; 0.015 times 100 is 1.5,
    so 0.015 rounds to 0.02; a negative cell keeps its sign. *)
Lemma round2_examples :
  round2 1.015 = 1.01%float ∧ round2 0.015 = 0.02%float
  ∧ round2 2.675 = 2.68%float ∧ round2 100.03 = 100.03%float
  ∧ round2 (-0.015) = (-0.02)%float ∧ round2 (-0.001) = (-0)%float
  ∧ round2 infinity = infinity ∧ is_nan (round2 nan) = true.
Proof. split_and!; by vm_compute. Qed.

(** ** Variance labels *)

Lemma is_nan_abs (x : float) : is_nan (abs x) = is_nan x.
Proof.
  assert (H : rank (abs x) = None ↔ rank x = None).
  { unfold rank. rewrite FloatAxioms.abs_spec.
    by destruct (Prim2SF x) as [?|?| |[] ? ?]. }
  destruct (is_nan x) eqn:E.
  - apply is_nan_rank, H, is_nan_rank, E.
  - apply is_nan_false. rewrite H. by apply is_nan_false.
Qed.

Lemma matched_not_linked (order_category : string) :
  matched_mask order_category = true →
  String.eqb order_category "Linked to Order" = false.
Proof.
  intros Hm. unfold matched_mask in Hm. apply orb_true_iff in Hm as [H|H];
    apply String.eqb_eq in H; by subst.
Qed.

(** The masks of [calculate_variances] on a matched row amount to a
    threshold cascade; a NaN variance is under no mask. *)
Lemma classify_cascade (order_category : string) (abs_variance : float) :
  matched_mask order_category = true →
  classify order_category abs_variance
  = if is_nan abs_variance then ("N/A", "N/A")
    else if (abs_variance <? 0.02)%float then ("Exact Match", "Exact Match")
    else if (abs_variance <? 0.10)%float then ("Exact Match", "Rounding")
    else if (abs_variance <? 1.00)%float then ("Minor Variance", "Minor Variance")
    else ("Value Variance", "Unexplained Variance").
Proof.
  intros Hm. unfold classify. rewrite Hm, (matched_not_linked _ Hm). cbn [andb].
  destruct (is_nan abs_variance) eqn:En;
  destruct (abs_variance <? 0.02)%float eqn:E1;
  destruct (0.02 <=? abs_variance)%float eqn:E2;
  destruct (abs_variance <? 0.10)%float eqn:E3;
  destruct (0.10 <=? abs_variance)%float eqn:E4;
  destruct (abs_variance <? 1.00)%float eqn:E5;
  destruct (1.00 <=? abs_variance)%float eqn:E6;
  cbn [andb]; try reflexivity; exfalso; float_order.
Qed.

Lemma classify_matched (order_category : string) (abs_variance : float) :
  matched_mask order_category = true →
  ((abs_variance <? 0.02)%float = true →
   (classify order_category abs_variance).2 = "Exact Match")
  ∧ ((0.02 <=? abs_variance)%float = true → (abs_variance <? 0.10)%float = true →
     (classify order_category abs_variance).2 = "Rounding")
  ∧ ((0.10 <=? abs_variance)%float = true → (abs_variance <? 1.00)%float = true →
     (classify order_category abs_variance).2 = "Minor Variance")
  ∧ ((1.00 <=? abs_variance)%float = true →
     (classify order_category abs_variance).2 = "Unexplained Variance")
  ∧ (is_nan abs_variance = true →
     (classify order_category abs_variance).2 = "N/A").
Proof.
  intros Hm. rewrite (classify_cascade _ _ Hm).
  destruct (is_nan abs_variance) eqn:En;
  destruct (abs_variance <? 0.02)%float eqn:E1;
  destruct (abs_variance <? 0.10)%float eqn:E3;
  destruct (abs_variance <? 1.00)%float eqn:E5;
  cbn [snd]; split_and!; intros; try done; exfalso; float_order.
Qed.

Lemma classify_monotone (cat1 cat2 : string) (a1 a2 : float) :
  matched_mask cat1 = true → matched_mask cat2 = true → (a1 <=? a2)%float = true →
  (severity (classify cat1 a1).2 ≤ severity (classify cat2 a2).2)%nat.
Proof.
  intros H1 H2 Hle.
  rewrite (classify_cascade _ _ H1), (classify_cascade _ _ H2).
  destruct (leb_not_nan _ _ Hle) as [-> ->].
  destruct (a1 <? 0.02)%float eqn:E1;
  destruct (a1 <? 0.10)%float eqn:E2;
  destruct (a1 <? 1.00)%float eqn:E3;
  destruct (a2 <? 0.02)%float eqn:F1;
  destruct (a2 <? 0.10)%float eqn:F2;
  destruct (a2 <? 1.00)%float eqn:F3;
  cbn; try lia; exfalso; float_order.
Qed.

(** ** Matched rows of the returned tables *)

(** A row returned by [match_deliveroo_orders] with a matched category is the
    order row of a matched order, with that order's net value and
    warehouse row. *)
Lemma matched_row_of_output dr_df dwh_df i r :
  match_deliveroo_orders dr_df dwh_df !! i = Some r →
  matched_mask (res_order_category r) = true →
  ∃ dr_row m ref,
    dr_df !! i = Some dr_row ∧ is_order dr_row
    ∧ (run_matching dr_df dwh_df).1 !! order_number dr_row = Some m
    ∧ mi_matched m = true ∧ mi_dwh_data m = Some ref
    ∧ res_net_sales_value r = Some (mi_net_sales_value m)
    ∧ res_dwh_data r = Some ref.
Proof.
  intros Hi Hm.
  destruct (decide (filter is_order dr_df = [])) as [Hnil|Hne].
  { unfold match_deliveroo_orders in Hi. rewrite Hnil in Hi.
    rewrite list_lookup_fmap in Hi. destruct (dr_df !! i); [|done].
    injection Hi as <-. by vm_compute in Hm. }
  rewrite match_deliveroo_orders_rows in Hi by done.
  unfold propagate in Hi. rewrite !list_lookup_fmap in Hi.
  destruct (dr_df !! i) as [dr_row|] eqn:Ei; [|done].
  cbn [fmap option_fmap option_map] in Hi. injection Hi as <-.
  match goal with
  | H : context [reviewed ?b ?x] |- _ =>
      destruct (reviewed_fields b x) as (_ & Hcat & Hnet & Hdwh)
  end.
  rewrite Hcat in Hm. rewrite Hnet, Hdwh.
  destruct (propagate_row_matched _ dr_row (run_matching_wf dr_df dwh_df) Hm)
    as (m & ref & Hlk & Hmt & Hord & Href & Hrow).
  exists dr_row, m, ref. rewrite Hrow. done.
Qed.

Lemma reconcile_row dr_df dwh_df i v :
  reconcile dr_df dwh_df !! i = Some v →
  ∃ r, match_deliveroo_orders dr_df dwh_df !! i = Some r
       ∧ v = variance_row (has_dwh_column (match_deliveroo_orders dr_df dwh_df)
                           && has_net_column (match_deliveroo_orders dr_df dwh_df)) r.
Proof.
  unfold reconcile, calculate_variances. rewrite list_lookup_fmap.
  destruct (match_deliveroo_orders dr_df dwh_df !! i) as [r|]; [|done].
  intros [= <-]. eauto.
Qed.

(** The variance columns of a row that has its two value columns and a
    matched or linked category. *)
Lemma variance_row_with_values (r : ResultRow) :
  non_matched_mask (res_order_category r) = false →
  variance_row true r
  = mkVarianceRow r (round2 (round2 (net_val r) - round2 (dwh_val r)))
      (classify (res_order_category r)
         (abs (round2 (round2 (net_val r) - round2 (dwh_val r))))).1
      (classify (res_order_category r)
         (abs (round2 (round2 (net_val r) - round2 (dwh_val r))))).2.
Proof. intros H. unfold variance_row. by rewrite H. Qed.

Lemma matched_not_non_matched (order_category : string) :
  matched_mask order_category = true → non_matched_mask order_category = false.
Proof. intros H. unfold non_matched_mask. by rewrite H. Qed.

(** A matched row of the final table: its variance columns. *)
Lemma reconcile_matched_row dr_df dwh_df i v :
  reconcile dr_df dwh_df !! i = Some v →
  matched_mask (res_order_category (var_row v)) = true →
  ∃ net ref,
    res_net_sales_value (var_row v) = Some net
    ∧ res_dwh_data (var_row v) = Some ref
    ∧ amount_variance v
      = round2 (round2 (fillna0 net) - round2 (fillna0 (post_promo_sales_inc_vat ref)))
    ∧ variance_explanation v
      = (classify (res_order_category (var_row v)) (abs (amount_variance v))).2.
Proof.
  intros Hi Hm. destruct (reconcile_row _ _ _ _ Hi) as (r & Hr & Hv).
  assert (Hrv : var_row v = r) by (rewrite Hv; unfold variance_row; by destruct (_ && _)).
  rewrite Hrv in Hm |- *.
  destruct (matched_row_of_output _ _ _ _ Hr Hm)
    as (dr_row & m & ref & _ & _ & _ & _ & _ & Hnet & Hdwh).
  assert (Hin : r ∈ match_deliveroo_orders dr_df dwh_df)
    by (by eapply list_elem_of_lookup_2).
  rewrite (has_dwh_column_elem _ r Hin) in Hv by (rewrite Hdwh; eauto).
  rewrite (has_net_column_elem _ r Hin) in Hv by (rewrite Hnet; eauto).
  cbn [andb] in Hv.
  rewrite variance_row_with_values in Hv by (by apply matched_not_non_matched).
  exists (mi_net_sales_value m), ref. subst v. cbn.
  unfold net_val, dwh_val. rewrite Hnet, Hdwh. done.
Qed.

(** C7, on floats. For every row of the final table with order_category
    Matched or Matched (Grouped): the variance is the float64 result of
    rounding the net value to two decimals, subtracting the matched
    reference value rounded to two decimals, and rounding the difference
    again (each rounding is that of [round(2)]: times 100, to the nearest
    whole number, divided by 100); its label depends on the absolute
    variance alone: below 0.02 Exact Match, from 0.02 and below 0.10
    Rounding, from 0.10 and below 1.00 Minor Variance, from 1.00
    Unexplained Variance, and N/A when the variance is NaN. A larger
    absolute variance never gets a less severe label. Net value 100.00
    against reference value 100.03 gives the signed variance -0.03
    (absolute 0.03), labelled Rounding. *)
Theorem variance_of_matched_rows (dr_df : list DrRow) (dwh_df : list DwhRow) :
  (∀ i v,
     reconcile dr_df dwh_df !! i = Some v →
     matched_mask (res_order_category (var_row v)) = true →
     ∃ net ref,
       res_net_sales_value (var_row v) = Some net
       ∧ res_dwh_data (var_row v) = Some ref
       ∧ amount_variance v
         = round2 (round2 (fillna0 net)
                   - round2 (fillna0 (post_promo_sales_inc_vat ref)))
       ∧ ((abs (amount_variance v) <? 0.02)%float = true →
          variance_explanation v = "Exact Match")
       ∧ ((0.02 <=? abs (amount_variance v))%float = true →
          (abs (amount_variance v) <? 0.10)%float = true →
          variance_explanation v = "Rounding")
       ∧ ((0.10 <=? abs (amount_variance v))%float = true →
          (abs (amount_variance v) <? 1.00)%float = true →
          variance_explanation v = "Minor Variance")
       ∧ ((1.00 <=? abs (amount_variance v))%float = true →
          variance_explanation v = "Unexplained Variance")
       ∧ (is_nan (amount_variance v) = true → variance_explanation v = "N/A"))
  ∧ (∀ i j v w,
       reconcile dr_df dwh_df !! i = Some v →
       reconcile dr_df dwh_df !! j = Some w →
       matched_mask (res_order_category (var_row v)) = true →
       matched_mask (res_order_category (var_row w)) = true →
       (abs (amount_variance v) <=? abs (amount_variance w))%float = true →
       (severity (variance_explanation v) ≤ severity (variance_explanation w))%nat)
  ∧ (let out := reconcile [order_of_100] [reference_of_100_03] in
     (res_order_category ∘ var_row <$> out) = ["Matched"]
     ∧ (amount_variance <$> out) = [(-0.03)%float]
     ∧ (variance_explanation <$> out) = ["Rounding"]).
Proof.
  split_and!.
  - intros i v Hi Hm.
    destruct (reconcile_matched_row _ _ _ _ Hi Hm) as (net & ref & Hnet & Hdwh & Hvar & Hlab).
    exists net, ref. rewrite Hlab.
    destruct (classify_matched _ (abs (amount_variance v)) Hm) as (Ha & Hb & Hc & Hd & He).
    split_and!; [done | done | done | done | done | done | done | ].
    intros Hnan. apply He. by rewrite is_nan_abs.
  - intros i j v w Hi Hj Hv Hw Hle.
    destruct (reconcile_matched_row _ _ _ _ Hi Hv) as (_ & _ & _ & _ & _ & ->).
    destruct (reconcile_matched_row _ _ _ _ Hj Hw) as (_ & _ & _ & _ & _ & ->).
    by apply classify_monotone.
  - split_and!; by vm_compute.
Qed.

Lemma variance_of_matched_rows_witness :
  let dr_df := [order_of_100] in
  let dwh_df := [reference_of_100_03] in
  ∃ v,
    (reconcile dr_df dwh_df !! 0%nat = Some v
     ∧ matched_mask (res_order_category (var_row v)) = true
     ∧ (0.02 <=? abs (amount_variance v))%float = true
     ∧ (abs (amount_variance v) <? 0.10)%float = true)
    ∧ variance_explanation v = "Rounding".
Proof.
  intros dr_df dwh_df.
  destruct (reconcile dr_df dwh_df !! 0%nat) as [v|] eqn:E; [|by vm_compute in E].
  exists v.
  assert (Hm : matched_mask (res_order_category (var_row v)) = true).
  { vm_compute in E. by injection E as <-. }
  assert (Hlo : (0.02 <=? abs (amount_variance v))%float = true).
  { vm_compute in E. injection E as <-. by vm_compute. }
  assert (Hhi : (abs (amount_variance v) <? 0.10)%float = true).
  { vm_compute in E. injection E as <-. by vm_compute. }
  split; [done|].
  destruct (proj1 (variance_of_matched_rows dr_df dwh_df) 0%nat v E Hm)
    as (net & ref & _ & _ & _ & _ & Hround & _).
  exact (Hround Hlo Hhi).
Defined.

(** C7 as stated fails in two places. Net value 100.00 against reference
    value 100.03 gives the variance -0.03, not 0.03. And the variance is not
    the rounded difference: net value 1.024 against reference value 1.006
    differ by 0.018, which rounds to 0.02 (Rounding), but the code rounds
    each side first, 1.02 - 1.01 = 0.01, and labels the row Exact Match. *)
Lemma variance_of_matched_rows_counterexample :
  (let out := reconcile [order_of_100] [reference_of_100_03] in
   (res_order_category ∘ var_row <$> out) = ["Matched"]
   ∧ (amount_variance <$> out) = [(-0.03)%float]
   ∧ (-0.03 =? 0.03)%float = false)
  ∧ (let out := reconcile [order_of_1_024] [reference_of_1_006] in
     (res_order_category ∘ var_row <$> out) = ["Matched"]
     ∧ (net_val ∘ var_row <$> out) = [1.024%float]
     ∧ (dwh_val ∘ var_row <$> out) = [1.006%float]
     ∧ (amount_variance <$> out) = [0.01%float]
     ∧ (variance_explanation <$> out) = ["Exact Match"]
     ∧ round2 (1.024 - 1.006) = 0.02%float
     ∧ (round2 (1.024 - 1.006) <? 0.02)%float = false).
Proof. split; split_and!; by vm_compute. Qed.

(** The variance of a net value that [round(2)] rounds down on its float64
    product: 1.015 against reference value 1 gives 0.01, Exact Match. *)
Lemma variance_rounding_example :
  let out := reconcile [order_of_1_015] [reference_of_1] in
  (res_order_category ∘ var_row <$> out) = ["Matched"]
  ∧ (amount_variance <$> out) = [0.01%float]
  ∧ (variance_explanation <$> out) = ["Exact Match"].
Proof. split_and!; by vm_compute. Qed.

(** ** Linked rows *)

Lemma fee_not_order (r : DrRow) : is_fee r → ¬ is_order r.
Proof. unfold is_fee, is_order. intros -> H. discriminate H. Qed.

Lemma reviewed_linked b r :
  res_order_category r = "Linked to Order" → reviewed b r = r.
Proof.
  intros H. unfold reviewed, review_row, high_variance_mask. rewrite H.
  by destruct b.
Qed.

(** The row [match_deliveroo_orders] returns at position [i]. *)
Lemma match_output_row dr_df dwh_df i dr_row :
  filter is_order dr_df ≠ [] → dr_df !! i = Some dr_row →
  match_deliveroo_orders dr_df dwh_df !! i
  = Some (reviewed (has_dwh_column (propagate (run_matching dr_df dwh_df).1 dr_df))
            (propagate_row (run_matching dr_df dwh_df).1 dr_row)).
Proof.
  intros Hne Hi. rewrite match_deliveroo_orders_rows by done.
  unfold propagate at 2. by rewrite !list_lookup_fmap, Hi.
Qed.

(** The row [reconcile] returns at position [i], when the row of the match
    table has both value columns. *)
Lemma reconcile_output_row dr_df dwh_df i r :
  match_deliveroo_orders dr_df dwh_df !! i = Some r →
  is_Some (res_dwh_data r) → is_Some (res_net_sales_value r) →
  reconcile dr_df dwh_df !! i = Some (variance_row true r).
Proof.
  intros Hi Hd Hn.
  assert (Hin : r ∈ match_deliveroo_orders dr_df dwh_df)
    by (by eapply list_elem_of_lookup_2).
  unfold reconcile, calculate_variances. rewrite list_lookup_fmap, Hi.
  by rewrite (has_dwh_column_elem _ r Hin), (has_net_column_elem _ r Hin).
Qed.

(** C4, as the code has it. A fee row whose order_number belongs to a
    matched order comes back with order_category "Linked to Order"; its
    labels are not computed from its own values and are not the parent's
    label either: matched_amount is "Linked" and variance_explanation is
    the fixed pointer "See Parent Order". What it shares with its parent
    order row is the variance amount. *)
Theorem linked_rows_point_to_parent
    (dr_df : list DrRow) (dwh_df : list DwhRow) (i : nat) (fee : DrRow) (m : MatchInfo) :
  dr_df !! i = Some fee → is_fee fee →
  (run_matching dr_df dwh_df).1 !! order_number fee = Some m →
  mi_matched m = true →
  ∃ v,
    reconcile dr_df dwh_df !! i = Some v
    ∧ res_order_category (var_row v) = "Linked to Order"
    ∧ matched_amount v = "Linked"
    ∧ variance_explanation v = "See Parent Order"
    ∧ ∀ j parent w,
        dr_df !! j = Some parent → is_order parent →
        order_number parent = order_number fee →
        reconcile dr_df dwh_df !! j = Some w →
        amount_variance w = amount_variance v.
Proof.
  intros Hi Hfee Hlk Hm.
  assert (Hne : filter is_order dr_df ≠ []) by (by eapply run_matching_has_orders).
  pose proof (run_matching_wf _ _ _ _ Hlk) as Hwf. unfold mi_wf in Hwf.
  rewrite Hm in Hwf. destruct Hwf as [[ref Href] Hcat].
  set (b := has_dwh_column (propagate (run_matching dr_df dwh_df).1 dr_df)).
  pose proof (match_output_row dr_df dwh_df i fee Hne Hi) as Hrow. fold b in Hrow.
  rewrite (propagate_row_linked _ _ m Hlk Hm (fee_not_order _ Hfee)) in Hrow.
  rewrite reviewed_linked in Hrow by done. rewrite Href in Hrow.
  eexists. split; [apply (reconcile_output_row _ _ _ _ Hrow); cbn; eauto|].
  unfold variance_row. cbn [res_order_category].
  split_and!; [done | done | done | ].
  intros j parent w Hj Hord Hnum Hw.
  pose proof (match_output_row dr_df dwh_df j parent Hne Hj) as Hrow'. fold b in Hrow'.
  rewrite <- Hnum in Hlk.
  rewrite (propagate_row_parent _ _ m Hlk Hm Hord), Href in Hrow'.
  match type of Hrow' with
  | _ = Some (reviewed b ?x) =>
      destruct (reviewed_fields b x) as (_ & Hc & Hn & Hd);
      set (r' := reviewed b x) in *
  end.
  cbn [res_order_category res_net_sales_value res_dwh_data] in Hc, Hn, Hd.
  rewrite (reconcile_output_row _ _ _ _ Hrow') in Hw
    by (first [rewrite Hd | rewrite Hn]; eauto).
  injection Hw as <-.
  rewrite variance_row_with_values
    by (apply matched_not_non_matched; by rewrite Hc).
  cbn [amount_variance]. unfold net_val, dwh_val. rewrite Hn, Hd. reflexivity.
Qed.

Lemma linked_rows_point_to_parent_witness :
  let dr_df := [order_of_10; fee_of_order_of_10] in
  let dwh_df := [reference_of_8] in
  ∃ m,
    (dr_df !! 1%nat = Some fee_of_order_of_10 ∧ is_fee fee_of_order_of_10
     ∧ (run_matching dr_df dwh_df).1 !! order_number fee_of_order_of_10 = Some m
     ∧ mi_matched m = true)
    ∧ ∃ v, reconcile dr_df dwh_df !! 1%nat = Some v
           ∧ res_order_category (var_row v) = "Linked to Order"
           ∧ matched_amount v = "Linked"
           ∧ variance_explanation v = "See Parent Order".
Proof.
  intros dr_df dwh_df.
  destruct ((run_matching dr_df dwh_df).1 !! order_number fee_of_order_of_10)
    as [m|] eqn:E; [|by vm_compute in E].
  exists m.
  assert (Hi : dr_df !! 1%nat = Some fee_of_order_of_10) by reflexivity.
  assert (Hfee : is_fee fee_of_order_of_10) by reflexivity.
  assert (Hm : mi_matched m = true).
  { vm_compute in E. by injection E as <-. }
  split; [done|].
  destruct (linked_rows_point_to_parent dr_df dwh_df 1%nat fee_of_order_of_10 m
              Hi Hfee E Hm) as (v & Hv & Hcat & Hamt & Hexp & _).
  exists v. done.
Defined.

(** C4 as stated fails: the fee row of a matched order does not carry its
    parent's label. The parent order row is labelled Exact Match; the linked
    fee row is labelled See Parent Order. *)
Lemma linked_rows_counterexample :
  let out := reconcile [order_of_10; fee_of_order_of_10] [reference_of_8] in
  (res_order_category ∘ var_row <$> out) = ["Matched (Grouped)"; "Linked to Order"]
  ∧ (variance_explanation <$> out) = ["Exact Match"; "See Parent Order"]
  ∧ "See Parent Order" ≠ "Exact Match".
Proof. split_and!; by vm_compute. Qed.

(** ** Conservation of the net value on order rows *)

(** The adjustment merged into an order is the total of its fee group. *)
Lemma merged_adjustment (fees_df : list DrRow) (onum : string) :
  fillna0 (default nan (fst <$> fees_agg fees_df onum))
  = fillna0 (group_sum (fillna0 ∘ adjustment_gross <$> group_of onum fees_df)).
Proof. unfold fees_agg. by destruct (group_of onum fees_df). Qed.




Lemma match_step_lookup_same dc lk ots st a :
  ∃ m, (match_step dc lk ots st a).1 !! agg_order_number a = Some m
       ∧ mi_net_sales_value m = float_or_0 (agg_net_sales_value a).
Proof.
  destruct st as [mr used].
  destruct (match_step_cases dc lk ots mr used a)
    as [(c & s & _ & ->)|(s & _ & ->)]; cbn [fst];
    rewrite lookup_insert_eq; eauto.
Qed.

Lemma match_step_lookup_other dc lk ots st a o :
  o ≠ agg_order_number a → (match_step dc lk ots st a).1 !! o = st.1 !! o.
Proof.
  intros Hne. destruct st as [mr used].
  destruct (match_step_cases dc lk ots mr used a)
    as [(c & s & _ & ->)|(s & _ & ->)]; cbn [fst];
    by rewrite lookup_insert_ne.
Qed.



Lemma insert_by_date_perm (a : AggRow) (l : list AggRow) :
  insert_by_date a l ≡ₚ a :: l.
Proof.
  induction l as [|b l IH]; [done|]. cbn [insert_by_date].
  destruct (date_le _ _); [done|]. rewrite IH. apply perm_swap.
Qed.

Lemma sort_values_delivery_date_perm (l : list AggRow) :
  sort_values_delivery_date l ≡ₚ l.
Proof.
  induction l as [|a l IH]; [done|].
  unfold sort_values_delivery_date in *. cbn [foldr].
  rewrite insert_by_date_perm. by rewrite IH.
Qed.

Lemma aggregate_order_numbers dr_df :
  agg_order_number <$> aggregate_order_values dr_df
  = order_number <$> filter is_order dr_df.
Proof.
  unfold aggregate_order_values.
  destruct (filter is_order dr_df) as [|o l] eqn:E; [done|].
  rewrite <- list_fmap_compose. by apply list_fmap_ext.
Qed.



Lemma propagate_row_res_row mr dr_row : res_row (propagate_row mr dr_row) = dr_row.
Proof.
  unfold propagate_row. destruct (mr !! order_number dr_row) as [m|]; [|done].
  destruct (mi_matched m), (decide (is_order dr_row)); done.
Qed.





(** In float64 the total of the per-order net values is not the total of
    the gross values plus the total of the adjustments: for an order of
    0.10 with a fee of -0.10 and an order of 0.70 with a fee of -0.20 the
    order rows carry 0 and 0.49999999999999994, while the gross values sum
    to 0.79999999999999993 and the fees to -0.30000000000000004, together
    0.49999999999999989. *)
Lemma net_value_total_regrouped :
  let dr_df := [order_of_0_10; fee_of_order_of_0_10; order_of_0_70; fee_of_order_of_0_70] in
  let out := match_deliveroo_orders dr_df [] in
  (net_val <$> filter (λ r, is_order (res_row r)) out)
  = [0%float; 0.49999999999999994%float]
  ∧ float_sum (net_val <$> filter (λ r, is_order (res_row r)) out)
    = 0.49999999999999994%float
  ∧ (float_sum (gross_of <$> filter is_order dr_df)
     + float_sum (adjustment_gross <$> filter is_fee dr_df))%float
    = 0.49999999999999989%float.
Proof. split_and!; by vm_compute. Qed.

(** * Further properties *)

(** ** Shape of the returned tables *)

Lemma fmap_id_ext {A} (f : A → A) (l : list A) : (∀ x, f x = x) → f <$> l = l.
Proof.
  intros H. induction l as [|a l IH]; [done|].
  cbn [fmap list_fmap]. by rewrite H, IH.
Qed.

Lemma var_row_variance_row b r : var_row (variance_row b r) = r.
Proof. unfold variance_row. by destruct b. Qed.

(** X1. Both tables hand back the input rows: every row of the Deliveroo
    table comes back exactly once, in its place, with its own columns
    untouched, from [match_deliveroo_orders] and from the variance step
    after it, whether or not there are order rows. *)
Theorem input_rows_come_back_in_place (dr_df : list DrRow) (dwh_df : list DwhRow) :
  res_row <$> match_deliveroo_orders dr_df dwh_df = dr_df
  ∧ res_row ∘ var_row <$> reconcile dr_df dwh_df = dr_df.
Proof.
  assert (H : res_row <$> match_deliveroo_orders dr_df dwh_df = dr_df).
  { destruct (decide (filter is_order dr_df = [])) as [Hnil|Hne].
    - unfold match_deliveroo_orders. rewrite Hnil, <- list_fmap_compose.
      by apply fmap_id_ext.
    - rewrite match_deliveroo_orders_rows by done. unfold propagate.
      rewrite <- !list_fmap_compose. apply fmap_id_ext. intros r. cbn.
      match goal with
      | |- context [reviewed ?b ?x] => destruct (reviewed_fields b x) as (-> & _)
      end.
      apply propagate_row_res_row. }
  split; [done|].
  unfold reconcile, calculate_variances.
  rewrite list_fmap_compose, <- (list_fmap_compose _ var_row).
  rewrite (fmap_id_ext (var_row ∘ _)); [done|].
  intros r. apply var_row_variance_row.
Qed.

(** ** One outcome per order number *)

Lemma fold_match_step_is_Some dc lk ots l st o :
  is_Some ((fold_left (match_step dc lk ots) l st).1 !! o)
  ↔ is_Some (st.1 !! o) ∨ o ∈ agg_order_number <$> l.
Proof.
  revert st. induction l as [|a l IH]; intros st.
  - cbn. split; [by left|]. intros [H|H]; [done|]. by apply not_elem_of_nil in H.
  - cbn [fold_left fmap list_fmap]. rewrite IH, elem_of_cons.
    destruct (decide (o = agg_order_number a)) as [->|Hne].
    + destruct (match_step_lookup_same dc lk ots st a) as (m & -> & _).
      split; [by right; left | by left].
    + rewrite match_step_lookup_other by done. tauto.
Qed.

Lemma run_matching_is_Some (dr_df : list DrRow) (dwh_df : list DwhRow) (o : string) :
  is_Some ((run_matching dr_df dwh_df).1 !! o)
  ↔ o ∈ order_number <$> filter is_order dr_df.
Proof.
  unfold run_matching. rewrite fold_match_step_is_Some. cbn [fst].
  rewrite lookup_empty, sort_values_delivery_date_perm, aggregate_order_numbers.
  split; [|by right]. intros [H|H]; [|done]. by destruct H.
Qed.

(** X2. The matching loop records an outcome under an order number exactly
    when some order row carries that number: the keys of [match_results]
    are the order numbers of the order rows, so every order is resolved and
    no fee or payment row gets an outcome of its own. *)
Theorem outcome_recorded_for_orders_only (dr_df : list DrRow) (dwh_df : list DwhRow) :
  dom (run_matching dr_df dwh_df).1
  = list_to_set (order_number <$> filter is_order dr_df).
Proof.
  apply set_eq. intros o.
  rewrite elem_of_dom, elem_of_list_to_set. apply run_matching_is_Some.
Qed.

(** ** Rows without a match *)

Lemma review_row_other (r : ResultRow) :
  matched_mask (res_order_category r) = false → review_row r = r.
Proof. intros H. unfold review_row, high_variance_mask. by rewrite H. Qed.

Lemma reviewed_other b (r : ResultRow) :
  matched_mask (res_order_category r) = false → reviewed b r = r.
Proof. intros H. unfold reviewed. destruct b; [by apply review_row_other | done]. Qed.

(** The variance columns of a row that is neither matched nor linked. *)
Lemma variance_row_neutral b (r : ResultRow) :
  non_matched_mask (res_order_category r) = true →
  amount_variance (variance_row b r) = 0%float
  ∧ variance_explanation (variance_row b r) = "N/A"
  ∧ matched_amount (variance_row b r) = (if b then "N/A" else "No DWH Value").
Proof.
  intros H. unfold variance_row. rewrite H.
  unfold non_matched_mask in H. apply negb_true_iff, orb_false_iff in H as [Hm Hl].
  destruct b; [|done]. unfold classify. rewrite Hm, Hl. done.
Qed.

Lemma reconcile_lookup dr_df dwh_df i r :
  match_deliveroo_orders dr_df dwh_df !! i = Some r →
  reconcile dr_df dwh_df !! i
  = Some (variance_row (has_dwh_column (match_deliveroo_orders dr_df dwh_df)
                        && has_net_column (match_deliveroo_orders dr_df dwh_df)) r).
Proof.
  intros H. unfold reconcile, calculate_variances. by rewrite list_lookup_fmap, H.
Qed.

(** X3. A row whose order number is carried by no order row (and the table
    has order rows) is a standalone adjustment: it comes back with
    order_category "Standalone Adjustment", match_status and confidence
    "N/A", net, gross and adjustment values zero and no warehouse data, and
    the variance step gives it variance zero and the label "N/A". A row
    whose number is carried by an order row never gets that category. *)
Theorem standalone_adjustment_rows
    (dr_df : list DrRow) (dwh_df : list DwhRow) (i : nat) (dr_row : DrRow) :
  filter is_order dr_df ≠ [] → dr_df !! i = Some dr_row →
  (¬ has_parent dr_df dr_row →
     match_deliveroo_orders dr_df dwh_df !! i
     = Some (mkResultRow dr_row "Standalone Adjustment" "N/A" (Some "N/A")
               (Some 0%float) (Some 0%float) (Some 0%float) None)
     ∧ ∃ v, reconcile dr_df dwh_df !! i = Some v
            ∧ amount_variance v = 0%float ∧ variance_explanation v = "N/A")
  ∧ (has_parent dr_df dr_row →
     ∃ r, match_deliveroo_orders dr_df dwh_df !! i = Some r
          ∧ res_order_category r ≠ "Standalone Adjustment").
Proof.
  intros Hne Hi.
  pose proof (match_output_row dr_df dwh_df i dr_row Hne Hi) as Hrow.
  pose proof (run_matching_is_Some dr_df dwh_df (order_number dr_row)) as Hdom.
  split; intros Hp.
  - assert (Hnone : (run_matching dr_df dwh_df).1 !! order_number dr_row = None).
    { apply eq_None_not_Some. intros H. by apply Hdom in H. }
    unfold propagate_row in Hrow. rewrite Hnone in Hrow.
    rewrite reviewed_other in Hrow by done.
    split; [done|]. eexists. split; [by apply reconcile_lookup|].
    by destruct (variance_row_neutral
                   (has_dwh_column (match_deliveroo_orders dr_df dwh_df)
                    && has_net_column (match_deliveroo_orders dr_df dwh_df))
                   (mkResultRow dr_row "Standalone Adjustment" "N/A" (Some "N/A")
                      (Some 0%float) (Some 0%float) (Some 0%float) None) eq_refl) as (? & ? & _).
  - apply Hdom in Hp as [m Hm]. eexists. split; [exact Hrow|].
    match goal with
    | |- context [reviewed ?b ?x] => destruct (reviewed_fields b x) as (_ & -> & _)
    end.
    pose proof (run_matching_wf _ _ _ _ Hm) as Hwf. unfold mi_wf in Hwf.
    unfold propagate_row. rewrite Hm.
    destruct (mi_matched m), (decide (is_order dr_row)); cbn; try done.
    destruct Hwf as [_ Hcat]. intros Heq. rewrite Heq in Hcat. done.
Qed.

Lemma standalone_adjustment_rows_witness :
  let dr_df := [order_of_10; fee_without_order] in
  let dwh_df := [reference_of_8] in
  (filter is_order dr_df ≠ [] ∧ dr_df !! 1%nat = Some fee_without_order
   ∧ ¬ has_parent dr_df fee_without_order)
  ∧ match_deliveroo_orders dr_df dwh_df !! 1%nat
    = Some (mkResultRow fee_without_order "Standalone Adjustment" "N/A" (Some "N/A")
              (Some 0%float) (Some 0%float) (Some 0%float) None).
Proof.
  intros dr_df dwh_df.
  assert (Hne : filter is_order dr_df ≠ []) by done.
  assert (Hi : dr_df !! 1%nat = Some fee_without_order) by reflexivity.
  assert (Hp : ¬ has_parent dr_df fee_without_order).
  { unfold has_parent. intros H. vm_compute in H.
    apply list_elem_of_singleton in H. discriminate H. }
  split; [done|].
  exact (proj1 (proj1 (standalone_adjustment_rows dr_df dwh_df 1%nat fee_without_order
                         Hne Hi) Hp)).
Defined.

(** ** Status, confidence and the previous-day flag *)

Lemma find_available_nil_flag lk used a :
  (find_available lk used a).1 = [] → (find_available lk used a).2 = false.
Proof.
  unfold find_available.
  destruct (available_for lk used (_, _, agg_delivery_date a)) as [|x l]; [|done].
  cbn [fst snd]. by intros ->.
Qed.

Lemma value_stage_status v l :
  (∃ c, value_stage v l = (Some c, "MATCHED_BY_VALUE"))
  ∨ value_stage v l = (None, "COLLISION").
Proof.
  unfold value_stage. destruct (_resolve_collision_by_value v l) as [[c|] s]; eauto.
Qed.

(** The statuses the resolver can answer, and what each says. *)
Lemma resolve_status dr_ts net_value available cross_midnight :
  let out := resolve dr_ts net_value available cross_midnight in
  (match out.1 with
   | Some _ => out.2 ∈ accepted_statuses
   | None => out.2 ∈ ["NO_DWH_RECORD"; "COLLISION"]
   end)
  ∧ (out.2 = "MATCHED_CROSS_MIDNIGHT" → cross_midnight = true)
  ∧ (out.2 = "MATCHED" → cross_midnight = false)
  ∧ (out.2 = "NO_DWH_RECORD" → available = []).
Proof.
  destruct available as [|c1 [|c2 l]].
  - cbn. split_and!; [set_solver | done | done | done].
  - cbn. destruct cross_midnight; cbn; split_and!; try done; set_solver.
  - cbn zeta. rewrite resolve_collision.
    destruct (filter _ (c1 :: c2 :: l)) as [|x [|? ?]] eqn:E.
    2:{ cbn. split_and!; try done. set_solver. }
    all: destruct (value_stage_status net_value (c1 :: c2 :: l)) as [[best ->]| ->];
      cbn; split_and!; try done; set_solver.
Qed.

Lemma match_step_status dc lk ots st a :
  (∀ o m, st.1 !! o = Some m → status_consistent m) →
  ∀ o m, (match_step dc lk ots st a).1 !! o = Some m → status_consistent m.
Proof.
  intros Hst o m. destruct st as [mr used]. cbn [fst] in Hst.
  pose proof (resolve_status (ots !! agg_order_number a ≫= id) (float_or_0 (agg_net_sales_value a))
                (find_available lk used a).1 (find_available lk used a).2) as Hres.
  pose proof (find_available_nil_flag lk used a) as Hnil.
  cbn zeta in Hres.
  destruct (match_step_cases dc lk ots mr used a)
    as [(c & s & Heq & ->)|(s & Heq & ->)]; cbn [fst];
    (destruct (decide (agg_order_number a = o)) as [<-|Hne];
     [rewrite lookup_insert_eq; intros [= <-]
     |rewrite lookup_insert_ne by done; apply Hst]);
    rewrite Heq in Hres; cbn [fst snd] in Hres;
    destruct Hres as (H1 & H2 & H3 & H4);
    unfold status_consistent; cbn; split_and!; auto.
Qed.

Lemma run_matching_status dr_df dwh_df o m :
  (run_matching dr_df dwh_df).1 !! o = Some m → status_consistent m.
Proof.
  revert o m. unfold run_matching.
  apply (fold_left_invariant
           (λ st : match_state, ∀ o m, st.1 !! o = Some m → status_consistent m)).
  - intros st a Hst. by apply match_step_status.
  - intros o m Ho. cbn [fst] in Ho. by rewrite lookup_empty in Ho.
Qed.

(** X4. Every recorded outcome is consistent: an accepted match has one of
    the statuses MATCHED, MATCHED_CROSS_MIDNIGHT, MATCHED_BY_TIMESTAMP,
    MATCHED_BY_VALUE and carries a warehouse row and a Matched category;
    an unmatched order has NO_DWH_RECORD or COLLISION, no warehouse row
    and the category Not Matched; the confidence is the one the status
    maps to; MATCHED_CROSS_MIDNIGHT is only given when the previous day was
    used, MATCHED and NO_DWH_RECORD only when it was not. *)
Theorem recorded_outcomes_are_consistent
    (dr_df : list DrRow) (dwh_df : list DwhRow) (o : string) (m : MatchInfo) :
  (run_matching dr_df dwh_df).1 !! o = Some m →
  mi_wf m ∧ status_consistent m.
Proof.
  intros H. split; [by eapply run_matching_wf | by eapply run_matching_status].
Qed.

Lemma recorded_outcomes_are_consistent_witness :
  let dr_df := [evening_order; morning_order] in
  let dwh_df := [only_reference] in
  ∃ m, (run_matching dr_df dwh_df).1 !! "800111" = Some m
       ∧ mi_wf m ∧ status_consistent m.
Proof.
  intros dr_df dwh_df.
  destruct ((run_matching dr_df dwh_df).1 !! "800111") as [m|] eqn:E;
    [|by vm_compute in E].
  exists m. split; [done|].
  exact (recorded_outcomes_are_consistent dr_df dwh_df "800111" m E).
Defined.

(** X5. The rows of an order that was not matched: its order row comes back
    with order_category "Not Matched", its fee and payment rows with
    "Linked to Unmatched"; all of them carry the order's status
    (NO_DWH_RECORD or COLLISION), its confidence and its aggregated values,
    and no warehouse data; the quality check leaves them alone and the
    variance step gives them variance zero and the label "N/A". *)
Theorem rows_of_unmatched_orders
    (dr_df : list DrRow) (dwh_df : list DwhRow) (i : nat) (dr_row : DrRow)
    (m : MatchInfo) :
  dr_df !! i = Some dr_row →
  (run_matching dr_df dwh_df).1 !! order_number dr_row = Some m →
  mi_matched m = false →
  match_deliveroo_orders dr_df dwh_df !! i
  = Some (mkResultRow dr_row
            (if decide (is_order dr_row) then "Not Matched" else "Linked to Unmatched")
            (mi_match_status m) (Some (mi_match_confidence m))
            (Some (mi_net_sales_value m)) (Some (mi_gross_order_value m))
            (Some (mi_unavailable_items_adjustment m)) None)
  ∧ (mi_match_status m = "NO_DWH_RECORD" ∨ mi_match_status m = "COLLISION")
  ∧ ∃ v, reconcile dr_df dwh_df !! i = Some v
         ∧ amount_variance v = 0%float ∧ variance_explanation v = "N/A".
Proof.
  intros Hi Hm Hun.
  assert (Hne : filter is_order dr_df ≠ []) by (by eapply run_matching_has_orders).
  pose proof (match_output_row dr_df dwh_df i dr_row Hne Hi) as Hrow.
  unfold propagate_row in Hrow. rewrite Hm, Hun in Hrow.
  rewrite reviewed_other in Hrow by (by destruct (decide (is_order dr_row))).
  split_and!.
  - exact Hrow.
  - destruct (run_matching_status _ _ _ _ Hm) as (Hs & _). rewrite Hun in Hs.
    apply elem_of_cons in Hs as [Hs|Hs]; [by left|].
    apply list_elem_of_singleton in Hs. by right.
  - eexists. split; [by apply reconcile_lookup|].
    match goal with
    | |- context [variance_row ?b ?r] =>
        destruct (variance_row_neutral b r) as (? & ? & _)
    end; [by destruct (decide (is_order dr_row))|done].
Qed.

Lemma rows_of_unmatched_orders_witness :
  let dr_df := [evening_order; morning_order; fee_of_morning_order] in
  let dwh_df := [only_reference] in
  ∃ m,
    (dr_df !! 2%nat = Some fee_of_morning_order
     ∧ (run_matching dr_df dwh_df).1 !! order_number fee_of_morning_order = Some m
     ∧ mi_matched m = false)
    ∧ (res_order_category <$> match_deliveroo_orders dr_df dwh_df !! 2%nat)
      = Some "Linked to Unmatched".
Proof.
  intros dr_df dwh_df.
  destruct ((run_matching dr_df dwh_df).1 !! order_number fee_of_morning_order)
    as [m|] eqn:E; [|by vm_compute in E].
  exists m.
  assert (Hi : dr_df !! 2%nat = Some fee_of_morning_order) by reflexivity.
  assert (Hun : mi_matched m = false).
  { vm_compute in E. by injection E as <-. }
  split; [done|].
  rewrite (proj1 (rows_of_unmatched_orders dr_df dwh_df 2%nat fee_of_morning_order m
                    Hi E Hun)).
  reflexivity.
Defined.

(** ** The warehouse lookup, read back *)

(** X6. The warehouse lookup read back at a key is the list of the
    candidates of the completed rows stored under that key, in table
    order, none dropped and none merged; no key holds an empty list. So a
    candidate is found under a key exactly when some row of the warehouse
    table is completed (order_completed = 1), passes the guard on its
    stripped mp_order_id and location_name (both non-empty, id not "nan"),
    has that key, and the candidate was built from it. *)
Theorem warehouse_lookup_holds_completed_rows
    (dwh_df : list DwhRow) (key : string * string * option Z) :
  let lk := build_dwh_lookup (dwh_completed_of dwh_df) in
  default [] (lk !! key)
  = ((λ p, candidate_of p.1 p.2)
       <$> filter (λ p, dwh_key_of p.2 = Some key) (dwh_completed_of dwh_df))
  ∧ lk !! key ≠ Some []
  ∧ ∀ c, c ∈ default [] (lk !! key)
         ↔ ∃ i row, dwh_df !! i = Some row ∧ (order_completed row =? 1)%float = true
                    ∧ dwh_key_of row = Some key ∧ c = candidate_of i row.
Proof.
  cbn zeta. unfold build_dwh_lookup.
  pose proof (fold_add_to_lookup_read (dwh_completed_of dwh_df) ∅ key) as Hread.
  rewrite lookup_empty in Hread. cbn [default app] in Hread.
  split_and!.
  - exact Hread.
  - apply fold_add_to_lookup_nonempty. intros k. by rewrite lookup_empty.
  - intros c. rewrite Hread, list_elem_of_fmap. split.
    + intros ([i row] & -> & Hin). apply list_elem_of_filter in Hin as [Hk Hin].
      apply elem_of_dwh_completed in Hin as [Hi Hc]. exists i, row. done.
    + intros (i & row & Hi & Hc & Hk & ->). exists (i, row). split; [done|].
      apply list_elem_of_filter. split; [done|]. by apply elem_of_dwh_completed.
Qed.

(** ** A match respects the key *)

Lemma fold_left_invariant_elem {S A} (P : S → Prop) (f : S → A → S)
    (l : list A) (s : S) :
  (∀ s a, a ∈ l → P s → P (f s a)) → P s → P (fold_left f l s).
Proof.
  revert s. induction l as [|a l IH]; intros s Hstep Hs; [done|].
  cbn [fold_left]. apply IH.
  - intros s' a' Ha'. apply Hstep. by right.
  - apply Hstep; [left | done].
Qed.

(** Where an available candidate was found: under the same-day key, or
    under the previous-day key with the flag set. *)
Lemma find_available_origin lk used a c :
  c ∈ (find_available lk used a).1 →
  (c ∈ default [] (lk !! same_day_key a) ∧ (find_available lk used a).2 = false)
  ∨ (c ∈ default [] (lk !! previous_day_key a) ∧ (find_available lk used a).2 = true).
Proof.
  unfold find_available. fold (same_day_key a).
  destruct (available_for lk used (same_day_key a)) as [|x l] eqn:E.
  - fold (previous_day_key a).
    destruct (available_for lk used (previous_day_key a)) as [|y l'] eqn:E';
      cbn [fst snd]; [by intros ?%not_elem_of_nil|].
    rewrite <- E'. intros Hc. right. split; [|done].
    unfold available_for in Hc.
    by apply list_elem_of_In, filter_In in Hc as [?%list_elem_of_In _].
  - cbn [fst snd]. rewrite <- E. intros Hc. left. split; [|done].
    unfold available_for in Hc.
    by apply list_elem_of_In, filter_In in Hc as [?%list_elem_of_In _].
Qed.

(** X7. A match never leaves the key. Whenever the loop records a warehouse
    row for an order number, some aggregated order with that number has the
    recorded net value and gives the category (Matched (Grouped) when its
    refund flag is set, Matched otherwise), the row is a completed one
    (order_completed = 1)
    that passes the guard of the lookup, its stripped mp_order_id and
    location_name are the order's stripped order_last4 and mfc_name, and its
    created_at_day is the order's delivery date, or the day before when the
    entry is flagged cross_midnight. *)
Theorem matched_row_has_the_order_key
    (dr_df : list DrRow) (dwh_df : list DwhRow) (o : string) (m : MatchInfo)
    (ref : DwhRow) :
  (run_matching dr_df dwh_df).1 !! o = Some m → mi_dwh_data m = Some ref →
  (order_completed ref =? 1)%float = true
  ∧ ∃ a, a ∈ aggregate_order_values dr_df ∧ agg_order_number a = o
         ∧ mi_net_sales_value m = float_or_0 (agg_net_sales_value a)
         ∧ mi_order_category m
           = (if agg_has_refund a then "Matched (Grouped)" else "Matched")
         ∧ ((dwh_key_of ref = Some (same_day_key a) ∧ mi_cross_midnight m = false)
            ∨ (dwh_key_of ref = Some (previous_day_key a) ∧ mi_cross_midnight m = true)).
Proof.
  revert o m ref. unfold run_matching.
  set (dc := dwh_completed_of dwh_df). set (lk := build_dwh_lookup dc).
  set (ots := order_timestamps_of _).
  apply (fold_left_invariant_elem
    (λ st : match_state, ∀ o m ref, st.1 !! o = Some m → mi_dwh_data m = Some ref →
       (order_completed ref =? 1)%float = true
       ∧ ∃ a, a ∈ aggregate_order_values dr_df ∧ agg_order_number a = o
              ∧ mi_net_sales_value m = float_or_0 (agg_net_sales_value a)
              ∧ mi_order_category m
                = (if agg_has_refund a then "Matched (Grouped)" else "Matched")
              ∧ ((dwh_key_of ref = Some (same_day_key a) ∧ mi_cross_midnight m = false)
                 ∨ (dwh_key_of ref = Some (previous_day_key a)
                    ∧ mi_cross_midnight m = true)))).
  - intros [mr used] a Ha Hst o m ref. cbn [fst] in Hst.
    rewrite sort_values_delivery_date_perm in Ha.
    destruct (match_step_cases dc lk ots mr used a)
      as [(c & s & Hres & ->)|(s & Hres & ->)]; cbn [fst];
      (destruct (decide (agg_order_number a = o)) as [<-|Hne];
       [rewrite lookup_insert_eq; intros [= <-]; cbn [mi_dwh_data]
       |rewrite lookup_insert_ne by done; apply Hst]); [|done].
    intros Hloc. apply resolve_Some in Hres.
    destruct (find_available_origin lk used a c Hres) as [[Hc Hflag]|[Hc Hflag]].
    all: apply lookup_candidate_origin in Hc as (i & row & Hi & Hcompl & Hkey & ->).
    all: assert (Hrow : loc dc i = Some row)
      by (apply loc_completed, elem_of_dwh_completed; done).
    all: cbn [candidate_of cand_idx] in Hloc; rewrite Hrow in Hloc;
      injection Hloc as <-.
    all: split; [done|]; exists a; cbn; split_and!; auto.
  - intros o m ref Ho. cbn [fst] in Ho. by rewrite lookup_empty in Ho.
Qed.

Lemma matched_row_has_the_order_key_witness :
  let dr_df := [evening_order; morning_order] in
  let dwh_df := [morning_reference; evening_reference] in
  ∃ m ref,
    ((run_matching dr_df dwh_df).1 !! "900111" = Some m ∧ mi_dwh_data m = Some ref)
    ∧ (order_completed ref =? 1)%float = true
    ∧ ∃ a, a ∈ aggregate_order_values dr_df ∧ agg_order_number a = "900111"
           ∧ mi_net_sales_value m = float_or_0 (agg_net_sales_value a)
           ∧ mi_order_category m
             = (if agg_has_refund a then "Matched (Grouped)" else "Matched")
           ∧ ((dwh_key_of ref = Some (same_day_key a) ∧ mi_cross_midnight m = false)
              ∨ (dwh_key_of ref = Some (previous_day_key a)
                 ∧ mi_cross_midnight m = true)).
Proof.
  intros dr_df dwh_df.
  destruct ((run_matching dr_df dwh_df).1 !! "900111") as [m|] eqn:E;
    [|by vm_compute in E].
  destruct (mi_dwh_data m) as [ref|] eqn:Eref.
  2:{ vm_compute in E. injection E as <-. discriminate Eref. }
  exists m, ref. split; [done|].
  exact (matched_row_has_the_order_key dr_df dwh_df "900111" m ref E Eref).
Defined.

(** ** The cardinality branch *)

(** X8. The outcome of one turn of the loop when at most one candidate is
    left. With exactly one unused candidate under the order's own key the
    order is MATCHED to it with confidence High and its id is added to the
    used-set. With none under its own key and exactly one under the
    previous day's key it is MATCHED_CROSS_MIDNIGHT with confidence
    High (Cross-Midnight) and the flag set. With none under either key it is
    recorded as NO_DWH_RECORD, Not Matched, confidence N/A, and the used-set
    is left as it was. The previous day is not looked at when the own day
    has a candidate. *)
Theorem at_most_one_candidate
    (dc : list (nat * DwhRow))
    (lk : gmap (string * string * option Z) (list Candidate))
    (ots : gmap string (option Z)) (mr : gmap string MatchInfo)
    (used : gset string) (a : AggRow) :
  let same := available_for lk used (same_day_key a) in
  let prev := available_for lk used (previous_day_key a) in
  let category := if agg_has_refund a then "Matched (Grouped)" else "Matched" in
  (∀ c, same = [c] →
     match_step dc lk ots (mr, used) a
     = (<[agg_order_number a :=
            mkMatchInfo true (Some (cand_idx c)) (loc dc (cand_idx c)) category
              "MATCHED" "High" false (float_or_0 (agg_net_sales_value a))
              (float_or_0 (agg_gross_order_value a))
              (float_or_0 (agg_unavailable_items_adjustment a))]> mr,
        {[cand_gp_order_id c]} ∪ used))
  ∧ (∀ c, same = [] → prev = [c] →
       match_step dc lk ots (mr, used) a
       = (<[agg_order_number a :=
              mkMatchInfo true (Some (cand_idx c)) (loc dc (cand_idx c)) category
                "MATCHED_CROSS_MIDNIGHT" "High (Cross-Midnight)" true
                (float_or_0 (agg_net_sales_value a))
                (float_or_0 (agg_gross_order_value a))
                (float_or_0 (agg_unavailable_items_adjustment a))]> mr,
          {[cand_gp_order_id c]} ∪ used))
  ∧ (same = [] → prev = [] →
       match_step dc lk ots (mr, used) a
       = (<[agg_order_number a :=
              mkMatchInfo false None None "Not Matched" "NO_DWH_RECORD" "N/A" false
                (float_or_0 (agg_net_sales_value a))
                (float_or_0 (agg_gross_order_value a))
                (float_or_0 (agg_unavailable_items_adjustment a))]> mr,
          used))
  ∧ (same ≠ [] → find_available lk used a = (same, false)).
Proof.
  cbn zeta. unfold match_step, find_available.
  fold (same_day_key a). fold (previous_day_key a).
  split_and!.
  - intros c ->. reflexivity.
  - intros c -> ->. reflexivity.
  - intros -> ->. reflexivity.
  - intros Hne. by destruct (available_for lk used (same_day_key a)).
Qed.

Lemma at_most_one_candidate_witness :
  let dc := dwh_completed_of [only_reference] in
  let lk := build_dwh_lookup dc in
  let a := aggregate_row [morning_order] [] morning_order in
  ∃ c, available_for lk ∅ (same_day_key a) = [c]
       ∧ (match_step dc lk ∅ (∅, ∅) a).2 = {[cand_gp_order_id c]} ∪ ∅.
Proof.
  intros dc lk a.
  destruct (available_for lk ∅ (same_day_key a)) as [|c [|? ?]] eqn:E;
    [by vm_compute in E | | by vm_compute in E].
  exists c. split; [done|].
  by rewrite (proj1 (at_most_one_candidate dc lk ∅ ∅ ∅ a) c E).
Defined.

(** ** The sort of the aggregated orders *)

Lemma date_le_refl (d : option Z) : date_le d d = true.
Proof. destruct d; [apply Z.leb_refl | done]. Qed.









(** ** Aggregation *)

Lemma filter_no_payment_orders (dr_df : list DrRow) :
  filter is_order (filter (λ r, ¬ is_payment r) dr_df) = filter is_order dr_df.
Proof.
  rewrite list_filter_filter. apply list_filter_iff. intros r.
  unfold is_order, is_payment. split; [tauto|]. intros H. split; [done|].
  rewrite H. discriminate.
Qed.

Lemma filter_no_payment_fees (dr_df : list DrRow) :
  filter is_fee (filter (λ r, ¬ is_payment r) dr_df) = filter is_fee dr_df.
Proof.
  rewrite list_filter_filter. apply list_filter_iff. intros r.
  unfold is_fee, is_payment. split; [tauto|]. intros H. split; [done|].
  rewrite H. discriminate.
Qed.

(** X10. Additional Payments rows do not affect the aggregation: with all
    payment rows removed from the table, the aggregated orders are the same
    orders in the same order with the same key columns, gross value,
    adjustment, net sales value, refund flag and fee count; only
    order_row_count, which counts every row of the order, can differ. *)
Theorem payments_do_not_affect_net_value (dr_df : list DrRow) :
  let view (a : AggRow) :=
    (agg_order_number a, agg_order_last4 a, agg_mfc_name a, agg_delivery_date a,
     agg_gross_order_value a, agg_unavailable_items_adjustment a,
     agg_net_sales_value a, agg_has_refund a, agg_fees_row_count a) in
  view <$> aggregate_order_values (filter (λ r, ¬ is_payment r) dr_df)
  = view <$> aggregate_order_values dr_df.
Proof.
  cbn zeta. unfold aggregate_order_values.
  rewrite filter_no_payment_orders, filter_no_payment_fees.
  destruct (filter is_order dr_df) as [|o l]; [done|].
  rewrite <- !list_fmap_compose. by apply list_fmap_ext.
Qed.

Lemma all_zero_or_not (l : list float) :
  (∀ x, x ∈ l → (x =? 0)%float = true) ∨ (∃ x, x ∈ l ∧ (x =? 0)%float = false).
Proof.
  induction l as [|x l IH]; [left; by intros x ?%not_elem_of_nil|].
  destruct (x =? 0)%float eqn:E.
  - destruct IH as [IH|(y & Hy & Hny)].
    + left. intros y [->|Hy]%elem_of_cons; auto.
    + right. exists y. split; [by right | done].
  - right. exists x. split; [left | done].
Qed.

Lemma filter_fee_length_le (P : DrRow → Prop) `{!∀ r, Decision (P r)} (l : list DrRow) :
  (length (filter P (filter is_fee l)) ≤ length (filter P l))%nat.
Proof.
  induction l as [|x l IH]; [done|]. rewrite !filter_cons.
  destruct (decide (is_fee x)), (decide (P x)); rewrite ?filter_cons;
    repeat case_decide; cbn [length]; try done; lia.
Qed.

Lemma order_row_counted (P : DrRow → Prop) `{!∀ r, Decision (P r)}
    (l : list DrRow) (o : DrRow) :
  o ∈ l → ¬ is_fee o → P o →
  (length (filter P (filter is_fee l)) + 1 ≤ length (filter P l))%nat.
Proof.
  intros Hin Hnf Hp. induction l as [|x l IH]; [by apply not_elem_of_nil in Hin|].
  apply elem_of_cons in Hin as [<-|Hin].
  - rewrite (filter_cons_False is_fee) by done. rewrite (filter_cons_True P) by done.
    cbn [length]. pose proof (filter_fee_length_le P l). lia.
  - specialize (IH Hin). rewrite !filter_cons.
    destruct (decide (is_fee x)), (decide (P x)); rewrite ?filter_cons;
      repeat case_decide; cbn [length]; try done; lia.
Qed.

Lemma order_not_fee (r : DrRow) : is_order r → ¬ is_fee r.
Proof. unfold is_fee, is_order. intros -> H. discriminate H. Qed.

(** X11. What an aggregated order holds. It stands for one order row of the
    table; its gross value is that row's order_value_gross plus
    marketing_offer_discount (a missing cell counting as zero), its
    adjustment the group sum of adjustment_gross over the fee rows with its
    order number (a missing cell or a NaN total counting as zero), its net
    value the float64 sum of the two, its fee count the number of those fee
    rows. Its row count exceeds the fee count by at least one (the order
    row itself). The refund flag is only set when some fee row of the
    order has a non-zero adjustment; an order without fee rows has
    adjustment zero and no refund flag. *)
Theorem aggregated_order_contents (dr_df : list DrRow) (a : AggRow) :
  a ∈ aggregate_order_values dr_df →
  ∃ o, o ∈ dr_df ∧ is_order o
    ∧ agg_order_number a = order_number o
    ∧ agg_gross_order_value a
      = (fillna0 (order_value_gross o) + fillna0 (marketing_offer_discount o))%float
    ∧ agg_unavailable_items_adjustment a
      = fillna0 (group_sum (fillna0 ∘ adjustment_gross
                              <$> group_of (order_number o) (filter is_fee dr_df)))
    ∧ agg_net_sales_value a
      = (agg_gross_order_value a + agg_unavailable_items_adjustment a)%float
    ∧ agg_fees_row_count a
      = length (group_of (order_number o) (filter is_fee dr_df))
    ∧ (agg_fees_row_count a + 1 ≤ agg_order_row_count a)%nat
    ∧ (agg_has_refund a = true →
       ∃ f, f ∈ dr_df ∧ is_fee f ∧ order_number f = order_number o
            ∧ (adjustment_gross f =? 0)%float = false)
    ∧ (agg_fees_row_count a = 0%nat →
       agg_unavailable_items_adjustment a = 0%float ∧ agg_has_refund a = false).
Proof.
  unfold aggregate_order_values.
  destruct (filter is_order dr_df) as [|x l] eqn:E; [by intros ?%not_elem_of_nil|].
  rewrite <- E. intros (o & -> & Ho)%list_elem_of_fmap.
  apply list_elem_of_filter in Ho as [Hord Hin].
  set (fees := filter is_fee dr_df).
  assert (Hadj : agg_unavailable_items_adjustment (aggregate_row dr_df fees o)
                 = fillna0 (group_sum (fillna0 ∘ adjustment_gross
                                         <$> group_of (order_number o) fees)))
    by apply merged_adjustment.
  assert (Hcnt : agg_fees_row_count (aggregate_row dr_df fees o)
                 = length (group_of (order_number o) fees)).
  { unfold aggregate_row, fees_agg. cbn. by destruct (group_of (order_number o) fees). }
  exists o. split_and!; try done.
  - rewrite Hcnt. cbn. unfold row_counts, group_of, fees.
    apply (order_row_counted _ dr_df o); [done | by apply order_not_fee | done].
  - intros Href. unfold aggregate_row in Href. cbn in Href.
    rewrite merged_adjustment in Href. unfold nonzero in Href.
    apply negb_true_iff in Href.
    destruct (all_zero_or_not (fillna0 ∘ adjustment_gross
                                 <$> group_of (order_number o) fees))
      as [Hz|(adj & Hx & Hnz)].
    { apply group_sum_zero in Hz. rewrite (fillna0_zero _ Hz) in Href. congruence. }
    apply list_elem_of_fmap in Hx as (f & -> & Hf).
    unfold group_of, fees in Hf.
    apply list_elem_of_filter in Hf as [Hnum Hf].
    apply list_elem_of_filter in Hf as [Hfee Hf].
    exists f. split_and!; [done | done | done | ].
    destruct (adjustment_gross f =? 0)%float eqn:Ez; [|done].
    cbn in Hnz. rewrite (fillna0_zero _ Ez) in Hnz. congruence.
  - rewrite Hcnt. intros Hz. unfold aggregate_row. cbn.
    rewrite merged_adjustment. apply nil_length_inv in Hz. by rewrite Hz.
Qed.

Lemma aggregated_order_contents_witness :
  let dr_df := [order_of_10; fee_of_order_of_10] in
  let a := aggregate_row dr_df (filter is_fee dr_df) order_of_10 in
  a ∈ aggregate_order_values dr_df
  ∧ ∃ o, o ∈ dr_df ∧ is_order o ∧ agg_order_number a = order_number o
         ∧ (agg_fees_row_count a + 1 ≤ agg_order_row_count a)%nat.
Proof.
  intros dr_df a.
  assert (Ha : a ∈ aggregate_order_values dr_df) by (vm_compute; left).
  split; [done|].
  destruct (aggregated_order_contents dr_df a Ha)
    as (o & Hin & Hord & Hnum & _ & _ & _ & _ & Hcount & _).
  exists o. done.
Defined.

(** ** The resolvers, further *)

(** X12. The value resolver is deterministic on ties: when it answers with a
    candidate, that candidate passes the acceptance test (difference below
    0.10, or its value positive and the difference divided by it below
    0.01) and is the first of least float64 difference in the list: no
    candidate before it is as close or closer (each is strictly farther,
    or at no distance when its difference is NaN), and no candidate after
    it is strictly closer. For an order of 1.0 and the candidates 1.07
    and 0.93, in that order, the float64 differences are
    0.070000000000000062 and 0.069999999999999951 and the second
    candidate is the answer. *)
Theorem value_resolver_takes_first_closest
    (dr_value : float) (candidates : list Candidate) (best : Candidate) (s : string) :
  _resolve_collision_by_value dr_value candidates = (Some best, s) →
  s = "MATCHED_BY_VALUE" ∧ value_accepts dr_value best
  ∧ (∃ l1 l2, candidates = (l1 ++ best :: l2)%list
       ∧ (∀ c, c ∈ l1 →
            (value_diff dr_value c <=? value_diff dr_value best)%float = false)
       ∧ (∀ c, c ∈ l2 →
            (value_diff dr_value c <? value_diff dr_value best)%float = false))
  ∧ (let c1 := mkCandidate 0 "gp-1" 1.07 None None in
     let c2 := mkCandidate 1 "gp-2" 0.93 None None in
     value_diff 1.0 c1 = 0.070000000000000062%float
     ∧ value_diff 1.0 c2 = 0.069999999999999951%float
     ∧ _resolve_collision_by_value 1.0 [c1; c2] = (Some c2, "MATCHED_BY_VALUE")).
Proof.
  rewrite resolve_by_value_answer. destruct (is_nan dr_value); [done|].
  pose proof (search_first_closest dr_value candidates) as H.
  unfold first_closest in H.
  destruct (fold_left (closer dr_value) candidates (None, infinity)) as [[b|] d];
    cbn [fst snd] in *; [|done].
  destruct H as (-> & Hfin & l1 & l2 & -> & H1 & H2).
  destruct (_ || _) eqn:E; [|done]. intros [= <- <-].
  apply accept_test_spec in E.
  split_and!; [done | done | eauto | by vm_compute | by vm_compute | by vm_compute].
Qed.

Lemma value_resolver_takes_first_closest_witness :
  let c1 := mkCandidate 0 "gp-1" 1.07 None None in
  let c2 := mkCandidate 1 "gp-2" 0.93 None None in
  _resolve_collision_by_value 1.0 [c1; c2] = (Some c2, "MATCHED_BY_VALUE")
  ∧ value_accepts 1.0 c2
  ∧ ∃ l1 l2, [c1; c2] = (l1 ++ c2 :: l2)%list
      ∧ (∀ c, c ∈ l1 → (value_diff 1.0 c <=? value_diff 1.0 c2)%float = false)
      ∧ (∀ c, c ∈ l2 → (value_diff 1.0 c <? value_diff 1.0 c2)%float = false).
Proof.
  intros c1 c2.
  assert (H : _resolve_collision_by_value 1.0 [c1; c2] = (Some c2, "MATCHED_BY_VALUE"))
    by reflexivity.
  split; [done|].
  destruct (value_resolver_takes_first_closest 1.0 [c1; c2] c2 _ H)
    as (_ & Hacc & Hfirst & _).
  done.
Defined.

(** X13. The timestamp resolver does not depend on the order of the
    candidates: on two lists with the same candidates it gives the same
    answer, candidate and reason alike. *)
Theorem timestamp_resolver_ignores_order
    (dr_ts : option Z) (l1 l2 : list Candidate) :
  l1 ≡ₚ l2 →
  _resolve_collision_by_timestamp dr_ts l1 = _resolve_collision_by_timestamp dr_ts l2.
Proof.
  intros Hp. rewrite !resolve_by_timestamp_survivors.
  assert (Hf : filter (window_contains dr_ts) l1 ≡ₚ filter (window_contains dr_ts) l2)
    by (by rewrite Hp).
  pose proof (Permutation_length Hf) as Hlen.
  destruct (filter _ l1) as [|x [|y k]], (filter _ l2) as [|x' [|y' k']];
    try done.
  by apply Permutation_singleton_inj in Hf as ->.
Qed.

Lemma timestamp_resolver_ignores_order_witness :
  let c1 := mkCandidate 0 "gp-1" 12 (Some 1000%Z) (Some 2000%Z) in
  let c2 := mkCandidate 1 "gp-2" 15 (Some 90000%Z) (Some 91000%Z) in
  [c1; c2] ≡ₚ [c2; c1]
  ∧ _resolve_collision_by_timestamp (Some 5000%Z) [c1; c2]
    = _resolve_collision_by_timestamp (Some 5000%Z) [c2; c1].
Proof.
  intros c1 c2.
  assert (Hp : [c1; c2] ≡ₚ [c2; c1]) by apply perm_swap.
  split; [done|].
  exact (timestamp_resolver_ignores_order (Some 5000%Z) [c1; c2] [c2; c1] Hp).
Defined.

(** ** The quality check, further *)

Lemma review_row_fields (r : ResultRow) :
  res_row (review_row r) = res_row r
  ∧ res_order_category (review_row r) = res_order_category r
  ∧ res_match_status (review_row r) = res_match_status r
  ∧ res_net_sales_value (review_row r) = res_net_sales_value r
  ∧ res_gross_order_value (review_row r) = res_gross_order_value r
  ∧ res_unavailable_items_adjustment (review_row r) = res_unavailable_items_adjustment r
  ∧ res_dwh_data (review_row r) = res_dwh_data r
  ∧ (review_row r = r
     ∨ res_match_confidence (review_row r)
       = (λ c, c ++ " - Review") <$> res_match_confidence r).
Proof.
  unfold review_row. destruct (high_variance_mask r); cbn; split_and!; auto.
Qed.

Lemma review_row_not_positive (r : ResultRow) :
  (0 <? net_val r)%float = false → review_row r = r.
Proof.
  intros H. unfold review_row, high_variance_mask, variance_pct. rewrite H.
  by rewrite andb_false_r.
Qed.

(** X14. What the quality check can do to a table: it returns as many rows;
    on every row it leaves the original columns, the category, the status,
    the three aggregated values and the warehouse data as they were, and
    either returns the row unchanged or appends " - Review" to its
    confidence. A row whose category is not a matched one, or whose net
    value is not positive, is never marked, and a table without the
    warehouse value column is returned as it is. *)
Theorem quality_check_only_marks_confidence (result_df : list ResultRow) :
  length (quality_check result_df) = length result_df
  ∧ (has_dwh_column result_df = false → quality_check result_df = result_df)
  ∧ ∀ i r, result_df !! i = Some r →
      ∃ r', quality_check result_df !! i = Some r'
        ∧ res_row r' = res_row r
        ∧ res_order_category r' = res_order_category r
        ∧ res_match_status r' = res_match_status r
        ∧ res_net_sales_value r' = res_net_sales_value r
        ∧ res_gross_order_value r' = res_gross_order_value r
        ∧ res_unavailable_items_adjustment r' = res_unavailable_items_adjustment r
        ∧ res_dwh_data r' = res_dwh_data r
        ∧ (r' = r
           ∨ res_match_confidence r'
             = (λ c, c ++ " - Review") <$> res_match_confidence r)
        ∧ (matched_mask (res_order_category r) = false → r' = r)
        ∧ ((0 <? net_val r)%float = false → r' = r).
Proof.
  unfold quality_check. destruct (has_dwh_column result_df).
  - split_and!; [by rewrite length_fmap | done | ].
    intros i r Hi. exists (review_row r).
    rewrite list_lookup_fmap, Hi.
    destruct (review_row_fields r) as (? & ? & ? & ? & ? & ? & ? & ?).
    split_and!; try done.
    + apply review_row_other.
    + apply review_row_not_positive.
  - split_and!; [done | done | ].
    intros i r Hi. exists r. split_and!; auto.
Qed.

Lemma quality_check_only_marks_confidence_witness :
  let df := propagate (run_matching [order_of_100] [reference_of_124]).1 [order_of_100] in
  ∃ r, df !! 0%nat = Some r
       ∧ ∃ r', quality_check df !! 0%nat = Some r'
               ∧ res_order_category r' = res_order_category r
               ∧ res_dwh_data r' = res_dwh_data r.
Proof.
  intros df.
  destruct (df !! 0%nat) as [r|] eqn:E; [|by vm_compute in E].
  exists r. split; [done|].
  destruct (proj2 (proj2 (quality_check_only_marks_confidence df)) 0%nat r E)
    as (r' & Hr' & _ & Hcat & _ & _ & _ & _ & Hdwh & _).
  exists r'. done.
Defined.

(** ** The matched_amount column *)

Lemma classify_matched_amount (order_category : string) (abs_variance : float) :
  matched_mask order_category = true →
  ((abs_variance <? 0.10)%float = true →
   (classify order_category abs_variance).1 = "Exact Match")
  ∧ ((0.10 <=? abs_variance)%float = true → (abs_variance <? 1.00)%float = true →
     (classify order_category abs_variance).1 = "Minor Variance")
  ∧ ((1.00 <=? abs_variance)%float = true →
     (classify order_category abs_variance).1 = "Value Variance").
Proof.
  intros Hm. rewrite (classify_cascade _ _ Hm).
  destruct (is_nan abs_variance) eqn:En;
  destruct (abs_variance <? 0.02)%float eqn:E1;
  destruct (abs_variance <? 0.10)%float eqn:E3;
  destruct (abs_variance <? 1.00)%float eqn:E5;
  cbn [fst]; split_and!; intros; try done; exfalso; float_order.
Qed.

(** X15. The matched_amount column of a matched row (order_category Matched
    or Matched (Grouped)) of the final table is coarser than the variance
    label: an absolute variance below 0.10 is reported as "Exact Match"
    (rounding differences included), from 0.10 and below 1.00 as
    "Minor Variance", and from 1.00 as "Value Variance". *)
Theorem matched_amount_of_matched_rows
    (dr_df : list DrRow) (dwh_df : list DwhRow) (i : nat) (v : VarianceRow) :
  reconcile dr_df dwh_df !! i = Some v →
  matched_mask (res_order_category (var_row v)) = true →
  ((abs (amount_variance v) <? 0.10)%float = true → matched_amount v = "Exact Match")
  ∧ ((0.10 <=? abs (amount_variance v))%float = true →
     (abs (amount_variance v) <? 1.00)%float = true →
     matched_amount v = "Minor Variance")
  ∧ ((1.00 <=? abs (amount_variance v))%float = true →
     matched_amount v = "Value Variance").
Proof.
  intros Hi Hm. destruct (reconcile_row _ _ _ _ Hi) as (r & Hr & Hv).
  assert (Hrv : var_row v = r) by (rewrite Hv; apply var_row_variance_row).
  rewrite Hrv in Hm.
  destruct (matched_row_of_output _ _ _ _ Hr Hm)
    as (dr_row & m & ref & _ & _ & _ & _ & _ & Hnet & Hdwh).
  assert (Hin : r ∈ match_deliveroo_orders dr_df dwh_df)
    by (by eapply list_elem_of_lookup_2).
  rewrite (has_dwh_column_elem _ r Hin) in Hv by (rewrite Hdwh; eauto).
  rewrite (has_net_column_elem _ r Hin) in Hv by (rewrite Hnet; eauto).
  cbn [andb] in Hv.
  rewrite variance_row_with_values in Hv by (by apply matched_not_non_matched).
  subst v. cbn [matched_amount amount_variance].
  by apply classify_matched_amount.
Qed.

Lemma matched_amount_of_matched_rows_witness :
  let dr_df := [order_of_100] in
  let dwh_df := [reference_of_100_03] in
  ∃ v,
    (reconcile dr_df dwh_df !! 0%nat = Some v
     ∧ matched_mask (res_order_category (var_row v)) = true
     ∧ (abs (amount_variance v) <? 0.10)%float = true)
    ∧ matched_amount v = "Exact Match".
Proof.
  intros dr_df dwh_df.
  destruct (reconcile dr_df dwh_df !! 0%nat) as [v|] eqn:E; [|by vm_compute in E].
  exists v.
  assert (Hm : matched_mask (res_order_category (var_row v)) = true).
  { vm_compute in E. by injection E as <-. }
  assert (Hlt : (abs (amount_variance v) <? 0.10)%float = true).
  { vm_compute in E. injection E as <-. by vm_compute. }
  split; [done|].
  exact (proj1 (matched_amount_of_matched_rows dr_df dwh_df 0%nat v E Hm) Hlt).
Defined.

(** ** The counters of the loop *)

Lemma resolve_counting_spec stats dr_ts net_value available cross_midnight :
  let out := resolve_counting stats dr_ts net_value available cross_midnight in
  (out.1.1, out.1.2) = resolve dr_ts net_value available cross_midnight
  ∧ outcome_total out.2 = S (outcome_total stats)
  ∧ matched_grouped out.2 = matched_grouped stats
  ∧ total_matched out.2
    = (total_matched stats + match out.1.1 with Some _ => 1 | None => 0 end)%nat.
Proof.
  unfold resolve_counting, resolve, outcome_total, total_matched.
  destruct available as [|c1 [|c2 l]].
  - cbn. split_and!; [done | lia | done | lia].
  - destruct cross_midnight; cbn; split_and!; try done; lia.
  - destruct (_resolve_collision_by_timestamp dr_ts (c1 :: c2 :: l)) as [[c|] s1].
    + cbn. split_and!; try done; lia.
    + destruct (_resolve_collision_by_value net_value (c1 :: c2 :: l)) as [[c|] s2];
        cbn; split_and!; try done; lia.
Qed.

(** One turn: the state moves as in [match_step], one outcome counter is
    bumped, and the matched counters follow the used-set. *)
Lemma match_step_counting_spec dwh_df lk ots (st : match_state) stats a :
  lookup_from (dwh_completed_of dwh_df) lk →
  let out := match_step_counting (dwh_completed_of dwh_df) lk ots (st, stats) a in
  out.1 = match_step (dwh_completed_of dwh_df) lk ots st a
  ∧ outcome_total out.2 = S (outcome_total stats)
  ∧ (total_matched out.2 + size st.2 = total_matched stats + size out.1.2)%nat
  ∧ (matched_grouped stats ≤ matched_grouped out.2)%nat
  ∧ (matched_grouped out.2 + total_matched stats
     ≤ matched_grouped stats + total_matched out.2)%nat.
Proof.
  intros Hlk. destruct st as [mr used]. cbn zeta. unfold match_step_counting.
  cbn [snd].
  pose proof (resolve_counting_spec stats (ots !! agg_order_number a ≫= id)
                (float_or_0 (agg_net_sales_value a)) (find_available lk used a).1
                (find_available lk used a).2) as Hrc.
  cbn zeta in Hrc. destruct Hrc as (Hres & Htot & Hgrp & Hmat).
  destruct (find_available lk used a) as [available cross] eqn:Efa. cbn [fst snd] in *.
  destruct (resolve_counting stats _ _ available cross) as [[mc status] stats'] eqn:Erc.
  cbn [fst snd] in *. symmetry in Hres.
  assert (Hav : available = (find_available lk used a).1) by (by rewrite Efa).
  assert (Hcr : cross = (find_available lk used a).2) by (by rewrite Efa).
  destruct (match_step_cases (dwh_completed_of dwh_df) lk ots mr used a)
    as [(c & s & Hres' & Hstep)|(s & Hres' & Hstep)];
    rewrite <- Hav, <- Hcr, Hres in Hres'; injection Hres' as -> ->;
    rewrite Hstep; cbn [fst snd].
  - destruct (matched_candidate_fresh dwh_df lk used a
                (ots !! agg_order_number a ≫= id) c s Hlk) as [Hfresh _].
    { by rewrite <- Hav, <- Hcr. }
    rewrite size_union by set_solver. rewrite size_singleton.
    unfold outcome_total, total_matched in *.
    destruct (agg_has_refund a); cbn; split_and!; try done; lia.
  - unfold outcome_total, total_matched in *. cbn. split_and!; try done; lia.
Qed.

Lemma fold_match_step_counting dwh_df lk ots l (st : match_state) stats :
  lookup_from (dwh_completed_of dwh_df) lk →
  let out := fold_left (match_step_counting (dwh_completed_of dwh_df) lk ots) l (st, stats) in
  out.1 = fold_left (match_step (dwh_completed_of dwh_df) lk ots) l st
  ∧ outcome_total out.2 = (outcome_total stats + length l)%nat
  ∧ (total_matched out.2 + size st.2 = total_matched stats + size out.1.2)%nat
  ∧ (matched_grouped out.2 + total_matched stats
     ≤ matched_grouped stats + total_matched out.2)%nat.
Proof.
  intros Hlk. revert st stats. induction l as [|a l IH]; intros st stats; cbn zeta.
  - cbn. split_and!; try done; lia.
  - cbn [fold_left length].
    pose proof (match_step_counting_spec dwh_df lk ots st stats a Hlk) as Hstep.
    cbn zeta in Hstep.
    destruct (match_step_counting _ lk ots (st, stats) a) as [st1 stats1].
    cbn [fst snd] in Hstep. destruct Hstep as (-> & H1 & H2 & H3 & H4).
    specialize (IH (match_step (dwh_completed_of dwh_df) lk ots st a) stats1).
    cbn zeta in IH. destruct IH as (-> & I1 & I2 & I4).
    split_and!; [done | lia | lia | lia].
Qed.

(** X16. The counters of the matching loop add up. The state the loop
    reaches is the one computed without the counters; the six outcome
    counters (matched direct, cross-midnight, by timestamp, by value, no
    DWH record, collision) sum to the number of order rows, one outcome per
    aggregated order. *)
Theorem outcome_counters_sum_to_orders (dr_df : list DrRow) (dwh_df : list DwhRow) :
  (run_matching_counting dr_df dwh_df).1 = run_matching dr_df dwh_df
  ∧ outcome_total (run_matching_counting dr_df dwh_df).2
    = length (filter is_order dr_df).
Proof.
  unfold run_matching_counting, run_matching. cbv zeta.
  destruct (fold_match_step_counting dwh_df
              (build_dwh_lookup (dwh_completed_of dwh_df))
              (order_timestamps_of (filter is_order dr_df))
              (sort_values_delivery_date (aggregate_order_values dr_df))
              (∅, ∅) stats_zero (build_dwh_lookup_from _)) as (H1 & H2 & _).
  cbv zeta in H1, H2. split; [exact H1|]. etrans; [exact H2|].
  rewrite sort_values_delivery_date_perm.
  rewrite <- (length_fmap agg_order_number), aggregate_order_numbers, length_fmap.
  done.
Qed.

(** X17. The matched counters follow the used-set: the number of accepted
    matches (direct, cross-midnight, by timestamp and by value together)
    equals the number of warehouse ids in the used-set, the figure logged as
    "DWH records used"; and the counter of matches with refund adjustments
    never exceeds the number of accepted matches. *)
Theorem matched_counters_follow_used_set (dr_df : list DrRow) (dwh_df : list DwhRow) :
  total_matched (run_matching_counting dr_df dwh_df).2
  = size (run_matching dr_df dwh_df).2
  ∧ (matched_grouped (run_matching_counting dr_df dwh_df).2
     ≤ total_matched (run_matching_counting dr_df dwh_df).2)%nat.
Proof.
  unfold run_matching_counting, run_matching. cbv zeta.
  destruct (fold_match_step_counting dwh_df
              (build_dwh_lookup (dwh_completed_of dwh_df))
              (order_timestamps_of (filter is_order dr_df))
              (sort_values_delivery_date (aggregate_order_values dr_df))
              (∅, ∅) stats_zero (build_dwh_lookup_from _)) as (H1 & _ & H3 & H4).
  cbv zeta in H1, H3, H4. rewrite <- H1. cbn [snd] in H3. rewrite size_empty in H3.
  unfold total_matched at 2 in H3. unfold total_matched at 1 in H4.
  cbn in H3, H4. split.
  - exact (eq_trans (eq_sym (Nat.add_0_r _)) H3).
  - exact (Nat.le_trans _ _ _ (Nat.le_add_r _ 0) H4).
Qed.

(** ** The key columns of the loaders *)

Lemma string_rev_app_length (a b : string) :
  String.length (string_rev_app a b) = (String.length a + String.length b)%nat.
Proof.
  revert b. induction a as [|c a IH]; intros b; [done|].
  cbn [string_rev_app]. rewrite IH. cbn. lia.
Qed.

Lemma string_take_length (n : nat) (s : string) :
  (String.length (string_take n s) ≤ n)%nat.
Proof.
  revert s. induction n as [|n IH]; intros s; [cbn; lia|].
  destruct s as [|c s]; cbn; [lia|]. specialize (IH s). lia.
Qed.

Lemma lstrip_zeros_length (s : string) :
  (String.length (lstrip_zeros s) ≤ String.length s)%nat.
Proof.
  induction s as [|c s IH]; [done|]. cbn. destruct (Ascii.eqb c "0"); cbn; lia.
Qed.

Lemma lstrip_zeros_head (s : string) (c : ascii) (rest : string) :
  lstrip_zeros s = String c rest → c ≠ "0"%char.
Proof.
  induction s as [|x s IH]; [done|]. cbn.
  destruct (Ascii.eqb x "0") eqn:E; [done|].
  intros [= -> _]. by apply Ascii.eqb_neq in E.
Qed.

Lemma all_digits_rev_app (a b : string) :
  all_digits (string_rev_app a b) = all_digits a && all_digits b.
Proof.
  revert b. induction a as [|c a IH]; intros b; [done|].
  cbn [string_rev_app all_digits]. rewrite IH. cbn [all_digits].
  destruct (is_digit c), (all_digits a), (all_digits b); done.
Qed.

Lemma all_digits_take (n : nat) (s : string) :
  all_digits s = true → all_digits (string_take n s) = true.
Proof.
  revert s. induction n as [|n IH]; intros s; [done|].
  destruct s as [|c s]; [done|]. cbn.
  intros [Hc Hs]%andb_true_iff. by rewrite Hc, IH.
Qed.

Lemma all_digits_lstrip_zeros (s : string) :
  all_digits s = true → all_digits (lstrip_zeros s) = true.
Proof.
  induction s as [|c s IH]; [done|]. cbn [lstrip_zeros].
  destruct (Ascii.eqb c "0"); [|done]. cbn. intros [_ Hs]%andb_true_iff. auto.
Qed.

Lemma digit_not_space (c : ascii) : is_digit c = true → is_space c = false.
Proof. destruct c as [[] [] [] [] [] [] [] []]; by vm_compute. Qed.

Lemma lstrip_digits (s : string) : all_digits s = true → lstrip s = s.
Proof.
  destruct s as [|c s]; [done|]. cbn. intros [Hc _]%andb_true_iff.
  by rewrite (digit_not_space c Hc).
Qed.

Lemma string_append_nil_r (s : string) : String.append s "" = s.
Proof.
  induction s as [|c s IH]; [done|].
  change (String c (String.append s "") = String c s). by rewrite IH.
Qed.

Lemma string_rev_app_rev_app (a b c : string) :
  string_rev_app (string_rev_app a b) c = string_rev_app b (String.append a c).
Proof.
  revert b c. induction a as [|x a IH]; intros b c; [done|].
  cbn [string_rev_app]. by rewrite IH.
Qed.

Lemma string_rev_involutive (s : string) :
  string_rev_app (string_rev_app s "") "" = s.
Proof. rewrite string_rev_app_rev_app. cbn [string_rev_app]. apply string_append_nil_r. Qed.

Lemma strip_digits (s : string) : all_digits s = true → strip s = s.
Proof.
  intros H. unfold strip. rewrite (lstrip_digits s H).
  rewrite lstrip_digits by (by rewrite all_digits_rev_app, H).
  apply string_rev_involutive.
Qed.

Lemma remove_dot_zero_digits (s : string) :
  all_digits s = true → remove_dot_zero s = s.
Proof.
  intros H. unfold remove_dot_zero.
  assert (Hr : all_digits (string_rev_app s "") = true)
    by (by rewrite all_digits_rev_app, H).
  destruct (string_rev_app s "") as [|c1 [|c2 rest]]; [done | done |].
  cbn in Hr. apply andb_true_iff in Hr as [_ Hr]. apply andb_true_iff in Hr as [H2 _].
  destruct (Ascii.eqb c2 ".") eqn:E; [|by rewrite andb_false_r].
  apply Ascii.eqb_eq in E. subst c2. by vm_compute in H2.
Qed.

Lemma keep_digits_all_digits (s : string) : all_digits (keep_digits s) = true.
Proof.
  induction s as [|c s IH]; [done|]. cbn.
  destruct (is_digit c) eqn:E; [|done]. cbn. by rewrite E, IH.
Qed.

Lemma keep_digits_digits (s : string) : all_digits s = true → keep_digits s = s.
Proof.
  induction s as [|c s IH]; [done|]. cbn.
  intros [Hc Hs]%andb_true_iff. by rewrite Hc, IH.
Qed.

(** X18. The order_last4 column derived by the Deliveroo loader is never
    empty and never longer than four characters, and it has no leading
    zero unless it is the single character "0" (what an order number
    ending in "0000" becomes); "0660" gives "660". When the order number
    is written with digits only, so is the key. *)
Theorem order_last4_is_a_short_key (order_number : string) :
  (1 ≤ String.length (extract_order_last4 order_number) ≤ 4)%nat
  ∧ (∀ rest, extract_order_last4 order_number = String "0" rest → rest = "")
  ∧ (all_digits order_number = true →
     all_digits (extract_order_last4 order_number) = true)
  ∧ extract_order_last4 "0660" = "660"
  ∧ extract_order_last4 "1230000" = "0".
Proof.
  unfold extract_order_last4.
  set (t := last4 (remove_dot_zero (strip order_number))).
  assert (Hlen : (String.length t ≤ 4)%nat).
  { unfold t, last4. rewrite string_rev_app_length. cbn [String.length].
    pose proof (string_take_length 4
      (string_rev_app (remove_dot_zero (strip order_number)) "")). lia. }
  pose proof (lstrip_zeros_length t) as Hz.
  split_and!.
  - destruct (lstrip_zeros t) as [|c r] eqn:E; cbn; lia.
  - destruct (lstrip_zeros t) as [|c r] eqn:E; cbn; [lia|].
    cbn [String.length] in Hz. lia.
  - intros rest. destruct (lstrip_zeros t) as [|c r] eqn:E; cbn.
    + by intros [= <-].
    + intros [= -> ->]. by apply lstrip_zeros_head in E.
  - intros Hd.
    assert (Ht : all_digits t = true).
    { unfold t, last4. rewrite (strip_digits _ Hd), (remove_dot_zero_digits _ Hd).
      rewrite all_digits_rev_app, andb_true_r. apply all_digits_take.
      by rewrite all_digits_rev_app, Hd. }
    apply all_digits_lstrip_zeros in Ht.
    by destruct (lstrip_zeros t).
  - reflexivity.
  - reflexivity.
Qed.

(** X19. The mp_order_id cleaned by the warehouse loader consists of digits
    only, and cleaning is idempotent: a cleaned id is left as it is. *)
Theorem cleaned_mp_order_id_is_digits (mp_order_id : string) :
  all_digits (clean_mp_order_id mp_order_id) = true
  ∧ clean_mp_order_id (clean_mp_order_id mp_order_id) = clean_mp_order_id mp_order_id.
Proof.
  assert (H : all_digits (clean_mp_order_id mp_order_id) = true)
    by apply keep_digits_all_digits.
  split; [done|].
  unfold clean_mp_order_id at 1.
  by rewrite (strip_digits _ H), (remove_dot_zero_digits _ H), (keep_digits_digits _ H).
Qed.

Lemma order_last4_is_a_short_key_witness :
  all_digits "990660" = true
  ∧ all_digits (extract_order_last4 "990660") = true.
Proof.
  assert (H : all_digits "990660" = true) by reflexivity.
  split; [done|].
  exact (proj1 (proj2 (proj2 (order_last4_is_a_short_key "990660"))) H).
Defined.

(** ** A warehouse table without completed rows *)

Lemma no_completed_rows (dwh_df : list DwhRow) :
  (∀ row, row ∈ dwh_df → (order_completed row =? 1)%float = false) →
  dwh_completed_of dwh_df = [].
Proof.
  intros H. destruct (dwh_completed_of dwh_df) as [|[i row] l] eqn:E; [done|].
  assert (Hin : (i, row) ∈ dwh_completed_of dwh_df) by (rewrite E; left).
  apply elem_of_dwh_completed in Hin as [Hi Hc].
  rewrite H in Hc by (by eapply list_elem_of_lookup_2). done.
Qed.

Lemma match_step_empty_lookup dc ots (mr : gmap string MatchInfo) (used : gset string) a :
  match_step dc ∅ ots (mr, used) a
  = (<[agg_order_number a :=
         mkMatchInfo false None None "Not Matched" "NO_DWH_RECORD" "N/A" false
           (float_or_0 (agg_net_sales_value a))
           (float_or_0 (agg_gross_order_value a))
           (float_or_0 (agg_unavailable_items_adjustment a))]> mr, used).
Proof.
  unfold match_step, find_available, available_for. by rewrite !lookup_empty.
Qed.

Lemma propagate_row_unmatched_table (mr : gmap string MatchInfo) (dr_row : DrRow) :
  (∀ o m, mr !! o = Some m → mi_matched m = false) →
  res_dwh_data (propagate_row mr dr_row) = None
  ∧ matched_mask (res_order_category (propagate_row mr dr_row)) = false
  ∧ non_matched_mask (res_order_category (propagate_row mr dr_row)) = true.
Proof.
  intros H. unfold propagate_row.
  destruct (mr !! order_number dr_row) as [m|] eqn:E; [|done].
  rewrite (H _ _ E). by destruct (decide (is_order dr_row)).
Qed.

Lemma has_dwh_column_none (df : list ResultRow) :
  (∀ r, r ∈ df → res_dwh_data r = None) → has_dwh_column df = false.
Proof.
  intros H. induction df as [|r l IH]; [done|]. cbn.
  rewrite (H r) by left. cbn. apply IH. intros x Hx. apply H. by right.
Qed.

(** X20. When no row of the warehouse table is completed (in particular when
    it has no rows), nothing is matched: every order is recorded as
    NO_DWH_RECORD and not matched, the used-set stays empty, and in the
    final table every row has variance zero, matched_amount "No DWH Value"
    and variance_explanation "N/A". *)
Theorem nothing_matches_without_completed_rows
    (dr_df : list DrRow) (dwh_df : list DwhRow) :
  (∀ row, row ∈ dwh_df → (order_completed row =? 1)%float = false) →
  (∀ o m, (run_matching dr_df dwh_df).1 !! o = Some m →
     mi_matched m = false ∧ mi_match_status m = "NO_DWH_RECORD")
  ∧ (run_matching dr_df dwh_df).2 = ∅
  ∧ ∀ v, v ∈ reconcile dr_df dwh_df →
      amount_variance v = 0%float ∧ matched_amount v = "No DWH Value"
      ∧ variance_explanation v = "N/A".
Proof.
  intros Hnone. apply no_completed_rows in Hnone.
  assert (Hrun : (∀ o m, (run_matching dr_df dwh_df).1 !! o = Some m →
                    mi_matched m = false ∧ mi_match_status m = "NO_DWH_RECORD")
                 ∧ (run_matching dr_df dwh_df).2 = ∅).
  { unfold run_matching. rewrite Hnone. cbn [build_dwh_lookup fold_left].
    apply (fold_left_invariant
             (λ st : match_state,
                (∀ o m, st.1 !! o = Some m →
                   mi_matched m = false ∧ mi_match_status m = "NO_DWH_RECORD")
                ∧ st.2 = ∅)).
    - intros [mr used] a [Hst Hused]. cbn [fst snd] in *.
      rewrite match_step_empty_lookup. cbn [fst snd]. split; [|done].
      intros o m. destruct (decide (agg_order_number a = o)) as [<-|Hne].
      + rewrite lookup_insert_eq. by intros [= <-].
      + rewrite lookup_insert_ne by done. apply Hst.
    - split; [|done]. intros o m Ho. cbn [fst] in Ho. by rewrite lookup_empty in Ho. }
  destruct Hrun as [Hun Hused]. split_and!; [done | done |].
  assert (Hrows : ∀ r, r ∈ match_deliveroo_orders dr_df dwh_df →
            res_dwh_data r = None
            ∧ non_matched_mask (res_order_category r) = true).
  { intros r Hr. destruct (decide (filter is_order dr_df = [])) as [Hnil|Hne].
    - unfold match_deliveroo_orders in Hr. rewrite Hnil in Hr.
      by apply list_elem_of_fmap in Hr as (x & -> & _).
    - rewrite match_deliveroo_orders_rows in Hr by done. unfold propagate in Hr.
      apply list_elem_of_fmap in Hr as (x & -> & Hx).
      apply list_elem_of_fmap in Hx as (dr_row & -> & _).
      destruct (propagate_row_unmatched_table (run_matching dr_df dwh_df).1 dr_row)
        as (Hd & Hm & Hn); [intros o m Ho; by apply Hun in Ho as [? _]|].
      by rewrite reviewed_other. }
  intros v. unfold reconcile, calculate_variances.
  rewrite has_dwh_column_none by (intros r Hr; by apply Hrows in Hr as [? _]).
  cbn [andb]. intros (r & -> & Hr)%list_elem_of_fmap.
  apply Hrows in Hr as [_ Hn].
  by destruct (variance_row_neutral false r Hn) as (? & ? & ?).
Qed.

Lemma nothing_matches_without_completed_rows_witness :
  let dr_df := [order_of_10; fee_of_order_of_10] in
  let dwh_df := [cancelled_reference] in
  (∀ row, row ∈ dwh_df → (order_completed row =? 1)%float = false)
  ∧ (run_matching dr_df dwh_df).2 = ∅.
Proof.
  intros dr_df dwh_df.
  assert (H : ∀ row, row ∈ dwh_df → (order_completed row =? 1)%float = false).
  { intros row Hrow. by apply list_elem_of_singleton in Hrow as ->. }
  split; [done|].
  exact (proj1 (proj2 (nothing_matches_without_completed_rows dr_df dwh_df H))).
Defined.

(** ** Rows of a matched order *)

(** X21. The rows of a matched order in the table [match_deliveroo_orders]
    returns. The order row takes the order's category, status, aggregated
    values and warehouse row, and its confidence is the order's confidence,
    possibly with " - Review" appended. Every other row with that order
    number, fee or payment, comes back as "Linked to Order" with status
    "LINKED", confidence "Inherited", the order's aggregated values and the
    order's warehouse row, and is never marked for review. *)
Theorem rows_of_matched_orders
    (dr_df : list DrRow) (dwh_df : list DwhRow) (i : nat) (dr_row : DrRow)
    (m : MatchInfo) :
  dr_df !! i = Some dr_row →
  (run_matching dr_df dwh_df).1 !! order_number dr_row = Some m →
  mi_matched m = true →
  ∃ ref, mi_dwh_data m = Some ref
    ∧ (¬ is_order dr_row →
       match_deliveroo_orders dr_df dwh_df !! i
       = Some (mkResultRow dr_row "Linked to Order" "LINKED" (Some "Inherited")
                 (Some (mi_net_sales_value m)) (Some (mi_gross_order_value m))
                 (Some (mi_unavailable_items_adjustment m)) (Some ref)))
    ∧ (is_order dr_row →
       ∃ conf,
         match_deliveroo_orders dr_df dwh_df !! i
         = Some (mkResultRow dr_row (mi_order_category m) (mi_match_status m)
                   (Some conf) (Some (mi_net_sales_value m))
                   (Some (mi_gross_order_value m))
                   (Some (mi_unavailable_items_adjustment m)) (Some ref))
         ∧ (conf = mi_match_confidence m
            ∨ conf = mi_match_confidence m ++ " - Review")).
Proof.
  intros Hi Hm Hmt.
  assert (Hne : filter is_order dr_df ≠ []) by (by eapply run_matching_has_orders).
  pose proof (run_matching_wf _ _ _ _ Hm) as Hwf. unfold mi_wf in Hwf.
  rewrite Hmt in Hwf. destruct Hwf as [[ref Href] Hcat].
  pose proof (match_output_row dr_df dwh_df i dr_row Hne Hi) as Hrow.
  exists ref. split_and!; [done | | ]; intros Hord.
  - rewrite (propagate_row_linked _ _ m Hm Hmt Hord) in Hrow.
    rewrite reviewed_linked in Hrow by done. by rewrite Href in Hrow.
  - rewrite (propagate_row_parent _ _ m Hm Hmt Hord), Href in Hrow.
    unfold reviewed, review_row in Hrow.
    destruct (has_dwh_column _); [destruct (high_variance_mask _)|];
      cbn in Hrow; eauto.
Qed.

Lemma rows_of_matched_orders_witness :
  let dr_df := [order_of_10; fee_of_order_of_10] in
  let dwh_df := [reference_of_8] in
  ∃ m,
    (dr_df !! 1%nat = Some fee_of_order_of_10
     ∧ (run_matching dr_df dwh_df).1 !! order_number fee_of_order_of_10 = Some m
     ∧ mi_matched m = true ∧ ¬ is_order fee_of_order_of_10)
    ∧ (res_match_status <$> match_deliveroo_orders dr_df dwh_df !! 1%nat)
      = Some "LINKED".
Proof.
  intros dr_df dwh_df.
  destruct ((run_matching dr_df dwh_df).1 !! order_number fee_of_order_of_10)
    as [m|] eqn:E; [|by vm_compute in E].
  exists m.
  assert (Hi : dr_df !! 1%nat = Some fee_of_order_of_10) by reflexivity.
  assert (Hmt : mi_matched m = true).
  { vm_compute in E. by injection E as <-. }
  assert (Hno : ¬ is_order fee_of_order_of_10) by (intros H; discriminate H).
  split; [done|].
  destruct (rows_of_matched_orders dr_df dwh_df 1%nat fee_of_order_of_10 m Hi E Hmt)
    as (ref & _ & Hlinked & _).
  by rewrite (Hlinked Hno).
Defined.

Lemma warehouse_lookup_holds_completed_rows_witness :
  let dwh_df := [cancelled_reference; reference_of_8] in
  let key := ("5678", "StoreA", Some 20%Z) in
  (dwh_df !! 1%nat = Some reference_of_8 ∧ (order_completed reference_of_8 =? 1)%float = true
   ∧ dwh_key_of reference_of_8 = Some key)
  ∧ candidate_of 1 reference_of_8
    ∈ default [] (build_dwh_lookup (dwh_completed_of dwh_df) !! key).
Proof.
  intros dwh_df key.
  assert (Hi : dwh_df !! 1%nat = Some reference_of_8) by reflexivity.
  assert (Hc : (order_completed reference_of_8 =? 1)%float = true) by reflexivity.
  assert (Hk : dwh_key_of reference_of_8 = Some key) by reflexivity.
  split; [done|].
  apply (proj2 (proj2 (warehouse_lookup_holds_completed_rows dwh_df key))).
  exists 1%nat, reference_of_8. done.
Defined.
